(** * RFM69 transceiver driver (Source/rfm69.cxx, Source/rfm69.hxx)

    A shallow embedding of the driver class [RFM69] and of the two SPI
    helpers [rf12_xferCmd] and [rf12_xferByte], of the loops of the two
    bridge programs on top of it (Source/rfm12bridge.cxx and the first
    Source/main.cxx), and of the framing loop of the RFM12 program (the
    second Source/main.cxx, module [RF12]).

    - C integers are [Z] with the conversions written out ([u8], [u16],
      [u32], [s32]).
    - The object state is the record [Device]; what the driver does to the
      outside (SPI transfers, clock reads, [rand], [delay]) is recorded in
      [World], and what the outside answers comes from [Env].
    - Member functions are computations in the monad [M]; a run ends in
      [Ok] or stops: [Aborted] is [pabort], [OutOfFuel] is a loop that used
      up the fuel it was given, [UndefinedBehaviour] is an access outside
      an array or a division by zero.
    - [printf] calls are diagnostic output and are left out. *)

From Stdlib Require Import ZArith List Bool Lia.
Import ListNotations.
Local Open Scope Z_scope.

(** ** Integer conversions *)

Definition u8 (z : Z) : Z := z mod 256.
Definition u16 (z : Z) : Z := z mod 65536.
Definition u32 (z : Z) : Z := z mod 4294967296.
(** [unsigned int] to [int] on a two's complement machine. *)
Definition s32 (z : Z) : Z := (z + 2147483648) mod 4294967296 - 2147483648.

(** ** Constants of rfm69.hxx and rfm69.cxx *)

Definition RFM69_MAX_PAYLOAD : Z := 64.

(** [RFM69Mode] is kept as the integer behind the enumeration, because
    [setMode] compares its argument with [RFM69_MODE_RX] to reject values
    that are no enumerator. *)
Definition RFM69Mode := Z.
Definition RFM69_MODE_SLEEP : RFM69Mode := 0.
Definition RFM69_MODE_STANDBY : RFM69Mode := 1.
Definition RFM69_MODE_FS : RFM69Mode := 2.
Definition RFM69_MODE_TX : RFM69Mode := 3.
Definition RFM69_MODE_RX : RFM69Mode := 4.

Definition RFM69_DATA_MODE_PACKET : Z := 0.

Definition TIMEOUT_MODE_READY : Z := 100.
Definition TIMEOUT_PACKET_SENT : Z := 100.
Definition TIMEOUT_CSMA_READY : Z := 500.
Definition CSMA_RSSI_THRESHOLD : Z := -85.

Definition RFM69_XO : Z := 32000000.
Definition RFM69_FSTEP : Z := 61.

(** The macros of rfm69registers.h that [rfm69_base_config] uses; the
    header is not part of the sources, so their values are left open. *)
Record RegisterMacros := mkRegisterMacros {
  RF_BITRATEMSB_9600 : Z;
  RF_BITRATELSB_9600 : Z;
  RF_FDEVMSB_20000 : Z;
  RF_FDEVLSB_20000 : Z;
  RF_LNA_GAINSELECT_AUTO : Z;
  RF_RXBW_DCCFREQ_010 : Z;
  RF_RXBW_MANT_20 : Z;
  RF_RXBW_EXP_3 : Z;
  RF_SYNC_ON : Z;
  RF_SYNC_SIZE_4 : Z
}.

(** [rfm69_base_config], as pairs of register and value. *)
Definition rfm69_base_config (h : RegisterMacros) : list (Z * Z) :=
  [ (0x01, 0x04);
    (0x02, 0x00);
    (0x03, RF_BITRATEMSB_9600 h);
    (0x04, RF_BITRATELSB_9600 h);
    (0x05, RF_FDEVMSB_20000 h);
    (0x06, RF_FDEVLSB_20000 h);
    (0x07, 0xD9);
    (0x08, 0x13);
    (0x09, 0x33);
    (0x18, RF_LNA_GAINSELECT_AUTO h);
    (0x19, Z.lor (Z.lor (RF_RXBW_DCCFREQ_010 h) (RF_RXBW_MANT_20 h)) (RF_RXBW_EXP_3 h));
    (0x2C, 0x00);
    (0x2D, 0x06);
    (0x2E, Z.lor (RF_SYNC_ON h) (RF_SYNC_SIZE_4 h));
    (0x2F, 0xDE);
    (0x30, 0xAD);
    (0x31, 0xBE);
    (0x32, 0xEF);
    (0x37, 0xD0);
    (0x38, 0x40);
    (0x3C, 0x8F);
    (0x58, 0x1B);
    (0x6F, 0x30) ].

(** ** State *)

(** Memory reached through a pointer, by offset. *)
Definition buffer := nat -> Z.

Definition poke (b : buffer) (i : nat) (v : Z) : buffer :=
  fun j => if Nat.eqb j i then v else b j.

(** The first [n] bytes of a buffer. *)
Definition bytes_of (b : buffer) (n : nat) : list Z := map b (seq 0 n).

(** The data members of [class RFM69] ([_fd] is the handle of the
    transport, which is [Env] here). *)
Record Device := mkDevice {
  _init : bool;
  _mode : RFM69Mode;
  _highPowerDevice : bool;
  _powerLevel : Z;
  _rssi : Z;
  _autoReadRSSI : bool;
  _ookEnabled : bool;
  _dataMode : Z;
  _highPowerSettings : bool;
  _csmaEnabled : bool;
  _rxBuffer : buffer;
  _rxBufferLength : Z
}.

(** The driver and the trace of what it did to its surroundings.
    [spi_log] holds the bytes of every SPI transfer, newest first. *)
Record World := mkWorld {
  dev : Device;
  spi_log : list (list Z);
  clock_reads : nat;
  rand_calls : nat;
  delays : list Z
}.

Record timespec := mkTimespec { tv_sec : Z; tv_nsec : Z }.

(** The surroundings: the SPI transport behind [ioctl(SPI_IOC_MESSAGE(1))],
    which sees the transfers made so far and the bytes sent now, the
    real-time clock and the random number generator, both by call number. *)
Record Env := mkEnv {
  spi_ioc_status : list (list Z) -> list Z -> Z;
  spi_ioc_rx : list (list Z) -> list Z -> list Z;
  clock_gettime : nat -> timespec;
  rand_value : nat -> Z
}.

(** Values of the constructor [RFM69::RFM69(bool highPowerDevice)]; it
    leaves [_rxBuffer] as it finds it, which is taken as zeros. *)
Definition RFM69_new (highPowerDevice : bool) : Device :=
  {| _init := false;
     _mode := RFM69_MODE_STANDBY;
     _highPowerDevice := highPowerDevice;
     _powerLevel := 0;
     _rssi := -127;
     _autoReadRSSI := true;
     _ookEnabled := false;
     _dataMode := RFM69_DATA_MODE_PACKET;
     _highPowerSettings := false;
     _csmaEnabled := false;
     _rxBuffer := fun _ => 0;
     _rxBufferLength := 0 |}.

Definition fresh_world (d : Device) : World :=
  {| dev := d; spi_log := []; clock_reads := O; rand_calls := O; delays := [] |}.

(** *** Field updates *)

Definition with_dev (f : Device -> Device) (w : World) : World :=
  {| dev := f (dev w); spi_log := spi_log w; clock_reads := clock_reads w;
     rand_calls := rand_calls w; delays := delays w |}.

Definition set_mode (m : RFM69Mode) (d : Device) : Device :=
  {| _init := _init d; _mode := m; _highPowerDevice := _highPowerDevice d;
     _powerLevel := _powerLevel d; _rssi := _rssi d;
     _autoReadRSSI := _autoReadRSSI d; _ookEnabled := _ookEnabled d;
     _dataMode := _dataMode d; _highPowerSettings := _highPowerSettings d;
     _csmaEnabled := _csmaEnabled d; _rxBuffer := _rxBuffer d;
     _rxBufferLength := _rxBufferLength d |}.

Definition set_powerLevel (p : Z) (d : Device) : Device :=
  {| _init := _init d; _mode := _mode d; _highPowerDevice := _highPowerDevice d;
     _powerLevel := p; _rssi := _rssi d;
     _autoReadRSSI := _autoReadRSSI d; _ookEnabled := _ookEnabled d;
     _dataMode := _dataMode d; _highPowerSettings := _highPowerSettings d;
     _csmaEnabled := _csmaEnabled d; _rxBuffer := _rxBuffer d;
     _rxBufferLength := _rxBufferLength d |}.

Definition set_rssi (r : Z) (d : Device) : Device :=
  {| _init := _init d; _mode := _mode d; _highPowerDevice := _highPowerDevice d;
     _powerLevel := _powerLevel d; _rssi := r;
     _autoReadRSSI := _autoReadRSSI d; _ookEnabled := _ookEnabled d;
     _dataMode := _dataMode d; _highPowerSettings := _highPowerSettings d;
     _csmaEnabled := _csmaEnabled d; _rxBuffer := _rxBuffer d;
     _rxBufferLength := _rxBufferLength d |}.

Definition set_highPowerSettings (b : bool) (d : Device) : Device :=
  {| _init := _init d; _mode := _mode d; _highPowerDevice := _highPowerDevice d;
     _powerLevel := _powerLevel d; _rssi := _rssi d;
     _autoReadRSSI := _autoReadRSSI d; _ookEnabled := _ookEnabled d;
     _dataMode := _dataMode d; _highPowerSettings := b;
     _csmaEnabled := _csmaEnabled d; _rxBuffer := _rxBuffer d;
     _rxBufferLength := _rxBufferLength d |}.

Definition set_csmaEnabled (b : bool) (d : Device) : Device :=
  {| _init := _init d; _mode := _mode d; _highPowerDevice := _highPowerDevice d;
     _powerLevel := _powerLevel d; _rssi := _rssi d;
     _autoReadRSSI := _autoReadRSSI d; _ookEnabled := _ookEnabled d;
     _dataMode := _dataMode d; _highPowerSettings := _highPowerSettings d;
     _csmaEnabled := b; _rxBuffer := _rxBuffer d;
     _rxBufferLength := _rxBufferLength d |}.

Definition set_autoReadRSSI (b : bool) (d : Device) : Device :=
  {| _init := _init d; _mode := _mode d; _highPowerDevice := _highPowerDevice d;
     _powerLevel := _powerLevel d; _rssi := _rssi d;
     _autoReadRSSI := b; _ookEnabled := _ookEnabled d;
     _dataMode := _dataMode d; _highPowerSettings := _highPowerSettings d;
     _csmaEnabled := _csmaEnabled d; _rxBuffer := _rxBuffer d;
     _rxBufferLength := _rxBufferLength d |}.

Definition set_rxBuffer (b : buffer) (d : Device) : Device :=
  {| _init := _init d; _mode := _mode d; _highPowerDevice := _highPowerDevice d;
     _powerLevel := _powerLevel d; _rssi := _rssi d;
     _autoReadRSSI := _autoReadRSSI d; _ookEnabled := _ookEnabled d;
     _dataMode := _dataMode d; _highPowerSettings := _highPowerSettings d;
     _csmaEnabled := _csmaEnabled d; _rxBuffer := b;
     _rxBufferLength := _rxBufferLength d |}.

Definition set_rxBufferLength (n : Z) (d : Device) : Device :=
  {| _init := _init d; _mode := _mode d; _highPowerDevice := _highPowerDevice d;
     _powerLevel := _powerLevel d; _rssi := _rssi d;
     _autoReadRSSI := _autoReadRSSI d; _ookEnabled := _ookEnabled d;
     _dataMode := _dataMode d; _highPowerSettings := _highPowerSettings d;
     _csmaEnabled := _csmaEnabled d; _rxBuffer := _rxBuffer d;
     _rxBufferLength := n |}.

Definition set_init (b : bool) (d : Device) : Device :=
  {| _init := b; _mode := _mode d; _highPowerDevice := _highPowerDevice d;
     _powerLevel := _powerLevel d; _rssi := _rssi d;
     _autoReadRSSI := _autoReadRSSI d; _ookEnabled := _ookEnabled d;
     _dataMode := _dataMode d; _highPowerSettings := _highPowerSettings d;
     _csmaEnabled := _csmaEnabled d; _rxBuffer := _rxBuffer d;
     _rxBufferLength := _rxBufferLength d |}.

Definition set_ookEnabled (b : bool) (d : Device) : Device :=
  {| _init := _init d; _mode := _mode d; _highPowerDevice := _highPowerDevice d;
     _powerLevel := _powerLevel d; _rssi := _rssi d;
     _autoReadRSSI := _autoReadRSSI d; _ookEnabled := b;
     _dataMode := _dataMode d; _highPowerSettings := _highPowerSettings d;
     _csmaEnabled := _csmaEnabled d; _rxBuffer := _rxBuffer d;
     _rxBufferLength := _rxBufferLength d |}.

Definition set_dataMode (m : Z) (d : Device) : Device :=
  {| _init := _init d; _mode := _mode d; _highPowerDevice := _highPowerDevice d;
     _powerLevel := _powerLevel d; _rssi := _rssi d;
     _autoReadRSSI := _autoReadRSSI d; _ookEnabled := _ookEnabled d;
     _dataMode := m; _highPowerSettings := _highPowerSettings d;
     _csmaEnabled := _csmaEnabled d; _rxBuffer := _rxBuffer d;
     _rxBufferLength := _rxBufferLength d |}.

Definition log_transfer (tx : list Z) (w : World) : World :=
  {| dev := dev w; spi_log := tx :: spi_log w; clock_reads := clock_reads w;
     rand_calls := rand_calls w; delays := delays w |}.

Definition count_clock_read (w : World) : World :=
  {| dev := dev w; spi_log := spi_log w; clock_reads := S (clock_reads w);
     rand_calls := rand_calls w; delays := delays w |}.

Definition count_rand_call (w : World) : World :=
  {| dev := dev w; spi_log := spi_log w; clock_reads := clock_reads w;
     rand_calls := S (rand_calls w); delays := delays w |}.

Definition log_delay (ms : Z) (w : World) : World :=
  {| dev := dev w; spi_log := spi_log w; clock_reads := clock_reads w;
     rand_calls := rand_calls w; delays := ms :: delays w |}.

(** ** The monad of driver computations *)

Inductive Stop := Aborted | OutOfFuel | UndefinedBehaviour.

Inductive Outcome (A : Type) : Type :=
| Ok (a : A) (w : World)
| Halt (s : Stop).
Arguments Ok {A} a w.
Arguments Halt {A} s.

Definition M (A : Type) : Type := World -> Outcome A.

Definition ret {A} (a : A) : M A := fun w => Ok a w.

Definition bind {A B} (m : M A) (k : A -> M B) : M B :=
  fun w => match m w with
           | Ok a w' => k a w'
           | Halt s => Halt s
           end.

Definition gets {A} (f : Device -> A) : M A := fun w => Ok (f (dev w)) w.
Definition modify (f : Device -> Device) : M unit := fun w => Ok tt (with_dev f w).
Definition halt {A} (s : Stop) : M A := fun _ => Halt s.

Declare Scope driver_scope.
Delimit Scope driver_scope with driver.
Notation "x <- m ;; k" := (bind m (fun x => k))
  (at level 61, m at next level, right associativity) : driver_scope.
Notation "m ;; k" := (bind m (fun _ => k))
  (at level 61, right associativity) : driver_scope.
Local Open Scope driver_scope.

(** [while (cond) body] on local variables of type [S]; [fuel] bounds the
    number of times the condition is evaluated. *)
Fixpoint while {S : Type} (fuel : nat) (cond : S -> M bool) (body : S -> M S)
  (s : S) : M S :=
  match fuel with
  | O => halt OutOfFuel
  | Datatypes.S fuel' =>
      b <- cond s ;;
      if b then (s' <- body s ;; while fuel' cond body s') else ret s
  end.

(** [for (i = 0; i < n; i++) body(i)], counting up from [i]. *)
Fixpoint for_loop (n : nat) (i : nat) (body : nat -> M unit) : M unit :=
  match n with
  | O => ret tt
  | Datatypes.S n' => body i ;; for_loop n' (Datatypes.S i) body
  end.

Section Driver.

Variable env : Env.

(** ** SPI helpers *)

(** [ioctl(fd, SPI_IOC_MESSAGE(1), xfer)] followed by the status test:
    [pabort] when the status is negative. *)
Definition spi_transfer (tx : list Z) : M (list Z) := fun w =>
  if spi_ioc_status env (spi_log w) tx <? 0 then Halt Aborted
  else Ok (spi_ioc_rx env (spi_log w) tx) (log_transfer tx w).

Definition rf12_xferCmd (cmd : Z) : M Z :=
  rx <- spi_transfer [Z.land (Z.shiftr cmd 8) 255; Z.land cmd 255] ;;
  ret (Z.lor (Z.shiftl (u8 (nth 0 rx 0)) 8) (u8 (nth 1 rx 0))).

Definition rf12_xferByte (cmd : Z) : M Z :=
  rx <- spi_transfer [cmd] ;;
  ret (u8 (nth 0 rx 0)).

Definition HAL_GetTick : M Z := fun w =>
  let spec := clock_gettime env (clock_reads w) in
  Ok (u32 (tv_sec spec + Z.quot (tv_nsec spec) 1000000)) (count_clock_read w).

Definition rand : M Z := fun w =>
  Ok (rand_value env (rand_calls w)) (count_rand_call w).

Definition delay (ms : Z) : M unit := fun w => Ok tt (log_delay ms w).

(** ** Register access *)

Definition chipSelect : M unit := ret tt.
Definition chipUnselect : M unit := ret tt.

Definition readRegister (reg : Z) : M Z :=
  if reg >? 127 then ret 0
  else
    chipSelect ;;
    value <- rf12_xferCmd (u16 (Z.shiftl reg 8)) ;;
    chipUnselect ;;
    ret (u8 value).

Definition writeRegister (reg value : Z) : M unit :=
  if reg >? 127 then ret tt
  else
    chipSelect ;;
    rf12_xferCmd (u16 (Z.lor (Z.shiftl (Z.lor reg 128) 8) (Z.land value 255))) ;;
    chipUnselect ;;
    ret tt.

(** ** Mode state machine and power amplifier *)

Definition setHighPowerSettings (enable : bool) : M unit :=
  hp <- gets _highPowerDevice ;;
  let enable := if enable && negb hp then false else enable in
  writeRegister 0x5A (if enable then 0x5D else 0x55) ;;
  writeRegister 0x5C (if enable then 0x7C else 0x70).

Definition setMode (mode : RFM69Mode) : M RFM69Mode :=
  cur <- gets _mode ;;
  if (mode =? cur) || (mode >? RFM69_MODE_RX) then ret cur
  else
    writeRegister 0x01 (u8 (Z.shiftl mode 2)) ;;
    hp <- gets _highPowerDevice ;;
    (if hp then
       if mode =? RFM69_MODE_RX then
         hps <- gets _highPowerSettings ;;
         if hps then setHighPowerSettings false else ret tt
       else if mode =? RFM69_MODE_TX then
         hps <- gets _highPowerSettings ;;
         if hps then setHighPowerSettings true else ret tt
       else ret tt
     else ret tt) ;;
    modify (set_mode mode) ;;
    gets _mode.

Definition setPASettings (forcePA : Z) : M unit :=
  hp <- gets _highPowerDevice ;;
  writeRegister 0x13 (u8 (Z.lor 0x0A (if hp then 0x00 else 0x10))) ;;
  if forcePA =? 0 then
    if hp then
      v <- readRegister 0x11 ;;
      writeRegister 0x11 (u8 (Z.lor (Z.land v 0x1F) 0x40))
    else
      v <- readRegister 0x11 ;;
      writeRegister 0x11 (u8 (Z.lor (Z.land v 0x1F) 0x80))
  else
    let pa := 0 in
    let pa := if Z.land forcePA 0x01 =? 0 then pa else u8 (Z.lor pa 0x80) in
    let pa := if Z.land forcePA 0x02 =? 0 then pa else u8 (Z.lor pa 0x40) in
    let pa := if Z.land forcePA 0x04 =? 0 then pa else u8 (Z.lor pa 0x20) in
    modify (set_highPowerSettings (negb (Z.land forcePA 0x08 =? 0))) ;;
    hps <- gets _highPowerSettings ;;
    setHighPowerSettings hps ;;
    v <- readRegister 0x11 ;;
    writeRegister 0x11 (u8 (Z.lor (Z.land v 0x1F) pa)).

Definition setPowerLevel (power : Z) : M unit :=
  let power := if power >? 31 then 31 else power in
  v <- readRegister 0x11 ;;
  writeRegister 0x11 (u8 (Z.lor (Z.land v 0xE0) power)) ;;
  modify (set_powerLevel power).

(** [dBm] is an [int8_t]; the result is 0 or -1. *)
Definition setPowerDBm (dBm : Z) : M Z :=
  hp <- gets _highPowerDevice ;;
  if (dBm <? -18) || (dBm >? 20) then ret (-1)
  else if negb hp && (dBm >? 13) then ret (-1)
  else if hp && (dBm <? -2) then ret (-1)
  else
    (if negb hp then
       let powerLevel := u8 (dBm + 18) in
       writeRegister 0x11 (u8 (Z.lor 0x80 powerLevel))
     else if (dBm >=? -2) && (dBm <=? 13) then
       let powerLevel := u8 (dBm + 18) in
       writeRegister 0x11 (u8 (Z.lor 0x40 powerLevel)) ;;
       modify (set_highPowerSettings false) ;;
       hps <- gets _highPowerSettings ;;
       setHighPowerSettings hps
     else if (dBm >? 13) && (dBm <=? 17) then
       let powerLevel := u8 (dBm + 14) in
       writeRegister 0x11 (u8 (Z.lor 0x60 powerLevel)) ;;
       modify (set_highPowerSettings false) ;;
       hps <- gets _highPowerSettings ;;
       setHighPowerSettings hps
     else
       let powerLevel := u8 (dBm + 11) in
       writeRegister 0x11 (u8 (Z.lor 0x60 powerLevel)) ;;
       modify (set_highPowerSettings true) ;;
       hps <- gets _highPowerSettings ;;
       setHighPowerSettings hps) ;;
    ret 0.

(** ** Status helpers *)

Definition clearFIFO : M unit := writeRegister 0x28 0x10.

(** The loop condition [a && (HAL_GetTick() - timeEntry) < timeout]: the
    clock is read only when [a] holds, and the difference is taken in
    [uint32_t]. *)
Definition timed_cond (a : M bool) (timeEntry timeout : Z) : M bool :=
  b <- a ;;
  if b then
    now <- HAL_GetTick ;;
    ret (u32 (now - timeEntry) <? timeout)
  else ret false.

(** A wait of the form
    [while (busy(readRegister(reg)) && (HAL_GetTick() - timeEntry) < timeout);] *)
Definition poll_register (fuel : nat) (reg : Z) (busy : Z -> bool)
  (timeEntry timeout : Z) : M unit :=
  while fuel
    (fun _ => timed_cond (r <- readRegister reg ;; ret (busy r)) timeEntry timeout)
    (fun _ => ret tt) tt.

Definition waitForModeReady (fuel : nat) : M unit :=
  timeEntry <- HAL_GetTick ;;
  poll_register fuel 0x27 (fun r => Z.land r 0x80 =? 0) timeEntry TIMEOUT_MODE_READY.

Definition waitForPacketSent (fuel : nat) : M unit :=
  timeEntry <- HAL_GetTick ;;
  poll_register fuel 0x28 (fun r => Z.land r 0x08 =? 0) timeEntry TIMEOUT_PACKET_SENT.

Definition sleep : M unit := setMode RFM69_MODE_SLEEP ;; ret tt.

Definition readRSSI : M Z :=
  v <- readRegister 0x24 ;;
  modify (set_rssi (Z.quot (- v) 2)) ;;
  gets _rssi.

Definition channelFree : M bool :=
  rssi <- readRSSI ;;
  if rssi <? CSMA_RSSI_THRESHOLD then ret true else ret false.

Definition setAutoReadRSSI (enable : bool) : M unit := modify (set_autoReadRSSI enable).
Definition setCSMA (enable : bool) : M unit := modify (set_csmaEnabled enable).

(** ** Receive pipeline *)

(** The loop of [_receive] that reads the FIFO,
    [while ((readRegister(0x28) & 0x40) && (bytesRead < dataLength)) { ... }],
    on the locals [bytesRead] and the memory behind [data]. *)
Definition drain_fifo (fuel : nat) (data : buffer) (dataLength : Z) : M (Z * buffer) :=
  while fuel
    (fun loc : Z * buffer =>
       f <- readRegister 0x28 ;;
       ret (negb (Z.land f 0x40 =? 0) && (fst loc <? dataLength)))
    (fun loc : Z * buffer =>
       b <- readRegister 0x00 ;;
       ret (fst loc + 1, poke (snd loc) (Z.to_nat (fst loc)) b))
    (0, data).

(** [_receive(data, dataLength)]: the result is the returned [int] and the
    memory behind [data] afterwards. *)
Definition _receive (fuel : nat) (data : buffer) (dataLength : Z) : M (Z * buffer) :=
  mode <- gets _mode ;;
  (if negb (RFM69_MODE_RX =? mode) then
     setMode RFM69_MODE_RX ;; waitForModeReady fuel
   else ret tt) ;;
  readRegister 0x24 ;;
  readRegister 0x27 ;;
  r <- readRegister 0x28 ;;
  if negb (Z.land r 0x04 =? 0) then
    setMode RFM69_MODE_STANDBY ;;
    loc <- drain_fifo fuel data dataLength ;;
    autoRead <- gets _autoReadRSSI ;;
    (if autoRead then readRSSI ;; ret tt else ret tt) ;;
    setMode RFM69_MODE_RX ;;
    v <- readRegister 0x3D ;;
    writeRegister 0x3D (u8 (Z.lor v 0x04)) ;;
    ret (s32 (fst loc), snd loc)
  else ret (0, data).

(** [memcpy(data, _rxBuffer, dataLength)]: [_rxBuffer] is an array of
    [RFM69_MAX_PAYLOAD] bytes, reading more is outside the array. *)
Definition memcpy_from_rxBuffer (data : buffer) (dataLength : Z) : M buffer :=
  if dataLength >? RFM69_MAX_PAYLOAD then halt UndefinedBehaviour
  else
    src <- gets _rxBuffer ;;
    ret (fun i => if (Z.of_nat i <? dataLength) then src i else data i).

Definition receive (fuel : nat) (data : buffer) (dataLength : Z) : M (Z * buffer) :=
  len <- gets _rxBufferLength ;;
  if len >? 0 then
    data' <- memcpy_from_rxBuffer data dataLength ;;
    bytesRead <- gets _rxBufferLength ;;
    modify (set_rxBufferLength 0) ;;
    ret (s32 bytesRead, data')
  else _receive fuel data dataLength.

(** ** Send pipeline *)

(** The wait for the RSSI sample:
    [timeEntry = HAL_GetTick(); while (((readRegister(0x23) & 0x02) == 0) && ...< 10);]
    It returns [timeEntry]. *)
Definition waitForRssiSample (fuel : nat) : M Z :=
  timeEntry <- HAL_GetTick ;;
  poll_register fuel 0x23 (fun r => Z.land r 0x02 =? 0) timeEntry 10 ;;
  ret timeEntry.

Definition restartRx : M unit :=
  v <- readRegister 0x3D ;;
  writeRegister 0x3D (u8 (Z.lor (Z.land v 0xFB) 0x20)).

(** The body of the carrier sense loop of [send]. [_receive] writes into
    [_rxBuffer] itself, so the buffer is stored back whatever it returns. *)
Definition csma_body (fuel : nat) : M unit :=
  r <- rand ;;
  delay (u32 (Z.rem r 10)) ;;
  rxb <- gets _rxBuffer ;;
  res <- _receive fuel rxb RFM69_MAX_PAYLOAD ;;
  modify (set_rxBuffer (snd res)) ;;
  if fst res >? 0 then
    modify (set_rxBufferLength (u32 (fst res))) ;;
    restartRx ;;
    waitForRssiSample fuel ;;
    ret tt
  else ret tt.

(** [while ((false == channelFree()) && ((HAL_GetTick() - timeEntry) < TIMEOUT_CSMA_READY)) { ... }] *)
Definition csma_loop (fuel : nat) (timeEntry : Z) : M unit :=
  while fuel
    (fun _ => timed_cond (free <- channelFree ;; ret (negb free)) timeEntry TIMEOUT_CSMA_READY)
    (fun _ => csma_body fuel) tt.

(** The block [if (true == _csmaEnabled) { ... }] of [send]. *)
Definition csma_wait (fuel : nat) : M unit :=
  restartRx ;;
  setMode RFM69_MODE_RX ;;
  timeEntry <- waitForRssiSample fuel ;;
  csma_loop fuel timeEntry ;;
  setMode RFM69_MODE_STANDBY ;;
  ret tt.

(** The rest of [send] from "transfer packet to FIFO" on. *)
Definition transmit (fuel : nat) (data : buffer) (dataLength : Z) : M Z :=
  chipSelect ;;
  rf12_xferByte (Z.lor 0x00 0x80) ;;
  rf12_xferByte (u8 dataLength) ;;
  for_loop (Z.to_nat dataLength) 0 (fun i => rf12_xferByte (data i) ;; ret tt) ;;
  chipUnselect ;;
  setMode RFM69_MODE_TX ;;
  waitForPacketSent fuel ;;
  setMode RFM69_MODE_STANDBY ;;
  ret (s32 dataLength).

Definition send (fuel : nat) (data : buffer) (dataLength : Z) : M Z :=
  mode <- gets _mode ;;
  (if negb (RFM69_MODE_SLEEP =? mode) then
     setMode RFM69_MODE_STANDBY ;; waitForModeReady fuel
   else ret tt) ;;
  clearFIFO ;;
  let dataLength := if dataLength >? RFM69_MAX_PAYLOAD then RFM69_MAX_PAYLOAD else dataLength in
  if 0 =? dataLength then ret 0
  else
    csma <- gets _csmaEnabled ;;
    (if csma then csma_wait fuel else ret tt) ;;
    transmit fuel data dataLength.

(** ** AES *)

(** [aesKey] is [None] for a null pointer. *)
Definition setAESEncryption (aesKey : option buffer) (keyLength : Z) : M bool :=
  let enable :=
    match aesKey with
    | Some _ => 16 =? keyLength
    | None => false
    end in
  setMode RFM69_MODE_STANDBY ;;
  (if enable then
     chipSelect ;;
     rf12_xferByte (Z.lor 0x3E 0x80) ;;
     for_loop (Z.to_nat keyLength) 0
       (fun i => rf12_xferByte (match aesKey with Some k => k i | None => 0 end) ;; ret tt) ;;
     chipUnselect
   else ret tt) ;;
  v <- readRegister 0x3D ;;
  writeRegister 0x3D (u8 (Z.lor (Z.land v 0xFE) (if enable then 1 else 0))) ;;
  ret enable.

(** ** Configuration *)

(** [setCustomConfig(config, length)]: [config] is the memory behind the
    pointer, one pair of register and value per index. *)
Definition setCustomConfig (config : nat -> Z * Z) (length : Z) : M unit :=
  for_loop (Z.to_nat length) 0
    (fun i => writeRegister (fst (config i)) (snd (config i))).

(** [init()], with the macros of the missing header as a parameter;
    [sizeof(rfm69_base_config) / 2] is the number of rows of the table. *)
Definition init (h : RegisterMacros) : M bool :=
  setCustomConfig (fun i => nth i (rfm69_base_config h) (0, 0))
    (Z.of_nat (List.length (rfm69_base_config h))) ;;
  setPASettings 0 ;;
  clearFIFO ;;
  modify (set_init true) ;;
  gets _init.

(** The statement at the head of the five configuration setters:
    [if (RFM69_MODE_RX == _mode || RFM69_MODE_TX == _mode) setMode(RFM69_MODE_STANDBY);] *)
Definition leaveActiveMode : M unit :=
  mode <- gets _mode ;;
  if (RFM69_MODE_RX =? mode) || (RFM69_MODE_TX =? mode)
  then setMode RFM69_MODE_STANDBY ;; ret tt
  else ret tt.

(** [frequency] is an [unsigned int]. *)
Definition setFrequency (frequency : Z) : M unit :=
  leaveActiveMode ;;
  let frequency := frequency / RFM69_FSTEP in
  writeRegister 0x07 (u8 (Z.shiftr frequency 16)) ;;
  writeRegister 0x08 (u8 (Z.shiftr frequency 8)) ;;
  writeRegister 0x09 (u8 frequency).

Definition setFrequencyDeviation (frequency : Z) : M unit :=
  leaveActiveMode ;;
  let frequency := frequency / RFM69_FSTEP in
  writeRegister 0x05 (u8 (Z.shiftr frequency 8)) ;;
  writeRegister 0x06 (u8 frequency).

(** [bitrate = RFM69_XO / bitrate] divides by zero for a bitrate of 0. *)
Definition setBitrate (bitrate : Z) : M unit :=
  leaveActiveMode ;;
  if bitrate =? 0 then halt UndefinedBehaviour
  else
    let bitrate := RFM69_XO / bitrate in
    writeRegister 0x03 (u8 (Z.shiftr bitrate 8)) ;;
    writeRegister 0x04 (u8 bitrate).

Definition setOOKMode (enable : bool) : M unit :=
  leaveActiveMode ;;
  (if negb enable then
     v <- readRegister 0x02 ;;
     writeRegister 0x02 (u8 (Z.land v 0xE7))
   else
     v <- readRegister 0x02 ;;
     writeRegister 0x02 (u8 (Z.lor (Z.land v 0xE7) 0x08))) ;;
  modify (set_ookEnabled enable).

(** [dataMode] is the integer behind [RFM69DataMode], whose only
    enumerator is [RFM69_DATA_MODE_PACKET]. *)
Definition setDataMode (dataMode : Z) : M unit :=
  leaveActiveMode ;;
  if dataMode =? RFM69_DATA_MODE_PACKET then
    v <- readRegister 0x02 ;;
    writeRegister 0x02 (u8 (Z.land v 0x1F)) ;;
    modify (set_dataMode dataMode)
  else ret tt.

(** [dumpRegisters()]; [DEBUG] says whether the symbol of that name was
    defined when the file was compiled. *)
Definition dumpRegisters (DEBUG : bool) : M unit :=
  if DEBUG then
    for_loop 0x71 1 (fun i => readRegister (u8 (Z.of_nat i)) ;; ret tt)
  else ret tt.

(** ** The bridge programs (rfm12bridge.cxx and the first main.cxx) *)

(** [usleep]: the time that passes shows in what the clock answers. *)
Definition usleep (us : Z) : M unit := ret tt.

(** [sendudp(buf, size)]: the datagram leaves through a socket, and every
    failure on the way is passed over in silence; nothing of [World]
    changes. *)
Definition sendudp (payload : list Z) : M unit := ret tt.

(** What both programs do before their loop, on the driver made by
    [RFM69 rfm69(false)]; only rfm12bridge.cxx calls [dumpRegisters]. *)
Definition bridge_setup (h : RegisterMacros) (DEBUG : bool) : M unit :=
  init h ;; sleep ;; dumpRegisters DEBUG ;; setPowerDBm 13 ;; ret tt.

Definition main_setup (h : RegisterMacros) : M unit :=
  init h ;; sleep ;; setPowerDBm 13 ;; ret tt.

(** One round of the loop of rfm12bridge.cxx on the array [rx] of 64
    bytes. The result is the array and the datagram handed to [sendudp],
    if any; a size above 64 reads outside [rx]. *)
Definition bridge_round (fuel : nat) (rx : buffer) : M (buffer * option (list Z)) :=
  usleep 1500 ;;
  res <- receive fuel rx 64 ;;
  if fst res >? 0 then
    if fst res >? 64 then halt UndefinedBehaviour
    else
      let payload := bytes_of (snd res) (Z.to_nat (fst res)) in
      sendudp payload ;;
      ret (snd res, Some payload)
  else ret (snd res, None).

(** One round of the loop of the first main.cxx: [sendudp(rx + 1, bytesReceived - 1)]. *)
Definition main_round (fuel : nat) (rx : buffer) : M (buffer * option (list Z)) :=
  delay 10 ;;
  res <- receive fuel rx 64 ;;
  if fst res >? 0 then
    if fst res >? 64 then halt UndefinedBehaviour
    else
      let payload := map (snd res) (seq 1 (Z.to_nat (fst res - 1))) in
      sendudp payload ;;
      ret (snd res, Some payload)
  else ret (snd res, None).

(** The first [n] rounds of [while (1)], with the datagrams in the order
    in which they were sent. *)
Fixpoint rounds (round : buffer -> M (buffer * option (list Z))) (n : nat)
  (rx : buffer) : M (list (list Z)) :=
  match n with
  | O => ret []
  | S n' =>
      res <- round rx ;;
      later <- rounds round n' (fst res) ;;
      ret (match snd res with
           | Some payload => payload :: later
           | None => later
           end)
  end.

End Driver.

(** ** The RFM12 program (the second main.cxx) *)

Module RF12.

(** The locals of [main] that live across the rounds of its loop:
    [unsigned char buf[1024]], [int len] and [unsigned int size]. *)
Record Locals := mkLocals { buf : buffer; len : Z; size : Z }.

(** [switch (buf[4])]: the size of a frame by its fifth byte, the
    characters M, e, f, L, T and g, and 6 for any other. *)
Definition frame_size (tag : Z) : Z :=
  if tag =? 77 then 11
  else if tag =? 101 then 9
  else if tag =? 102 then 19
  else if tag =? 76 then 29
  else if tag =? 84 then 25
  else if tag =? 103 then 19
  else 6.

(** [buf[len] = byteRead & 0xff; len++;] *)
Definition store_byte (loc : Locals) (byteRead : Z) : Locals :=
  mkLocals (poke (buf loc) (Z.to_nat (len loc)) (Z.land byteRead 0xff))
    (len loc + 1) (size loc).

(** [if ((len == 5) && (size == 5)) { switch (buf[4]) ... }] *)
Definition choose_size (loc : Locals) : Locals :=
  if (len loc =? 5) && (size loc =? 5)
  then mkLocals (buf loc) (len loc) (frame_size (buf loc 4%nat))
  else loc.

(** One pass through the body of
    [while ((status & 0x0200) != 0x0200) { ... }], with the locals, the
    status read at its end, and whether the [break] was reached. *)
Definition read_step (env : Env) (loc : Locals) (status : Z) : M (Locals * Z * bool) :=
  usleep 750 ;;
  loc1 <- (if Z.land status 0x8000 =? 0x8000 then
             byteRead <- rf12_xferCmd env 0xB000 ;;
             if len loc <=? 1023 then ret (store_byte loc byteRead) else ret loc
           else ret loc) ;;
  status' <- rf12_xferCmd env 0x0000 ;;
  let loc2 := choose_size loc1 in
  ret (loc2, status', len loc2 >=? size loc2).

Definition read_frame (env : Env) (fuel : nat) (loc : Locals) (status : Z) :
  M (Locals * Z * bool) :=
  while fuel
    (fun s : Locals * Z * bool =>
       ret (negb (Z.land (snd (fst s)) 0x0200 =? 0x0200) && negb (snd s)))
    (fun s : Locals * Z * bool => read_step env (fst (fst s)) (snd (fst s)))
    (loc, status, false).

(** One round of [while (1)]. The result is the locals and the datagram
    handed to [sendudp], if any. The loop that prints the frame reads
    [len] bytes of [buf] and counts [len] down to 0; [sendudp] reads
    [size] bytes of it. *)
Definition main_round (env : Env) (fuel : nat) (loc : Locals) :
  M (Locals * option (list Z)) :=
  usleep 1500 ;;
  status <- rf12_xferCmd env 0x0000 ;;
  s <- read_frame env fuel loc status ;;
  let loc := fst (fst s) in
  if (len loc >=? 1024) || (len loc >=? size loc) then
    rf12_xferCmd env 0x8208 ;;
    if (len loc >? 1024) || (size loc >? 1024) then halt UndefinedBehaviour
    else
      let payload := bytes_of (buf loc) (Z.to_nat (size loc)) in
      sendudp payload ;;
      rf12_xferCmd env 0x82C8 ;;
      rf12_xferCmd env 0xCA81 ;;
      rf12_xferCmd env 0xCA83 ;;
      ret (mkLocals (buf loc) 0 5, Some payload)
  else ret (loc, None).

(** The status word the chip returns after the transfers [log]. *)
Definition status_word (env : Env) (log : list (list Z)) : Z :=
  let rx := spi_ioc_rx env log [0; 0] in
  Z.lor (Z.shiftl (u8 (nth 0 rx 0)) 8) (u8 (nth 1 rx 0)).

(** A chip whose status always shows a byte in the FIFO or an empty FIFO. *)
Definition fifo_answers (env : Env) : Prop :=
  forall log,
    Z.land (status_word env log) 0x8000 = 0x8000 \/
    Z.land (status_word env log) 0x0200 = 0x0200.

(** What holds of the locals between two passes of the loops: the size is
    still 5 with fewer than 5 bytes read, or it is the size for the fifth
    byte, with the frame not yet complete. *)
Definition framing (loc : Locals) : Prop :=
  (size loc = 5 /\ 0 <= len loc < 5) \/
  (size loc = frame_size (buf loc 4%nat) /\ 5 <= len loc < size loc).

(** A chip with a byte in the FIFO at every status read; the bytes are
    all the character M. *)
Definition stream_env : Env :=
  {| spi_ioc_status := fun _ _ => 0;
     spi_ioc_rx := fun _ tx => if nth 0 tx 0 =? 0 then [0x80; 0] else [0; 77];
     clock_gettime := fun n => {| tv_sec := Z.of_nat n; tv_nsec := 0 |};
     rand_value := fun _ => 0 |}.

End RF12.

(** ** Assumptions on the surroundings and derived notions *)

(** No SPI transfer fails: [ioctl] never returns a negative status. *)
Definition transport_ok (env : Env) : Prop :=
  forall log tx, 0 <= spi_ioc_status env log tx.

(** The byte [readRegister] returns for [reg] after the transfers [log]. *)
Definition read_reply (env : Env) (log : list (list Z)) (reg : Z) : Z :=
  let rx := spi_ioc_rx env log [reg; 0] in
  u8 (Z.lor (Z.shiftl (u8 (nth 0 rx 0)) 8) (u8 (nth 1 rx 0))).

(** The address byte of a two byte register frame has the write bit set. *)
Definition write_bit (tx : list Z) : bool := Z.testbit (nth 0 tx 0) 7.

(** The tick [HAL_GetTick] returns at the [n]-th reading of the clock. *)
Definition tick (env : Env) (n : nat) : Z :=
  u32 (tv_sec (clock_gettime env n) + Z.quot (tv_nsec (clock_gettime env n)) 1000000).

(** A clock that moves: a reading of the tick counter is at most 1000
    ticks after the reading before (and never before it), and among any
    [period] readings in a row the counter advances at least once. All
    differences are taken in [uint32_t]. *)
Definition clock_ticks (period : nat) (env : Env) : Prop :=
  (forall n, u32 (tick env (S n) - tick env n) <= 1000) /\
  (forall n, 1 <= u32 (tick env (n + period) - tick env n)).

(** A register frame is a transfer of two bytes; the FIFO and the AES key
    are written with transfers of one byte. *)
Definition reg_frame (tx : list Z) : Prop := length tx = 2%nat.

(** [w'] has the transfers of [w] and register frames on top. *)
Definition adds_frames (w w' : World) : Prop :=
  exists frames, spi_log w' = frames ++ spi_log w /\ Forall reg_frame frames.

(** [w'] comes after [w] with at most [K] more readings of the clock. *)
Definition continues (K : nat) (w w' : World) : Prop :=
  (clock_reads w <= clock_reads w' <= clock_reads w + K)%nat /\ adds_frames w w'.

(** [w'] has register frames on top of [w] and the same driver state. *)
Definition quiet_step (w w' : World) : Prop := adds_frames w w' /\ dev w' = dev w.

(** [m] started in [w] returns, with a result that satisfies [Q]. *)
Definition runs {A} (m : M A) (w : World) (Q : A -> World -> Prop) : Prop :=
  exists a w', m w = Ok a w' /\ Q a w'.

(** The log after one transfer of one byte for each of [bs], in order. *)
Definition log_bytes (bs : list Z) (w : World) : World :=
  fold_left (fun w b => log_transfer [b] w) bs w.

(** The transfers that push a packet of [n] bytes into the FIFO, newest
    first: the FIFO address with the write bit, the length, the payload. *)
Definition fifo_frames (data : buffer) (n : Z) : list (list Z) :=
  rev (map (fun b => [b]) (0x80 :: n :: bytes_of data (Z.to_nat n))).

(** The power level field of the newest frame that wrote register 0x11. *)
Fixpoint last_power_level (log : list (list Z)) : option Z :=
  match log with
  | [] => None
  | tx :: older =>
      if (length tx =? 2)%nat && (nth 0 tx 0 =? 0x91)
      then Some (Z.land (nth 1 tx 0) 0x1F)
      else last_power_level older
  end.

(** [_powerLevel] is the power level last written to the chip. *)
Definition powerLevel_tracked (w : World) : Prop :=
  match last_power_level (spi_log w) with
  | Some v => _powerLevel (dev w) = v
  | None => True
  end.

(** The frames of [setHighPowerSettings(enable)] on a high power device,
    newest first: registers 0x5A and 0x5C. *)
Definition boost_frames (enable : bool) : list (list Z) :=
  [ [0xDC; if enable then 0x7C else 0x70]; [0xDA; if enable then 0x5D else 0x55] ].

(** The frame that writes [mode << 2] to the mode register 0x01. *)
Definition mode_frame (mode : RFM69Mode) : list Z := [0x81; 4 * mode].

(** The fields of the byte written to register 0x11. *)
Definition power_level_field (b : Z) : Z := Z.land b 0x1F.
Definition pa_field (b : Z) : Z := Z.land b 0xE0.

(** Surroundings in which the channel is always busy (the RSSI register
    reads 0, which is 0 dBm) and the clock stands still. *)
Definition frozen_env : Env :=
  {| spi_ioc_status := fun _ _ => 0;
     spi_ioc_rx := fun _ _ => [0; 0];
     clock_gettime := fun _ => {| tv_sec := 0; tv_nsec := 0 |};
     rand_value := fun _ => 0 |}.

(** A chip with every bit of every register set: mode ready, packet
    sent, payload ready, and an RSSI of -127 dBm, a free channel. *)
Definition ready_env : Env :=
  {| spi_ioc_status := fun _ _ => 0;
     spi_ioc_rx := fun _ _ => [0; 0xFF];
     clock_gettime := fun _ => {| tv_sec := 0; tv_nsec := 0 |};
     rand_value := fun _ => 0 |}.

(** A driver that holds a stashed packet of [n] bytes; the buffer holds
    0x41, 0x42, ... from an earlier, longer packet. *)
Definition stash_world (n : Z) : World :=
  with_dev (set_rxBufferLength n)
    (with_dev (set_rxBuffer (fun i => 0x41 + Z.of_nat i)) (fresh_world (RFM69_new false))).

(** A caller's buffer filled with 0xEE. *)
Definition caller_buffer : buffer := fun _ => 0xEE.

(** A checker for facts on small ranges. *)
Fixpoint all_below (n : nat) (p : Z -> bool) : bool :=
  match n with
  | O => true
  | S k => p (Z.of_nat k) && all_below k p
  end.

(** A transport that answers every transfer with zero bytes, a clock that
    advances one second, which is one tick of [HAL_GetTick], per reading,
    and a generator that returns 0. *)
Definition quiet_env : Env :=
  {| spi_ioc_status := fun _ _ => 0;
     spi_ioc_rx := fun _ _ => [0; 0];
     clock_gettime := fun n => {| tv_sec := Z.of_nat n; tv_nsec := 0 |};
     rand_value := fun _ => 0 |}.

(** The same transport with a millisecond clock that advances at every
    third reading. *)
Definition slow_clock_env : Env :=
  {| spi_ioc_status := fun _ _ => 0;
     spi_ioc_rx := fun _ _ => [0; 0];
     clock_gettime := fun n => {| tv_sec := 0; tv_nsec := 1000000 * Z.of_nat (n / 3) |};
     rand_value := fun _ => 0 |}.

(** The number of reads of the FIFO register among the transfers [log]. *)
Definition fifo_reads (log : list (list Z)) : nat :=
  List.length (filter (fun tx => nth 0 tx 1 =? 0) log).

(** A chip that holds one packet of three bytes, 0x41 0x42 0x43: register
    0x28 shows a ready payload and a FIFO that is not empty until the
    three bytes have been read, and every other register reads 0. The
    clock is that of [quiet_env]. *)
Definition packet_env : Env :=
  {| spi_ioc_status := fun _ _ => 0;
     spi_ioc_rx := fun log tx =>
       if nth 0 tx 1 =? 0x28 then
         if (fifo_reads log <? 3)%nat then [0; 0x44] else [0; 0]
       else if nth 0 tx 1 =? 0 then [0; 0x41 + Z.of_nat (fifo_reads log)]
       else [0; 0];
     clock_gettime := fun n => {| tv_sec := Z.of_nat n; tv_nsec := 0 |};
     rand_value := fun _ => 0 |}.

(** A transport whose every transfer fails. *)
Definition broken_env : Env :=
  {| spi_ioc_status := fun _ _ => -1;
     spi_ioc_rx := fun _ _ => [0; 0];
     clock_gettime := fun n => {| tv_sec := Z.of_nat n; tv_nsec := 0 |};
     rand_value := fun _ => 0 |}.

(** [m] returns with [Q], or the program is aborted by [pabort]; it does
    not stop for any other reason. *)
Definition returns_or_aborts {A} (m : M A) (Q : A -> World -> Prop) : Prop :=
  forall w, match m w with
            | Ok a w' => Q a w'
            | Halt s => s = Aborted
            end.

(** A chip that is never ready, and a clock first read one millisecond
    before second 6 begins and then one second later at every reading. *)
Definition rollover_env : Env :=
  {| spi_ioc_status := fun _ _ => 0;
     spi_ioc_rx := fun _ _ => [0; 0];
     clock_gettime := fun n =>
       {| tv_sec := 5 + Z.of_nat n;
          tv_nsec := match n with O => 999000000 | S _ => 0 end |};
     rand_value := fun _ => 0 |}.

(** *** Notions for the receive path *)

(** The stash holds no more than the array [_rxBuffer] has room for. *)
Definition stash_bounded (w : World) : Prop :=
  0 <= _rxBufferLength (dev w) <= RFM69_MAX_PAYLOAD.

(** [w'] holds the stash that [w] holds. *)
Definition same_stash (w w' : World) : Prop :=
  _rxBufferLength (dev w') = _rxBufferLength (dev w) /\
  _rxBuffer (dev w') = _rxBuffer (dev w).

(** [w'] has register frames on top of [w], and a bounded stash if [w]
    has one. *)
Definition stash_step (w w' : World) : Prop :=
  adds_frames w w' /\ (stash_bounded w -> stash_bounded w').

(** *** Notions for the configuration functions *)

(** The frame [writeRegister] sends for a pair of a valid register and a
    value. *)
Definition write_frame (entry : Z * Z) : list Z :=
  [fst entry + 128; Z.land (snd entry) 255].

Definition valid_register (entry : Z * Z) : bool := fst entry <=? 127.

(** The frames of a list of pairs, newest first: the pairs with a
    register above 0x7F leave no frame. *)
Definition config_frames (entries : list (Z * Z)) : list (list Z) :=
  rev (map write_frame (filter valid_register entries)).

(** The first [n] pairs behind a configuration pointer. *)
Definition config_entries (config : nat -> Z * Z) (n : nat) : list (Z * Z) :=
  map config (seq 0 n).

(** The amplifier bits that [setPASettings(forcePA)] builds from the low
    three bits of [forcePA]. *)
Definition forced_pa_bits (forcePA : Z) : Z :=
  (if Z.testbit forcePA 0 then 0x80 else 0) +
  (if Z.testbit forcePA 1 then 0x40 else 0) +
  (if Z.testbit forcePA 2 then 0x20 else 0).

(** The calls that touch the power amplifier, and runs of them. *)
Inductive PowerCall :=
| CallSetMode (mode : RFM69Mode)
| CallSetHighPowerSettings (enable : bool)
| CallSetPASettings (forcePA : Z)
| CallSetPowerLevel (power : Z)
| CallSetPowerDBm (dBm : Z).

Definition power_call (env : Env) (c : PowerCall) : M unit :=
  match c with
  | CallSetMode mode => bind (setMode env mode) (fun _ => ret tt)
  | CallSetHighPowerSettings enable => setHighPowerSettings env enable
  | CallSetPASettings forcePA => setPASettings env forcePA
  | CallSetPowerLevel power => setPowerLevel env power
  | CallSetPowerDBm dBm => bind (setPowerDBm env dBm) (fun _ => ret tt)
  end.

Fixpoint power_calls (env : Env) (cs : list PowerCall) : M unit :=
  match cs with
  | [] => ret tt
  | c :: rest => bind (power_call env c) (fun _ => power_calls env rest)
  end.

(** A frame that writes an enabling value to a boost register: 0x5D to
    register 0x5A or 0x7C to register 0x5C. *)
Definition boost_enabling (tx : list Z) : bool :=
  match tx with
  | [a; b] => ((a =? 0xDA) && (b =? 0x5D)) || ((a =? 0xDC) && (b =? 0x7C))
  | _ => false
  end.

(** The world after the statement at the head of the configuration
    setters, when the transport works. *)
Definition left_active_mode (w : World) : World :=
  if (RFM69_MODE_RX =? _mode (dev w)) || (RFM69_MODE_TX =? _mode (dev w))
  then with_dev (set_mode RFM69_MODE_STANDBY)
         (log_transfer (mode_frame RFM69_MODE_STANDBY) w)
  else w.

(** The frame that reads register [i]. *)
Definition read_frame (i : nat) : list Z := [Z.of_nat i; 0].

(** *** Notions for the frames of [send] *)

(** The frames of [setMode(RFM69_MODE_STANDBY)] from the mode [m], newest
    first: none when the mode is Standby already. *)
Definition standby_frames (m : RFM69Mode) : list (list Z) :=
  if RFM69_MODE_STANDBY =? m then [] else [mode_frame RFM69_MODE_STANDBY].

(** The frames of the first statement of [send]: nothing for a device that
    sleeps, else the switch to Standby and [k] reads of register 0x27. *)
Definition entry_frames (m : RFM69Mode) (k : nat) : list (list Z) :=
  if RFM69_MODE_SLEEP =? m then [] else repeat [0x27; 0] k ++ standby_frames m.

(** The frames of a switch to Receive and of a switch to Transmit that is
    performed: the mode register and, on a high power device with the high
    power settings, the boost registers. *)
Definition rx_frames (d : Device) : list (list Z) :=
  (if _highPowerDevice d && _highPowerSettings d then boost_frames false else []) ++
  [mode_frame RFM69_MODE_RX].

Definition tx_frames (d : Device) : list (list Z) :=
  (if _highPowerDevice d && _highPowerSettings d then boost_frames true else []) ++
  [mode_frame RFM69_MODE_TX].

(** The frames of [send] behind the push into the FIFO, newest first: the
    switch to Transmit, [k] reads of register 0x28, the switch to Standby. *)
Definition transmit_frames (d : Device) (k : nat) : list (list Z) :=
  mode_frame RFM69_MODE_STANDBY :: repeat [0x28; 0] k ++ tx_frames d.

(** The frames the carrier sense block can make: reads of the FIFO and of
    the registers 0x23, 0x24, 0x27, 0x28 and 0x3D, writes of Receive or
    Standby to the mode register, of the disabling values to the boost
    registers, and of register 0x3D. No frame writes the FIFO, and none
    switches to Transmit. *)
Definition csma_frame (tx : list Z) : bool :=
  match tx with
  | [a; v] =>
      if existsb (Z.eqb a) [0x00; 0x23; 0x24; 0x27; 0x28; 0x3D] then v =? 0
      else if a =? 0x81 then (v =? 0x10) || (v =? 0x04)
      else if a =? 0xDA then v =? 0x55
      else if a =? 0xDC then v =? 0x70
      else a =? 0xBD
  | _ => false
  end.

(** [w'] comes after [w] with frames of the carrier sense block only, the
    same device class and high power settings, and the clock not read
    backwards. *)
Definition csma_step (w w' : World) : Prop :=
  (exists frames, spi_log w' = frames ++ spi_log w /\ forallb csma_frame frames = true) /\
  _highPowerDevice (dev w') = _highPowerDevice (dev w) /\
  _highPowerSettings (dev w') = _highPowerSettings (dev w) /\
  (clock_reads w <= clock_reads w')%nat.

(** [w] comes after [ws] by [csma_step] and is in the mode [m]. *)
Definition csma_at (ws : World) (m : RFM69Mode) (w : World) : Prop :=
  csma_step ws w /\ _mode (dev w) = m.

(** Partial correctness: when [m], started in a world with [P], returns,
    the result and the world satisfy [Q]. *)
Definition hoare {A} (P : World -> Prop) (m : M A) (Q : A -> World -> Prop) : Prop :=
  forall w a w', P w -> m w = Ok a w' -> Q a w'.

(** A chip that is ready in every respect but reports the strongest
    signal on the channel and never a packet, and a clock that stands
    still. *)
Definition stuck_clock_env : Env :=
  {| spi_ioc_status := fun _ _ => 0;
     spi_ioc_rx := fun _ tx =>
       if (nth 0 tx 0 =? 0x24) || (nth 0 tx 0 =? 0x28) then [0; 0] else [0; 0xFF];
     clock_gettime := fun _ => {| tv_sec := 0; tv_nsec := 0 |};
     rand_value := fun _ => 0 |}.

(** What a run of [send] with carrier sense that returned [r] in [w'] has
    done, newest frame first: the frames of the first statement, the FIFO
    clear, the restart of the receiver, the switch to Receive, [j] reads
    of register 0x23, the frames [loop] of the loop up to the world [w0]
    of its last check, the read of register 0x24 at that check, the
    switch to Standby, the push of the clamped packet into the FIFO, and
    the frames of the transmission. The last check found the channel free
    or the tick counter 500 or more ahead of the entry time, which was
    read at the reading [n_e] of the clock. *)
Definition csma_send_run (env : Env) (data : buffer) (len : Z) (w : World)
  (r : Z) (w' : World) : Prop :=
  exists (k0 j k : nat) (b : Z) (loop : list (list Z)) (w0 : World) (n_e : nat),
    r = Z.min len 64 /\
    (RFM69_MODE_SLEEP <> _mode (dev w) -> (1 <= k0)%nat) /\ (1 <= j)%nat /\ (1 <= k)%nat /\
    spi_log w0 =
      loop ++ repeat [0x23; 0] j ++ rx_frames (dev w) ++
      [0xBD; b] :: [0x3D; 0] :: [0xA8; 0x10] :: entry_frames (_mode (dev w)) k0 ++ spi_log w /\
    forallb csma_frame loop = true /\
    (clock_reads w <= n_e < clock_reads w0)%nat /\
    (Z.quot (- read_reply env (spi_log w0) 0x24) 2 < CSMA_RSSI_THRESHOLD \/
     CSMA_RSSI_THRESHOLD <= Z.quot (- read_reply env (spi_log w0) 0x24) 2 /\
     TIMEOUT_CSMA_READY <= u32 (tick env (clock_reads w0) - tick env n_e)) /\
    spi_log w' =
      transmit_frames (dev w) k ++ fifo_frames data (Z.min len 64) ++
      mode_frame RFM69_MODE_STANDBY :: [0x24; 0] :: spi_log w0 /\
    _mode (dev w') = RFM69_MODE_STANDBY.

(** * Properties *)

Lemma all_below_spec (n : nat) (p : Z -> bool) :
  all_below n p = true -> forall z, 0 <= z < Z.of_nat n -> p z = true.
Proof.
  induction n as [|k IH]; intros Hall z Hz.
  - simpl in Hz. lia.
  - simpl in Hall. apply andb_prop in Hall. destruct Hall as [Hk Hrest].
    destruct (Z.eq_dec z (Z.of_nat k)) as [->|Hne]; [exact Hk|].
    apply IH; [exact Hrest|lia].
Qed.

Lemma land_255_range (v : Z) : 0 <= Z.land v 255 < 256.
Proof.
  split.
  - apply Z.land_nonneg. right. lia.
  - assert (H : Z.land v 255 = v mod 2 ^ 8) by (apply (Z.land_ones v 8); lia).
    rewrite H. apply Z.mod_pos_bound. lia.
Qed.

Lemma u8_range (z : Z) : 0 <= u8 z < 256.
Proof. unfold u8. apply Z.mod_pos_bound. lia. Qed.

Lemma u8_small (z : Z) : 0 <= z < 256 -> u8 z = z.
Proof. intros H. unfold u8. apply Z.mod_small. exact H. Qed.

Lemma read_frame_bytes (reg : Z) :
  0 <= reg <= 127 ->
  Z.land (Z.shiftr (u16 (Z.shiftl reg 8)) 8) 255 = reg /\
  Z.land (u16 (Z.shiftl reg 8)) 255 = 0.
Proof.
  intros Hreg.
  assert (Hall : all_below 128 (fun r =>
            (Z.land (Z.shiftr (u16 (Z.shiftl r 8)) 8) 255 =? r) &&
            (Z.land (u16 (Z.shiftl r 8)) 255 =? 0)) = true) by (vm_compute; reflexivity).
  pose proof (all_below_spec _ _ Hall reg ltac:(simpl; lia)) as H.
  cbv beta in H. apply andb_prop in H. destruct H as [H1 H2].
  split; apply Z.eqb_eq; assumption.
Qed.

Lemma write_frame_bytes (reg value : Z) :
  0 <= reg <= 127 -> 0 <= value < 256 ->
  Z.land (Z.shiftr (u16 (Z.lor (Z.shiftl (Z.lor reg 128) 8) value)) 8) 255 = reg + 128 /\
  Z.land (u16 (Z.lor (Z.shiftl (Z.lor reg 128) 8) value)) 255 = value.
Proof.
  intros Hreg Hval.
  assert (Hall : all_below 128 (fun r => all_below 256 (fun v =>
            (Z.land (Z.shiftr (u16 (Z.lor (Z.shiftl (Z.lor r 128) 8) v)) 8) 255 =? r + 128) &&
            (Z.land (u16 (Z.lor (Z.shiftl (Z.lor r 128) 8) v)) 255 =? v))) = true)
    by (vm_compute; reflexivity).
  pose proof (all_below_spec _ _ Hall reg ltac:(simpl; lia)) as H.
  cbv beta in H.
  pose proof (all_below_spec _ _ H value ltac:(simpl; lia)) as H'.
  cbv beta in H'. apply andb_prop in H'. destruct H' as [H1 H2].
  split; apply Z.eqb_eq; assumption.
Qed.

Section Register_access.

Variable env : Env.
Hypothesis Hok : transport_ok env.

Lemma spi_transfer_ok (tx : list Z) (w : World) :
  spi_transfer env tx w = Ok (spi_ioc_rx env (spi_log w) tx) (log_transfer tx w).
Proof.
  unfold spi_transfer.
  destruct (Z.ltb_spec (spi_ioc_status env (spi_log w) tx) 0) as [Hneg|_].
  - specialize (Hok (spi_log w) tx). lia.
  - reflexivity.
Qed.

Lemma readRegister_valid (reg : Z) (w : World) :
  0 <= reg <= 127 ->
  readRegister env reg w = Ok (read_reply env (spi_log w) reg) (log_transfer [reg; 0] w).
Proof.
  intros Hreg. unfold readRegister.
  destruct (Z.gtb_spec reg 127) as [Hbad|_]; [lia|].
  destruct (read_frame_bytes reg Hreg) as [E1 E2].
  unfold chipSelect, chipUnselect, rf12_xferCmd, bind, ret.
  rewrite E1, E2, spi_transfer_ok. reflexivity.
Qed.

Lemma writeRegister_valid (reg value : Z) (w : World) :
  0 <= reg <= 127 ->
  writeRegister env reg value w = Ok tt (log_transfer [reg + 128; Z.land value 255] w).
Proof.
  intros Hreg. unfold writeRegister.
  destruct (Z.gtb_spec reg 127) as [Hbad|_]; [lia|].
  destruct (write_frame_bytes reg (Z.land value 255) Hreg (land_255_range value)) as [E1 E2].
  unfold chipSelect, chipUnselect, rf12_xferCmd, bind, ret.
  rewrite E1, E2, spi_transfer_ok. reflexivity.
Qed.

End Register_access.

Lemma writeRegister_fails (env : Env) (reg value : Z) (w : World) :
  0 <= reg <= 127 ->
  spi_ioc_status env (spi_log w) [reg + 128; Z.land value 255] < 0 ->
  writeRegister env reg value w = Halt Aborted.
Proof.
  intros Hreg Hfail. unfold writeRegister.
  destruct (Z.gtb_spec reg 127) as [Hbad|_]; [lia|].
  destruct (write_frame_bytes reg (Z.land value 255) Hreg (land_255_range value)) as [E1 E2].
  unfold chipSelect, chipUnselect, rf12_xferCmd, bind, ret, spi_transfer.
  rewrite E1, E2.
  destruct (Z.ltb_spec (spi_ioc_status env (spi_log w) [reg + 128; Z.land value 255]) 0);
    [reflexivity|lia].
Qed.

Lemma writeRegister_done (env : Env) (reg value : Z) (w : World) :
  0 <= reg <= 127 ->
  0 <= spi_ioc_status env (spi_log w) [reg + 128; Z.land value 255] ->
  writeRegister env reg value w = Ok tt (log_transfer [reg + 128; Z.land value 255] w).
Proof.
  intros Hreg Hdone. unfold writeRegister.
  destruct (Z.gtb_spec reg 127) as [Hbad|_]; [lia|].
  destruct (write_frame_bytes reg (Z.land value 255) Hreg (land_255_range value)) as [E1 E2].
  unfold chipSelect, chipUnselect, rf12_xferCmd, bind, ret, spi_transfer.
  rewrite E1, E2.
  destruct (Z.ltb_spec (spi_ioc_status env (spi_log w) [reg + 128; Z.land value 255]) 0);
    [lia|reflexivity].
Qed.

(** C5 (register access layer). An address above 0x7F makes [readRegister]
    return 0 and [writeRegister] do nothing, both without any SPI transfer,
    whatever the transport would do; for an address in 0x00..0x7F each
    performs exactly one transfer of two bytes whose first byte is the
    address, with the write bit set for a write and clear for a read. *)
Theorem register_access_address_check (env : Env) (reg value : Z) (w : World)
  (Hreg : 0 <= reg <= 255) :
  (127 < reg ->
     readRegister env reg w = Ok 0 w /\ writeRegister env reg value w = Ok tt w) /\
  (reg <= 127 -> transport_ok env ->
     (exists v tx, readRegister env reg w = Ok v (log_transfer tx w) /\
                   length tx = 2%nat /\ nth 0 tx 0 = reg /\ write_bit tx = false) /\
     (exists tx, writeRegister env reg value w = Ok tt (log_transfer tx w) /\
                 length tx = 2%nat /\ nth 0 tx 0 = Z.lor reg 128 /\
                 nth 1 tx 0 = Z.land value 255 /\ write_bit tx = true)).
Proof.
  split.
  - intros Hbad. unfold readRegister, writeRegister.
    destruct (Z.gtb_spec reg 127) as [_|Hle]; [|lia].
    split; reflexivity.
  - intros Hgood Hok.
    assert (Hr : 0 <= reg <= 127) by lia.
    assert (Hbits : Z.testbit reg 7 = false /\ Z.lor reg 128 = reg + 128 /\
                    Z.testbit (reg + 128) 7 = true).
    { assert (Hall : all_below 128 (fun r =>
                negb (Z.testbit r 7) && (Z.lor r 128 =? r + 128) && Z.testbit (r + 128) 7) = true)
        by (vm_compute; reflexivity).
      pose proof (all_below_spec _ _ Hall reg ltac:(simpl; lia)) as H. cbv beta in H.
      apply andb_prop in H. destruct H as [H H3].
      apply andb_prop in H. destruct H as [H1 H2].
      apply negb_true_iff in H1. apply Z.eqb_eq in H2. auto. }
    destruct Hbits as [B1 [B2 B3]].
    split.
    + exists (read_reply env (spi_log w) reg), [reg; 0].
      rewrite (readRegister_valid env Hok reg w Hr).
      unfold write_bit. simpl. auto.
    + exists [reg + 128; Z.land value 255].
      rewrite (writeRegister_valid env Hok reg value w Hr).
      unfold write_bit. simpl. rewrite B2. auto.
Qed.

Lemma quiet_env_ok : transport_ok quiet_env.
Proof. intros log tx. simpl. lia. Qed.

Lemma register_access_address_check_witness :
  (readRegister quiet_env 200 (fresh_world (RFM69_new false)) =
     Ok 0 (fresh_world (RFM69_new false)) /\
   writeRegister quiet_env 200 7 (fresh_world (RFM69_new false)) =
     Ok tt (fresh_world (RFM69_new false))) /\
  (exists tx,
     writeRegister quiet_env 0x11 0x9F (fresh_world (RFM69_new false)) =
       Ok tt (log_transfer tx (fresh_world (RFM69_new false))) /\
     length tx = 2%nat /\ nth 0 tx 0 = Z.lor 0x11 128 /\
     nth 1 tx 0 = Z.land 0x9F 255 /\ write_bit tx = true).
Proof.
  split.
  - apply (register_access_address_check quiet_env 200 7
             (fresh_world (RFM69_new false))); lia.
  - apply (register_access_address_check quiet_env 0x11 0x9F
             (fresh_world (RFM69_new false))); [lia|lia|exact quiet_env_ok].
Defined.

(** ** Mode state machine *)

(** Evaluation of straight-line driver code on a transport that works. *)
Ltac driver_cbn :=
  cbn [bind ret gets modify halt dev spi_log clock_reads rand_calls delays
       with_dev log_transfer count_clock_read count_rand_call log_delay
       _init _mode _highPowerDevice _powerLevel _rssi _autoReadRSSI _ookEnabled
       _dataMode _highPowerSettings _csmaEnabled _rxBuffer _rxBufferLength
       set_mode set_powerLevel set_rssi set_highPowerSettings set_csmaEnabled
       set_autoReadRSSI set_rxBuffer set_rxBufferLength
       chipSelect chipUnselect
       andb orb negb fold_right fold_left app fst snd].

Ltac run_registers Hok :=
  repeat first
    [ rewrite (writeRegister_valid _ Hok) by lia
    | rewrite (readRegister_valid _ Hok) by lia
    | progress (cbv beta iota delta [bind ret gets modify halt chipSelect chipUnselect])
    | progress driver_cbn ].

Lemma setMode_noop (env : Env) (target : RFM69Mode) (w : World) :
  target = _mode (dev w) \/ RFM69_MODE_RX < target ->
  setMode env target w = Ok (_mode (dev w)) w.
Proof.
  intros Hnoop. unfold setMode, bind, gets.
  destruct Hnoop as [->|Hbig].
  - rewrite Z.eqb_refl. reflexivity.
  - destruct (Z.gtb_spec target RFM69_MODE_RX) as [_|Hle]; [|lia].
    rewrite orb_true_r. reflexivity.
Qed.

(** C7 (mode state machine). [setMode] with the current mode, or with a
    value above the last enumerator, makes no SPI transfer, leaves the
    driver as it is and returns the current mode; so a call of [setMode]
    with the mode it finds can be repeated without any effect. *)
Theorem setMode_current_or_invalid (env : Env) (target : RFM69Mode) (w : World)
  (Hnoop : target = _mode (dev w) \/ RFM69_MODE_RX < target) :
  setMode env target w = Ok (_mode (dev w)) w /\
  (setMode env target ;; setMode env target) w = Ok (_mode (dev w)) w.
Proof.
  pose proof (setMode_noop env target w Hnoop) as H.
  split; [exact H|].
  unfold bind. rewrite H. exact H.
Qed.

Lemma setMode_current_or_invalid_witness :
  setMode quiet_env 7 (fresh_world (RFM69_new false)) =
    Ok RFM69_MODE_STANDBY (fresh_world (RFM69_new false)) /\
  (setMode quiet_env 7 ;; setMode quiet_env 7) (fresh_world (RFM69_new false)) =
    Ok RFM69_MODE_STANDBY (fresh_world (RFM69_new false)).
Proof.
  apply (setMode_current_or_invalid quiet_env 7 (fresh_world (RFM69_new false))).
  right. reflexivity.
Defined.

Lemma set_mode_same (d : Device) : set_mode (_mode d) d = d.
Proof. destruct d. reflexivity. Qed.

Lemma valid_mode_cases (m : RFM69Mode) :
  0 <= m <= 4 ->
  m = RFM69_MODE_SLEEP \/ m = RFM69_MODE_STANDBY \/ m = RFM69_MODE_FS \/
  m = RFM69_MODE_TX \/ m = RFM69_MODE_RX.
Proof.
  unfold RFM69_MODE_SLEEP, RFM69_MODE_STANDBY, RFM69_MODE_FS, RFM69_MODE_TX,
    RFM69_MODE_RX. lia.
Qed.

(** What a performed transition does, as one equation. *)
Lemma setMode_performed (env : Env) (Hok : transport_ok env)
  (target : RFM69Mode) (w : World) :
  0 <= target <= 4 -> target <> _mode (dev w) ->
  setMode env target w =
    Ok target
       (with_dev (set_mode target)
          (fold_right log_transfer w
             ((if _highPowerDevice (dev w) && _highPowerSettings (dev w)
               then if target =? RFM69_MODE_RX then boost_frames false
                    else if target =? RFM69_MODE_TX then boost_frames true
                    else []
               else []) ++ [mode_frame target]))).
Proof.
  intros Hrange Hneq.
  unfold setMode. driver_cbn.
  apply Z.eqb_neq in Hneq. rewrite Hneq.
  destruct (Z.gtb_spec target RFM69_MODE_RX) as [Hbig|_];
    [unfold RFM69_MODE_RX in Hbig; lia|].
  destruct w as [d log c r dl]. destruct d. driver_cbn.
  destruct _highPowerDevice0, _highPowerSettings0;
    destruct (valid_mode_cases target Hrange) as [->|[->|[->|[->| ->]]]];
    unfold setHighPowerSettings; run_registers Hok;
    cbn [Z.eqb Pos.eqb RFM69_MODE_SLEEP RFM69_MODE_STANDBY RFM69_MODE_FS
         RFM69_MODE_TX RFM69_MODE_RX];
    run_registers Hok; reflexivity.
Qed.

Lemma spi_log_fold_right (frames : list (list Z)) (w : World) :
  spi_log (fold_right log_transfer w frames) = frames ++ spi_log w.
Proof.
  induction frames as [|tx frames IH]; simpl; [reflexivity|].
  rewrite IH. reflexivity.
Qed.

Lemma dev_fold_right (frames : list (list Z)) (w : World) :
  dev (fold_right log_transfer w frames) = dev w.
Proof. induction frames as [|tx frames IH]; simpl; auto. Qed.

(** C6 (mode state machine). A transition that [setMode] performs writes
    the mode register and stores the mode; on a high power device it then
    writes the boost registers with the disabling values on entering
    Receive, and with the enabling values on entering Transmit, exactly
    when [_highPowerSettings] is set; entering Sleep, Standby or
    FrequencySynth, and every transition of a device that is not high
    power, writes the mode register only. *)
Theorem setMode_amplifier_side_effects (env : Env) (Hok : transport_ok env)
  (target : RFM69Mode) (w : World)
  (Hrange : 0 <= target <= 4) (Hneq : target <> _mode (dev w)) :
  exists w',
    setMode env target w = Ok target w' /\
    dev w' = set_mode target (dev w) /\
    (_highPowerDevice (dev w) = true -> target = RFM69_MODE_RX ->
       spi_log w' =
         (if _highPowerSettings (dev w) then boost_frames false else []) ++
         mode_frame target :: spi_log w) /\
    (_highPowerDevice (dev w) = true -> target = RFM69_MODE_TX ->
       spi_log w' =
         (if _highPowerSettings (dev w) then boost_frames true else []) ++
         mode_frame target :: spi_log w) /\
    (target = RFM69_MODE_SLEEP \/ target = RFM69_MODE_STANDBY \/ target = RFM69_MODE_FS ->
       spi_log w' = mode_frame target :: spi_log w) /\
    (_highPowerDevice (dev w) = false ->
       spi_log w' = mode_frame target :: spi_log w).
Proof.
  rewrite (setMode_performed env Hok target w Hrange Hneq).
  eexists. split; [reflexivity|].
  cbn [with_dev dev spi_log]. rewrite dev_fold_right, spi_log_fold_right.
  split; [reflexivity|].
  repeat split.
  - intros -> ->. cbn. destruct (_highPowerSettings (dev w)); reflexivity.
  - intros -> ->. cbn. destruct (_highPowerSettings (dev w)); reflexivity.
  - intros [->|[->| ->]]; cbn;
      destruct (_highPowerDevice (dev w) && _highPowerSettings (dev w)); reflexivity.
  - intros ->. reflexivity.
Qed.

Lemma setMode_amplifier_side_effects_witness :
  exists w',
    setMode quiet_env RFM69_MODE_TX
      (with_dev (set_highPowerSettings true) (fresh_world (RFM69_new true))) =
      Ok RFM69_MODE_TX w' /\
    spi_log w' = [ [0xDC; 0x7C]; [0xDA; 0x5D]; [0x81; 12] ].
Proof.
  destruct (setMode_amplifier_side_effects quiet_env quiet_env_ok RFM69_MODE_TX
              (with_dev (set_highPowerSettings true) (fresh_world (RFM69_new true))))
    as [w' [Hrun [_ [_ [Htx _]]]]].
  - unfold RFM69_MODE_TX. lia.
  - discriminate.
  - exists w'. split; [exact Hrun|]. apply Htx; reflexivity.
Defined.

(** ** Power controller *)

Ltac zbool :=
  repeat match goal with
  | |- context [?a >? ?b] => rewrite (Z.gtb_ltb a b)
  | |- context [?a >=? ?b] => rewrite (Z.geb_leb a b)
  | |- context [?a <? ?b] =>
      first [ replace (a <? b) with true by (symmetry; apply Z.ltb_lt; lia)
            | replace (a <? b) with false by (symmetry; apply Z.ltb_ge; lia) ]
  | |- context [?a <=? ?b] =>
      first [ replace (a <=? b) with true by (symmetry; apply Z.leb_le; lia)
            | replace (a <=? b) with false by (symmetry; apply Z.leb_gt; lia) ]
  end.

(** C2 (power controller). A request outside the bound that applies makes
    [setPowerDBm] return -1 and leaves the driver and the SPI log as they
    are. *)
Theorem setPowerDBm_rejects (env : Env) (dBm : Z) (w : World)
  (Hout : dBm < -18 \/ 20 < dBm \/
          (_highPowerDevice (dev w) = false /\ 13 < dBm) \/
          (_highPowerDevice (dev w) = true /\ dBm < -2)) :
  setPowerDBm env dBm w = Ok (-1) w.
Proof.
  unfold setPowerDBm, bind, gets.
  destruct Hout as [H|[H|[[Hhp H]|[Hhp H]]]]; try rewrite Hhp.
  - zbool. reflexivity.
  - zbool. rewrite orb_true_r. reflexivity.
  - destruct (Z_lt_dec dBm (-18)); [zbool; reflexivity|].
    destruct (Z_lt_dec 20 dBm); [zbool; rewrite orb_true_r; reflexivity|].
    zbool. reflexivity.
  - destruct (Z_lt_dec dBm (-18)); [zbool; reflexivity|].
    destruct (Z_lt_dec 20 dBm); [zbool; rewrite orb_true_r; reflexivity|].
    zbool. reflexivity.
Qed.

Lemma setPowerDBm_rejects_witness :
  setPowerDBm quiet_env 14 (fresh_world (RFM69_new false)) =
    Ok (-1) (fresh_world (RFM69_new false)).
Proof.
  apply (setPowerDBm_rejects quiet_env 14 (fresh_world (RFM69_new false))).
  right. right. left. split; [reflexivity|lia].
Defined.

Lemma pa_level_byte (pa k : Z) :
  pa = 0x80 \/ pa = 0x40 \/ pa = 0x60 -> 0 <= k < 32 ->
  Z.land (u8 (Z.lor pa (u8 k))) 255 = pa + k /\
  power_level_field (pa + k) = k /\ pa_field (pa + k) = pa.
Proof.
  intros Hpa Hk.
  assert (Hall : forall p, p = 0x80 \/ p = 0x40 \/ p = 0x60 ->
            all_below 32 (fun j =>
              (Z.land (u8 (Z.lor p (u8 j))) 255 =? p + j) &&
              (power_level_field (p + j) =? j) && (pa_field (p + j) =? p)) = true).
  { intros p [->|[->| ->]]; vm_compute; reflexivity. }
  pose proof (all_below_spec _ _ (Hall pa Hpa) k ltac:(simpl; lia)) as H.
  cbv beta in H.
  apply andb_prop in H. destruct H as [H H3].
  apply andb_prop in H. destruct H as [H1 H2].
  repeat split; apply Z.eqb_eq; assumption.
Qed.

(** C1 (power controller). For every request [setPowerDBm] accepts it
    returns 0 and writes register 0x11 as the vendor table says: level
    [dBm + 18] with only PA0 (0x80) on a device that is not high power;
    on a high power device level [dBm + 18] with only PA1 (0x40) and the
    boost registers disabled for -2..13, level [dBm + 14] with PA1 and PA2
    (0x60) and the boost registers disabled for 14..17, and level
    [dBm + 11] with PA1 and PA2 and the boost registers enabled for
    18..20. *)
Theorem setPowerDBm_band_table (env : Env) (Hok : transport_ok env) (dBm : Z) (w : World) :
  (_highPowerDevice (dev w) = false -> -18 <= dBm <= 13 ->
     setPowerDBm env dBm w = Ok 0 (log_transfer [0x91; 0x80 + (dBm + 18)] w) /\
     power_level_field (0x80 + (dBm + 18)) = dBm + 18 /\
     pa_field (0x80 + (dBm + 18)) = 0x80) /\
  (_highPowerDevice (dev w) = true -> -2 <= dBm <= 13 ->
     setPowerDBm env dBm w =
       Ok 0 (fold_right log_transfer
               (with_dev (set_highPowerSettings false)
                  (log_transfer [0x91; 0x40 + (dBm + 18)] w))
               (boost_frames false)) /\
     power_level_field (0x40 + (dBm + 18)) = dBm + 18 /\
     pa_field (0x40 + (dBm + 18)) = 0x40) /\
  (_highPowerDevice (dev w) = true -> 14 <= dBm <= 17 ->
     setPowerDBm env dBm w =
       Ok 0 (fold_right log_transfer
               (with_dev (set_highPowerSettings false)
                  (log_transfer [0x91; 0x60 + (dBm + 14)] w))
               (boost_frames false)) /\
     power_level_field (0x60 + (dBm + 14)) = dBm + 14 /\
     pa_field (0x60 + (dBm + 14)) = 0x60) /\
  (_highPowerDevice (dev w) = true -> 18 <= dBm <= 20 ->
     setPowerDBm env dBm w =
       Ok 0 (fold_right log_transfer
               (with_dev (set_highPowerSettings true)
                  (log_transfer [0x91; 0x60 + (dBm + 11)] w))
               (boost_frames true)) /\
     power_level_field (0x60 + (dBm + 11)) = dBm + 11 /\
     pa_field (0x60 + (dBm + 11)) = 0x60).
Proof.
  destruct w as [d log c r dl]. destruct d. cbn [dev _highPowerDevice].
  split; [|split; [|split]]; intros Hhp Hband; subst;
    (split; [|apply pa_level_byte; [tauto|lia]]).
  - destruct (pa_level_byte 0x80 (dBm + 18)) as [E _]; [tauto|lia|].
    unfold setPowerDBm. run_registers Hok. zbool. run_registers Hok.
    rewrite E. reflexivity.
  - destruct (pa_level_byte 0x40 (dBm + 18)) as [E _]; [tauto|lia|].
    unfold setPowerDBm, setHighPowerSettings. run_registers Hok. zbool.
    run_registers Hok. rewrite E. reflexivity.
  - destruct (pa_level_byte 0x60 (dBm + 14)) as [E _]; [tauto|lia|].
    unfold setPowerDBm, setHighPowerSettings. run_registers Hok. zbool.
    run_registers Hok. rewrite E. reflexivity.
  - destruct (pa_level_byte 0x60 (dBm + 11)) as [E _]; [tauto|lia|].
    unfold setPowerDBm, setHighPowerSettings. run_registers Hok. zbool.
    run_registers Hok. rewrite E. reflexivity.
Qed.

Lemma setPowerDBm_band_table_witness :
  setPowerDBm quiet_env 20 (fresh_world (RFM69_new true)) =
    Ok 0 (fold_right log_transfer
            (with_dev (set_highPowerSettings true)
               (log_transfer [0x91; 0x60 + (20 + 11)] (fresh_world (RFM69_new true))))
            (boost_frames true)) /\
  power_level_field (0x60 + (20 + 11)) = 20 + 11 /\
  pa_field (0x60 + (20 + 11)) = 0x60.
Proof.
  apply (setPowerDBm_band_table quiet_env quiet_env_ok 20 (fresh_world (RFM69_new true)));
    [reflexivity|lia].
Defined.

Lemma setPowerLevel_tracks (env : Env) (Hok : transport_ok env) (power : Z) (w : World) :
  0 <= power <= 255 ->
  exists w', setPowerLevel env power w = Ok tt w' /\ powerLevel_tracked w' /\
             0 <= _powerLevel (dev w') <= 31.
Proof.
  intros Hpower.
  set (p := if power >? 31 then 31 else power).
  assert (Hp : 0 <= p < 32) by (unfold p; destruct (Z.gtb_spec power 31); lia).
  assert (Hbyte : forall v, 0 <= v < 256 ->
            Z.land (Z.land (u8 (Z.lor (Z.land v 0xE0) p)) 255) 0x1F = p).
  { intros v Hv.
    assert (Hall : all_below 256 (fun a => all_below 32 (fun b =>
              Z.land (Z.land (u8 (Z.lor (Z.land a 0xE0) b)) 255) 0x1F =? b)) = true)
      by (vm_compute; reflexivity).
    pose proof (all_below_spec _ _ Hall v ltac:(simpl; lia)) as H. cbv beta in H.
    pose proof (all_below_spec _ _ H p ltac:(simpl; lia)) as H'. cbv beta in H'.
    apply Z.eqb_eq. exact H'. }
  unfold setPowerLevel. fold p. run_registers Hok.
  eexists. split; [reflexivity|].
  unfold powerLevel_tracked. cbn.
  rewrite Hbyte by apply u8_range. split; [reflexivity|lia].
Qed.

(** C9 (power level field), at the failing input. After [setPowerLevel(5)]
    the field [_powerLevel] is the level written to register 0x11; a
    following [setPowerDBm(13)] writes level 31 to the register and leaves
    [_powerLevel] at 5, so the field no longer is the level last written. *)
Theorem setPowerDBm_leaves_powerLevel_stale :
  exists w1 w2,
    setPowerLevel quiet_env 5 (fresh_world (RFM69_new false)) = Ok tt w1 /\
    powerLevel_tracked w1 /\
    setPowerDBm quiet_env 13 w1 = Ok 0 w2 /\
    last_power_level (spi_log w2) = Some 31 /\
    _powerLevel (dev w2) = 5 /\
    ~ powerLevel_tracked w2.
Proof.
  eexists. eexists.
  split; [vm_compute; reflexivity|].
  split; [vm_compute; reflexivity|].
  split; [vm_compute; reflexivity|].
  split; [vm_compute; reflexivity|].
  split; [vm_compute; reflexivity|].
  vm_compute. discriminate.
Qed.

(** ** Receive pipeline *)

(** What the branch of [receive] for a stashed packet does. *)
Lemma receive_stashed (env : Env) (fuel : nat) (data : buffer) (dataLength : Z)
  (w : World) :
  0 < _rxBufferLength (dev w) -> dataLength <= RFM69_MAX_PAYLOAD ->
  receive env fuel data dataLength w =
    Ok (s32 (_rxBufferLength (dev w)),
        fun i => if Z.of_nat i <? dataLength then _rxBuffer (dev w) i else data i)
       (with_dev (set_rxBufferLength 0) w).
Proof.
  intros Hstash Hlen. unfold receive, memcpy_from_rxBuffer.
  cbv beta iota delta [bind gets]. 
  destruct (Z.gtb_spec (_rxBufferLength (dev w)) 0) as [_|H]; [|lia].
  cbv beta iota delta [bind gets].
  destruct (Z.gtb_spec dataLength RFM69_MAX_PAYLOAD) as [H|_]; [lia|].
  reflexivity.
Qed.

(** C3 (stashed packet), at the failing inputs. With a stash of 5 bytes and
    [maxLength] 3, [receive] returns 5, more than [maxLength]; with a stash
    of 2 bytes and [maxLength] 4 it returns 2 and has copied 4 bytes, the
    last two from behind the stashed packet. In both runs the stash is
    emptied and no SPI transfer is made. *)
Theorem receive_stash_not_truncated :
  (exists data' w',
     receive quiet_env 0 caller_buffer 3 (stash_world 5) = Ok (5, data') w' /\
     _rxBufferLength (dev w') = 0 /\ spi_log w' = [] /\
     bytes_of data' 4 = [0x41; 0x42; 0x43; 0xEE]) /\
  (exists data' w',
     receive quiet_env 0 caller_buffer 4 (stash_world 2) = Ok (2, data') w' /\
     _rxBufferLength (dev w') = 0 /\ spi_log w' = [] /\
     bytes_of data' 5 = [0x41; 0x42; 0x43; 0x44; 0xEE]).
Proof.
  split; eexists; eexists; (split; [vm_compute; reflexivity|]);
    repeat split; reflexivity.
Qed.

(** ** Single byte transfers *)

Section Byte_transfers.

Variable env : Env.
Hypothesis Hok : transport_ok env.

Lemma rf12_xferByte_ok (b : Z) (w : World) :
  rf12_xferByte env b w =
    Ok (u8 (nth 0 (spi_ioc_rx env (spi_log w) [b]) 0)) (log_transfer [b] w).
Proof. unfold rf12_xferByte, bind, ret. rewrite (spi_transfer_ok env Hok). reflexivity. Qed.

Lemma for_loop_xferByte (f : nat -> Z) (n i : nat) (w : World) :
  for_loop n i (fun j => rf12_xferByte env (f j) ;; ret tt) w =
    Ok tt (log_bytes (map f (seq i n)) w).
Proof.
  revert i w. induction n as [|n IH]; intros i w; [reflexivity|].
  cbn [for_loop seq map]. unfold bind at 1. unfold bind at 1.
  rewrite rf12_xferByte_ok. cbn [ret]. rewrite IH. reflexivity.
Qed.

Lemma spi_log_log_bytes (bs : list Z) (w : World) :
  spi_log (log_bytes bs w) = rev (map (fun b => [b]) bs) ++ spi_log w.
Proof.
  unfold log_bytes. revert w.
  induction bs as [|b bs IH]; intros w; [reflexivity|].
  cbn [fold_left map rev]. rewrite IH. cbn [log_transfer spi_log].
  rewrite <- app_assoc. reflexivity.
Qed.

Lemma dev_log_bytes (bs : list Z) (w : World) : dev (log_bytes bs w) = dev w.
Proof.
  unfold log_bytes. revert w.
  induction bs as [|b bs IH]; intros w; [reflexivity|].
  cbn [fold_left]. rewrite IH. reflexivity.
Qed.

Lemma clock_reads_log_bytes (bs : list Z) (w : World) :
  clock_reads (log_bytes bs w) = clock_reads w.
Proof.
  unfold log_bytes. revert w.
  induction bs as [|b bs IH]; intros w; [reflexivity|].
  cbn [fold_left]. rewrite IH. reflexivity.
Qed.

(** [setMode] returns for every enumerator, and changes [_mode] only. *)
Lemma setMode_total (target : RFM69Mode) (w : World) :
  0 <= target <= 4 ->
  exists w', setMode env target w = Ok target w' /\
             dev w' = set_mode target (dev w) /\ continues 0 w w'.
Proof.
  intros Hrange.
  destruct (Z.eq_dec target (_mode (dev w))) as [Heq|Hneq].
  - exists w. rewrite (setMode_noop env target w (or_introl Heq)).
    rewrite Heq at 1 2. rewrite set_mode_same.
    repeat split; try lia. exists []. split; [reflexivity|constructor].
  - rewrite (setMode_performed env Hok target w Hrange Hneq).
    eexists. split; [reflexivity|].
    unfold continues, adds_frames.
    cbn [with_dev dev spi_log clock_reads].
    rewrite dev_fold_right. split; [reflexivity|].
    split.
    + assert (Hc : forall l, clock_reads (fold_right log_transfer w l) = clock_reads w)
        by (induction l; simpl; auto).
      rewrite Hc. lia.
    + rewrite spi_log_fold_right.
      eexists. split; [reflexivity|].
      apply Forall_app. split.
      * destruct (_highPowerDevice (dev w) && _highPowerSettings (dev w));
          [|constructor].
        destruct (target =? RFM69_MODE_RX);
          [repeat constructor|].
        destruct (target =? RFM69_MODE_TX); repeat constructor.
      * repeat constructor.
Qed.

End Byte_transfers.

(** ** AES *)

Lemma aes_byte_bit (v : Z) (enable : bool) :
  0 <= v < 256 ->
  Z.testbit (Z.land (u8 (Z.lor (Z.land v 0xFE) (if enable then 1 else 0))) 255) 0 = enable.
Proof.
  intros Hv.
  assert (Hall : forall e : bool, all_below 256 (fun a =>
            Bool.eqb (Z.testbit (Z.land (u8 (Z.lor (Z.land a 0xFE) (if e then 1 else 0))) 255) 0) e)
            = true) by (intros []; vm_compute; reflexivity).
  pose proof (all_below_spec _ _ (Hall enable) v ltac:(simpl; lia)) as H.
  cbv beta in H. apply Bool.eqb_prop in H. exact H.
Qed.

(** C10 (AES). [setAESEncryption] returns true exactly when the key pointer
    is not null and the key length is 16. It first calls
    [setMode(RFM69_MODE_STANDBY)]; with a valid key it then transfers the
    address byte 0xBE and the 16 key bytes, and last it rewrites register
    0x3D with the AES bit set to the result: set when the key is valid,
    clear when it is not. The mode is Standby afterwards. *)
Theorem setAESEncryption_enabled_iff_valid_key (env : Env) (Hok : transport_ok env)
  (aesKey : option buffer) (keyLength : Z) (w : World) :
  exists (enable : bool) (w1 w' : World) (b : Z),
    setAESEncryption env aesKey keyLength w = Ok enable w' /\
    (enable = true <-> (aesKey <> None /\ keyLength = 16)) /\
    setMode env RFM69_MODE_STANDBY w = Ok RFM69_MODE_STANDBY w1 /\
    _mode (dev w1) = RFM69_MODE_STANDBY /\
    spi_log w' =
      [0xBD; b] :: [0x3D; 0] ::
      (match aesKey with
       | Some key =>
           if enable then rev (map (fun x => [x]) (0xBE :: bytes_of key 16)) else []
       | None => []
       end) ++ spi_log w1 /\
    Z.testbit b 0 = enable /\
    _mode (dev w') = RFM69_MODE_STANDBY.
Proof.
  destruct (setMode_total env Hok RFM69_MODE_STANDBY w) as [w1 [Hmode [Hdev _]]];
    [unfold RFM69_MODE_STANDBY; lia|].
  assert (Hm1 : _mode (dev w1) = RFM69_MODE_STANDBY) by (rewrite Hdev; reflexivity).
  unfold setAESEncryption.
  destruct aesKey as [key|].
  - destruct (Z.eqb_spec 16 keyLength) as [Hlen|Hlen].
    + subst keyLength.
      exists true, w1.
      unfold bind at 1. rewrite Hmode.
      unfold chipSelect, chipUnselect.
      cbv beta iota delta [bind ret]. rewrite (rf12_xferByte_ok env Hok).
      rewrite (for_loop_xferByte env Hok key).
      run_registers Hok.
      eexists. eexists. split; [reflexivity|].
      split; [split; [intros _; split; [discriminate|reflexivity]|reflexivity]|].
      split; [reflexivity|]. split; [exact Hm1|].
      cbn [spi_log log_transfer dev].
      rewrite spi_log_log_bytes, dev_log_bytes.
      split; [|split; [|exact Hm1]].
      * cbn [map rev bytes_of]. rewrite <- app_assoc. reflexivity.
      * apply (aes_byte_bit _ true). apply u8_range.
    + exists false, w1.
      unfold bind at 1. rewrite Hmode.
      run_registers Hok.
      eexists. eexists. split; [reflexivity|].
      split; [split; [discriminate|intros [_ H]; congruence]|].
      split; [reflexivity|]. split; [exact Hm1|].
      split; [reflexivity|]. split; [|exact Hm1].
      apply (aes_byte_bit _ false). apply u8_range.
  - exists false, w1.
    unfold bind at 1. rewrite Hmode.
    run_registers Hok.
    eexists. eexists. split; [reflexivity|].
    split; [split; [discriminate|intros [H _]; congruence]|].
    split; [reflexivity|]. split; [exact Hm1|].
    split; [reflexivity|]. split; [|exact Hm1].
    apply (aes_byte_bit _ false). apply u8_range.
Qed.

Lemma setAESEncryption_enabled_iff_valid_key_witness :
  exists w',
    setAESEncryption quiet_env (Some (fun i => Z.of_nat i)) 16
      (fresh_world (RFM69_new false)) = Ok true w'.
Proof.
  destruct (setAESEncryption_enabled_iff_valid_key quiet_env quiet_env_ok
              (Some (fun i => Z.of_nat i)) 16 (fresh_world (RFM69_new false)))
    as [enable [w1 [w' [b [Hrun [[_ Hen] _]]]]]].
  exists w'. rewrite Hrun. f_equal. apply Hen. split; [discriminate|reflexivity].
Defined.

(** ** Runs that return *)

Lemma runs_ret {A} (a : A) (w : World) (Q : A -> World -> Prop) :
  Q a w -> runs (ret a) w Q.
Proof. intros H. exists a, w. split; [reflexivity|exact H]. Qed.

Lemma runs_bind {A B} (m : M A) (k : A -> M B) (w : World)
  (P : A -> World -> Prop) (Q : B -> World -> Prop) :
  runs m w P -> (forall a w', P a w' -> runs (k a) w' Q) -> runs (bind m k) w Q.
Proof.
  intros [a [w' [Hm HP]]] Hk.
  destruct (Hk a w' HP) as [b [w'' [Hkb HQ]]].
  exists b, w''. split; [|exact HQ].
  unfold bind. rewrite Hm. exact Hkb.
Qed.

Lemma runs_consequence {A} (m : M A) (w : World) (P Q : A -> World -> Prop) :
  runs m w P -> (forall a w', P a w' -> Q a w') -> runs m w Q.
Proof.
  intros [a [w' [Hm HP]]] HPQ. exists a, w'. split; [exact Hm|auto].
Qed.

Lemma runs_gets {A} (f : Device -> A) (w : World) (Q : A -> World -> Prop) :
  Q (f (dev w)) w -> runs (gets f) w Q.
Proof. intros H. exists (f (dev w)), w. split; [reflexivity|exact H]. Qed.

Lemma runs_modify (f : Device -> Device) (w : World) (Q : unit -> World -> Prop) :
  Q tt (with_dev f w) -> runs (modify f) w Q.
Proof. intros H. exists tt, (with_dev f w). split; [reflexivity|exact H]. Qed.

(** *** The relation [continues] *)

Lemma adds_frames_refl (w : World) : adds_frames w w.
Proof. exists []. split; [reflexivity|constructor]. Qed.

Lemma adds_frames_trans (w1 w2 w3 : World) :
  adds_frames w1 w2 -> adds_frames w2 w3 -> adds_frames w1 w3.
Proof.
  intros [f1 [E1 F1]] [f2 [E2 F2]]. exists (f2 ++ f1). split.
  - rewrite E2, E1, app_assoc. reflexivity.
  - apply Forall_app. split; assumption.
Qed.

Lemma continues_refl (K : nat) (w : World) : continues K w w.
Proof. split; [lia|apply adds_frames_refl]. Qed.

Lemma continues_step (K k : nat) (w w1 w2 : World) :
  continues k w1 w2 -> (k <= K)%nat -> continues (K - k) w w1 -> continues K w w2.
Proof.
  intros [Hc2 Hf2] Hk [Hc1 Hf1]. split; [lia|].
  eapply adds_frames_trans; eassumption.
Qed.

Lemma continues_log_transfer (K : nat) (w w1 : World) (tx : list Z) :
  reg_frame tx -> continues K w w1 -> continues K w (log_transfer tx w1).
Proof.
  intros Htx [Hc [frames [E F]]]. split; [exact Hc|].
  exists (tx :: frames). cbn [log_transfer spi_log]. rewrite E.
  split; [reflexivity|constructor; assumption].
Qed.

Lemma continues_with_dev (K : nat) (w w1 : World) (f : Device -> Device) :
  continues K w w1 -> continues K w (with_dev f w1).
Proof. intros H. exact H. Qed.

Lemma continues_log_delay (K : nat) (w w1 : World) (ms : Z) :
  continues K w w1 -> continues K w (log_delay ms w1).
Proof. intros H. exact H. Qed.

Lemma continues_count_rand_call (K : nat) (w w1 : World) :
  continues K w w1 -> continues K w (count_rand_call w1).
Proof. intros H. exact H. Qed.

Lemma continues_count_clock_read (K : nat) (w w1 : World) :
  (1 <= K)%nat -> continues (K - 1) w w1 -> continues K w (count_clock_read w1).
Proof.
  intros HK [Hc Hf]. split; [cbn [count_clock_read clock_reads]; lia|exact Hf].
Qed.

Ltac solve_continues :=
  lazymatch goal with
  | |- continues _ ?w ?w => apply continues_refl
  | |- continues _ _ (log_transfer _ _) =>
      apply continues_log_transfer; [reflexivity|solve_continues]
  | |- continues _ _ (with_dev _ _) => apply continues_with_dev; solve_continues
  | |- continues _ _ (log_delay _ _) => apply continues_log_delay; solve_continues
  | |- continues _ _ (count_rand_call _) =>
      apply continues_count_rand_call; solve_continues
  | |- continues _ _ (count_clock_read _) =>
      apply continues_count_clock_read; [lia|solve_continues]
  | H : continues _ ?w1 ?w2 |- continues _ _ ?w2 =>
      apply (continues_step _ _ _ w1 w2 H); [lia|cbn [Nat.sub]; solve_continues]
  end.

(** ** The clock *)

Lemma u32_range (z : Z) : 0 <= u32 z < 4294967296.
Proof. unfold u32. apply Z.mod_pos_bound. lia. Qed.

Lemma u32_small (z : Z) : 0 <= z < 4294967296 -> u32 z = z.
Proof. intros H. unfold u32. apply Z.mod_small. exact H. Qed.

Lemma u32_add_u32 (a b : Z) : u32 (u32 a + u32 b) = u32 (a + b).
Proof. unfold u32. symmetry. apply Z.add_mod. lia. Qed.

Lemma HAL_GetTick_eq (env : Env) (w : World) :
  HAL_GetTick env w = Ok (tick env (clock_reads w)) (count_clock_read w).
Proof. reflexivity. Qed.

Section Elapsed.

Variable env : Env.
Variable period : nat.
Hypothesis Hclk : clock_ticks period env.

Lemma period_positive : (1 <= period)%nat.
Proof.
  destruct (Nat.eq_dec period 0) as [E|E]; [|lia].
  destruct Hclk as [_ H]. specialize (H O). rewrite E in H.
  cbn [Nat.add] in H. rewrite Z.sub_diag in H. cbn in H. lia.
Qed.

(** Without a wrap of the counter, [k] readings take at most [1000 * k]
    ticks. *)
Lemma elapsed_upper (n0 k : nat) :
  Z.of_nat k <= 4000000 ->
  u32 (tick env (n0 + k) - tick env n0) <= 1000 * Z.of_nat k.
Proof.
  induction k as [|k IH]; intros Hk.
  - rewrite Nat.add_0_r, Z.sub_diag. cbn. lia.
  - assert (IH' := IH ltac:(lia)). clear IH.
    replace (n0 + S k)%nat with (S (n0 + k)) by lia.
    destruct Hclk as [Hstep _]. specialize (Hstep (n0 + k)%nat).
    pose proof (u32_range (tick env (S (n0 + k)) - tick env (n0 + k))) as R1.
    pose proof (u32_range (tick env (n0 + k) - tick env n0)) as R2.
    replace (tick env (S (n0 + k)) - tick env n0)
      with ((tick env (S (n0 + k)) - tick env (n0 + k)) +
            (tick env (n0 + k) - tick env n0)) by lia.
    rewrite <- u32_add_u32.
    rewrite u32_small by lia. lia.
Qed.

Lemma elapsed_add (n0 a b : nat) :
  Z.of_nat (a + b) <= 4000000 ->
  u32 (tick env (n0 + (a + b)) - tick env n0) =
    u32 (tick env (n0 + a) - tick env n0) +
    u32 (tick env (n0 + a + b) - tick env (n0 + a)).
Proof.
  intros Hab.
  pose proof (elapsed_upper n0 a ltac:(lia)) as Ua.
  pose proof (elapsed_upper (n0 + a) b ltac:(lia)) as Ub.
  pose proof (u32_range (tick env (n0 + a) - tick env n0)) as R1.
  pose proof (u32_range (tick env (n0 + a + b) - tick env (n0 + a))) as R2.
  replace (n0 + (a + b))%nat with (n0 + a + b)%nat by lia.
  replace (tick env (n0 + a + b) - tick env n0)
    with ((tick env (n0 + a) - tick env n0) +
          (tick env (n0 + a + b) - tick env (n0 + a))) by lia.
  rewrite <- u32_add_u32.
  rewrite u32_small by lia. reflexivity.
Qed.

(** After [q] periods at least [q] ticks have passed. *)
Lemma elapsed_lower (q : nat) :
  forall n0 k : nat,
    (q * period <= k)%nat -> Z.of_nat k <= 4000000 ->
    Z.of_nat q <= u32 (tick env (n0 + k) - tick env n0).
Proof.
  induction q as [|q IH]; intros n0 k Hq Hk.
  - pose proof (u32_range (tick env (n0 + k) - tick env n0)). lia.
  - replace k with (period + (k - period))%nat by lia.
    rewrite elapsed_add by lia.
    destruct Hclk as [_ Hadv]. specialize (Hadv n0).
    specialize (IH (n0 + period)%nat (k - period)%nat ltac:(lia) ltac:(lia)).
    lia.
Qed.

End Elapsed.

(** ** Loops that watch the clock *)

Lemma while_step {S : Type} (fuel : nat) (cond : S -> M bool) (body : S -> M S)
  (s : S) (w : World) :
  while (Datatypes.S fuel) cond body s w =
    match cond s w with
    | Ok true w1 =>
        match body s w1 with
        | Ok s' w2 => while fuel cond body s' w2
        | Halt x => Halt x
        end
    | Ok false w1 => Ok s w1
    | Halt x => Halt x
    end.
Proof.
  cbn [while]. unfold bind.
  destruct (cond s w) as [[|] w1|x]; reflexivity.
Qed.

Lemma timed_cond_eq (env : Env) (a : M bool) (timeEntry timeout : Z) (w : World) :
  timed_cond env a timeEntry timeout w =
    match a w with
    | Ok true w1 =>
        Ok (u32 (tick env (clock_reads w1) - timeEntry) <? timeout) (count_clock_read w1)
    | Ok false w1 => Ok false w1
    | Halt x => Halt x
    end.
Proof.
  unfold timed_cond, bind.
  destruct (a w) as [[|] w1|x]; reflexivity.
Qed.

Section Timed_while.

Variable env : Env.
Variable period : nat.
Hypothesis Hclk : clock_ticks period env.

Variable R : World -> World -> Prop.
Hypothesis R_trans : forall w1 w2 w3, R w1 w2 -> R w2 w3 -> R w1 w3.
Hypothesis R_tick : forall w, R w (count_clock_read w).

Variables (a : M bool) (body : M unit) (T : Z) (Kb n0 : nat).
Hypothesis HT : 0 <= T.
Hypothesis Hsmall : Z.of_nat period * T + Z.of_nat Kb <= 3000000.
Hypothesis Ha : forall w,
  runs a w (fun _ w' => clock_reads w' = clock_reads w /\ R w w').
Hypothesis Hbody : forall w,
  runs body w (fun _ w' =>
    (clock_reads w <= clock_reads w' <= clock_reads w + Kb)%nat /\ R w w').

(** The loop is entered with the clock read less than
    [period * T + Kb] times since [timeEntry] was taken at reading [n0];
    it returns before the clock has been read [period * T + Kb + 1]
    times. *)
Lemma timed_while_runs (fuel : nat) (w : World) :
  (n0 < clock_reads w)%nat ->
  (clock_reads w <= n0 + period * Z.to_nat T + Kb)%nat ->
  (n0 + period * Z.to_nat T + Kb + 1 - clock_reads w < fuel)%nat ->
  runs (while fuel (fun _ => timed_cond env a (tick env n0) T) (fun _ => body) tt) w
       (fun _ w' =>
          (clock_reads w <= clock_reads w' <= n0 + period * Z.to_nat T + Kb + 1)%nat /\
          R w w').
Proof.
  assert (HPT : Z.of_nat (period * Z.to_nat T) = Z.of_nat period * T)
    by (rewrite Nat2Z.inj_mul, Z2Nat.id by lia; reflexivity).
  revert w. induction fuel as [|fuel IH]; intros w Hlo Hhi Hfuel; [lia|].
  unfold runs in *. rewrite while_step, timed_cond_eq.
  destruct (Ha w) as [b [w1 [Ea [Hc1 HR1]]]].
  rewrite Ea.
  destruct b.
  - rewrite Hc1.
    destruct (Z.ltb_spec (u32 (tick env (clock_reads w) - tick env n0)) T) as [Hlt|Hge].
    + (* the time is not up: the body runs *)
      assert (Hearly : (clock_reads w - n0 < period * Z.to_nat T)%nat).
      { destruct (le_lt_dec (period * Z.to_nat T) (clock_reads w - n0)) as [Hle|Hl];
          [|exact Hl].
        pose proof (elapsed_lower env period Hclk (Z.to_nat T) n0 (clock_reads w - n0)
                      ltac:(lia) ltac:(lia)) as Hel.
        replace (n0 + (clock_reads w - n0))%nat with (clock_reads w) in Hel by lia.
        rewrite Z2Nat.id in Hel by lia. lia. }
      destruct (Hbody (count_clock_read w1)) as [u [w3 [Eb [Hc3 HR3]]]].
      cbn [count_clock_read clock_reads] in Hc3. rewrite Hc1 in Hc3.
      destruct u.
      destruct (IH w3) as [u' [w4 [Ew [Hc4 HR4]]]]; try lia.
      exists u', w4. split.
      * rewrite Eb. exact Ew.
      * split; [lia|].
        eapply R_trans; [exact HR1|].
        eapply R_trans; [apply R_tick|].
        eapply R_trans; [exact HR3|exact HR4].
    + exists tt, (count_clock_read w1). split; [reflexivity|].
      cbn [count_clock_read clock_reads]. split; [lia|].
      eapply R_trans; [exact HR1|apply R_tick].
  - exists tt, w1. split; [reflexivity|]. split; [lia|exact HR1].
Qed.

End Timed_while.

(** ** The operations return *)

Lemma runs_bind_wp {A B} (m : M A) (k : A -> M B) (w : World) (Q : B -> World -> Prop) :
  runs m w (fun a w' => runs (k a) w' Q) -> runs (bind m k) w Q.
Proof. intros H. eapply runs_bind; [exact H|]. intros a w' Hk. exact Hk. Qed.

Section Termination.

Variable env : Env.
Hypothesis Hok : transport_ok env.

Lemma readRegister_runs (reg : Z) (w : World) (Q : Z -> World -> Prop) :
  0 <= reg <= 127 ->
  Q (read_reply env (spi_log w) reg) (log_transfer [reg; 0] w) ->
  runs (readRegister env reg) w Q.
Proof.
  intros Hreg HQ. eexists. eexists.
  split; [apply (readRegister_valid env Hok); exact Hreg|exact HQ].
Qed.

Lemma writeRegister_runs (reg value : Z) (w : World) (Q : unit -> World -> Prop) :
  0 <= reg <= 127 ->
  Q tt (log_transfer [reg + 128; Z.land value 255] w) ->
  runs (writeRegister env reg value) w Q.
Proof.
  intros Hreg HQ. eexists. eexists.
  split; [apply (writeRegister_valid env Hok); exact Hreg|exact HQ].
Qed.

Lemma HAL_GetTick_runs (w : World) (Q : Z -> World -> Prop) :
  Q (tick env (clock_reads w)) (count_clock_read w) -> runs (HAL_GetTick env) w Q.
Proof. intros HQ. eexists. eexists. split; [apply HAL_GetTick_eq|exact HQ]. Qed.

Lemma setMode_runs (target : RFM69Mode) (w : World) (Q : RFM69Mode -> World -> Prop) :
  0 <= target <= 4 ->
  (forall w', dev w' = set_mode target (dev w) -> continues 0 w w' -> Q target w') ->
  runs (setMode env target) w Q.
Proof.
  intros Hrange HQ.
  destruct (setMode_total env Hok target w Hrange) as [w' [Hrun [Hdev Hcont]]].
  exists target, w'. split; [exact Hrun|auto].
Qed.

Ltac wp_step :=
  lazymatch goal with
  | |- runs (bind _ _) _ _ => apply runs_bind_wp
  | |- runs (ret _) _ _ => apply runs_ret
  | |- runs (gets _) _ _ => apply runs_gets
  | |- runs (modify _) _ _ => apply runs_modify
  | |- runs (HAL_GetTick _) _ _ => apply HAL_GetTick_runs
  | |- runs (readRegister _ _) _ _ => apply readRegister_runs; [lia|]
  | |- runs (writeRegister _ _ _) _ _ => apply writeRegister_runs; [lia|]
  end.

Ltac wp := repeat wp_step.

Lemma clearFIFO_runs (w : World) (Q : unit -> World -> Prop) :
  Q tt (log_transfer [0xA8; 0x10] w) -> runs (clearFIFO env) w Q.
Proof. intros HQ. unfold clearFIFO. wp. exact HQ. Qed.

Lemma restartRx_runs (w : World) (Q : unit -> World -> Prop) :
  (forall b, Q tt (log_transfer [0xBD; b] (log_transfer [0x3D; 0] w))) ->
  runs (restartRx env) w Q.
Proof. intros HQ. unfold restartRx. wp. apply HQ. Qed.

Lemma readRSSI_runs (w : World) (Q : Z -> World -> Prop) :
  (forall r, Q r (with_dev (set_rssi r) (log_transfer [0x24; 0] w))) ->
  runs (readRSSI env) w Q.
Proof. intros HQ. unfold readRSSI. wp. apply HQ. Qed.

(** *** Waits *)

Variable period : nat.
Hypothesis Hperiod : (period <= 4000)%nat.
Hypothesis Hclk : clock_ticks period env.

Lemma period_bounds : (1 <= period <= 4000)%nat.
Proof. split; [exact (period_positive env period Hclk)|exact Hperiod]. Qed.

Lemma quiet_step_refl (w : World) : quiet_step w w.
Proof. split; [apply adds_frames_refl|reflexivity]. Qed.

Lemma quiet_step_trans (w1 w2 w3 : World) :
  quiet_step w1 w2 -> quiet_step w2 w3 -> quiet_step w1 w3.
Proof.
  intros [F1 D1] [F2 D2]. split; [eapply adds_frames_trans; eassumption|congruence].
Qed.

Lemma quiet_step_tick (w : World) : quiet_step w (count_clock_read w).
Proof. split; [exists []; split; [reflexivity|constructor]|reflexivity]. Qed.

Lemma poll_register_runs (fuel : nat) (reg : Z) (busy : Z -> bool) (T : Z) (n0 : nat)
  (w : World) :
  0 <= reg <= 127 -> 1 <= T <= 500 -> (period * Z.to_nat T < fuel)%nat ->
  clock_reads w = S n0 ->
  runs (poll_register env fuel reg busy (tick env n0) T) w
       (fun _ w' =>
          (clock_reads w <= clock_reads w' <= n0 + period * Z.to_nat T + 1)%nat /\
          quiet_step w w').
Proof.
  intros Hreg HT Hfuel Hn0. unfold poll_register.
  pose proof period_bounds as HP.
  assert (HPT : (1 <= period * Z.to_nat T)%nat) by nia.
  eapply runs_consequence.
  - apply (timed_while_runs env period Hclk quiet_step quiet_step_trans
             quiet_step_tick
             (bind (readRegister env reg) (fun r => ret (busy r))) (ret tt) T 0 n0);
      try lia; try nia.
    + intros w0. wp. split; [reflexivity|].
      split; [|reflexivity].
      exists [[reg; 0]]. split; [reflexivity|repeat constructor].
    + intros w0. wp. split; [lia|apply quiet_step_refl].
  - cbv beta. intros _ w' [Hc HR]. split; [lia|exact HR].
Qed.

Lemma waitForModeReady_runs (fuel : nat) (w : World) (Q : unit -> World -> Prop) :
  (period * 100 < fuel)%nat ->
  (forall w', continues (period * 100 + 1) w w' -> dev w' = dev w -> Q tt w') ->
  runs (waitForModeReady env fuel) w Q.
Proof.
  intros Hfuel HQ. unfold waitForModeReady. wp.
  eapply runs_consequence.
  - apply (poll_register_runs fuel 0x27 _ TIMEOUT_MODE_READY (clock_reads w));
      [lia|unfold TIMEOUT_MODE_READY; lia|exact Hfuel|reflexivity].
  - cbv beta. intros [] w' [Hc [HF HD]]. apply HQ; [|exact HD].
    cbn [count_clock_read clock_reads] in Hc.
    destruct HF as [frames [E F]].
    split; [change (Z.to_nat TIMEOUT_MODE_READY) with 100%nat in Hc; lia|].
    exists frames. split; assumption.
Qed.

Lemma waitForPacketSent_runs (fuel : nat) (w : World) (Q : unit -> World -> Prop) :
  (period * 100 < fuel)%nat ->
  (forall w', continues (period * 100 + 1) w w' -> dev w' = dev w -> Q tt w') ->
  runs (waitForPacketSent env fuel) w Q.
Proof.
  intros Hfuel HQ. unfold waitForPacketSent. wp.
  eapply runs_consequence.
  - apply (poll_register_runs fuel 0x28 _ TIMEOUT_PACKET_SENT (clock_reads w));
      [lia|unfold TIMEOUT_PACKET_SENT; lia|exact Hfuel|reflexivity].
  - cbv beta. intros [] w' [Hc [HF HD]]. apply HQ; [|exact HD].
    cbn [count_clock_read clock_reads] in Hc.
    destruct HF as [frames [E F]].
    split; [change (Z.to_nat TIMEOUT_PACKET_SENT) with 100%nat in Hc; lia|].
    exists frames. split; assumption.
Qed.

Lemma waitForRssiSample_runs (fuel : nat) (w : World) (Q : Z -> World -> Prop) :
  (period * 10 < fuel)%nat ->
  (forall w', continues (period * 10 + 1) w w' -> (clock_reads w < clock_reads w')%nat ->
              dev w' = dev w -> Q (tick env (clock_reads w)) w') ->
  runs (waitForRssiSample env fuel) w Q.
Proof.
  intros Hfuel HQ. unfold waitForRssiSample. wp.
  eapply runs_consequence.
  - apply (poll_register_runs fuel 0x23 _ 10 (clock_reads w));
      [lia|lia|exact Hfuel|reflexivity].
  - cbv beta. intros [] w' [Hc [HF HD]]. wp.
    cbn [count_clock_read clock_reads] in Hc.
    change (Z.to_nat 10) with 10%nat in Hc.
    apply HQ; [|lia|exact HD].
    destruct HF as [frames [E F]].
    split; [lia|]. exists frames. split; assumption.
Qed.

(** *** The FIFO is read in at most [dataLength] rounds *)

Lemma drain_loop_runs (dataLength : Z) (fuel : nat) (loc : Z * buffer) (w : World) :
  0 <= fst loc <= dataLength ->
  (Z.to_nat (dataLength - fst loc) < fuel)%nat ->
  runs (while fuel
          (fun loc : Z * buffer =>
             f <- readRegister env 0x28 ;;
             ret (negb (Z.land f 0x40 =? 0) && (fst loc <? dataLength)))
          (fun loc : Z * buffer =>
             b <- readRegister env 0x00 ;;
             ret (fst loc + 1, poke (snd loc) (Z.to_nat (fst loc)) b))
          loc) w
       (fun loc' w' => continues 0 w w' /\ dev w' = dev w /\
                       fst loc <= fst loc' <= dataLength).
Proof.
  revert loc w. induction fuel as [|fuel IH]; intros loc w Hloc Hfuel; [lia|].
  unfold runs. rewrite while_step.
  unfold bind at 1. rewrite (readRegister_valid env Hok) by lia. cbn [ret].
  destruct (negb (Z.land (read_reply env (spi_log w) 40) 64 =? 0) &&
            (fst loc <? dataLength)) eqn:Hcond.
  - apply andb_prop in Hcond. destruct Hcond as [_ Hlt]. apply Z.ltb_lt in Hlt.
    unfold bind at 1. rewrite (readRegister_valid env Hok) by lia. cbn [ret].
    match goal with
    | |- exists a w', while fuel ?c ?b ?l ?w0 = _ /\ _ =>
        destruct (IH l w0) as [loc' [w' [Ew [Hc [Hd Hl]]]]]
    end.
    + cbn [fst]. lia.
    + cbn [fst]. lia.
    + exists loc', w'. split; [exact Ew|].
      cbn [fst] in Hl. split; [solve_continues|]. split; [|lia].
      rewrite Hd. reflexivity.
  - eexists. eexists. split; [reflexivity|].
    split; [solve_continues|]. split; [reflexivity|lia].
Qed.

Lemma s32_small (z : Z) : 0 <= z < 2147483648 -> s32 z = z.
Proof. intros H. unfold s32. rewrite Z.mod_small by lia. lia. Qed.

Lemma drain_fifo_runs (fuel : nat) (data : buffer) (w : World)
  (Q : Z * buffer -> World -> Prop) :
  (64 < fuel)%nat ->
  (forall loc w', continues 0 w w' -> dev w' = dev w -> 0 <= fst loc <= 64 -> Q loc w') ->
  runs (drain_fifo env fuel data RFM69_MAX_PAYLOAD) w Q.
Proof.
  intros Hfuel HQ. unfold drain_fifo.
  eapply runs_consequence.
  - apply (drain_loop_runs RFM69_MAX_PAYLOAD fuel (0, data) w);
      cbn [fst]; unfold RFM69_MAX_PAYLOAD; [lia|].
    change (Z.to_nat (64 - 0)) with 64%nat. exact Hfuel.
  - cbv beta. intros loc w' [Hc [Hd Hl]]. cbn [fst] in Hl.
    unfold RFM69_MAX_PAYLOAD in Hl. apply HQ; [exact Hc|exact Hd|lia].
Qed.

(** *** Receiving while the channel is busy *)

Lemma _receive_runs (fuel : nat) (data : buffer) (w : World)
  (Q : Z * buffer -> World -> Prop) :
  (period * 100 < fuel)%nat -> (64 < fuel)%nat ->
  (forall res w', continues (period * 100 + 1) w w' -> 0 <= fst res <= 64 -> Q res w') ->
  runs (_receive env fuel data RFM69_MAX_PAYLOAD) w Q.
Proof.
  intros Hfuel Hfuel64 HQ. unfold _receive.
  apply runs_bind_wp. apply runs_gets.
  apply (runs_bind _ _ _ (fun _ w1 => continues (period * 100 + 1) w w1)).
  - destruct (negb (RFM69_MODE_RX =? _mode (dev w))).
    + apply runs_bind_wp. apply setMode_runs; [unfold RFM69_MODE_RX; lia|].
      intros w1 Hd1 Hc1.
      apply waitForModeReady_runs; [exact Hfuel|]. intros w2 Hc2 Hd2.
      solve_continues.
    + apply runs_ret. solve_continues.
  - intros _ w1 Hc1. wp.
    match goal with |- runs (if ?c then _ else _) _ _ => destruct c end.
    + apply runs_bind_wp. apply setMode_runs; [unfold RFM69_MODE_STANDBY; lia|].
      intros w2 Hd2 Hc2.
      apply runs_bind_wp. apply drain_fifo_runs; [lia|].
      intros loc w3 Hc3 Hd3 Hloc.
      apply runs_bind_wp. apply runs_gets.
      apply (runs_bind _ _ _ (fun _ w4 => continues 0 w3 w4)).
      * destruct (_autoReadRSSI (dev w3)).
        -- apply runs_bind_wp. apply readRSSI_runs. intros r. apply runs_ret.
           solve_continues.
        -- apply runs_ret. solve_continues.
      * intros _ w4 Hc4.
        apply runs_bind_wp. apply setMode_runs; [unfold RFM69_MODE_RX; lia|].
        intros w5 Hd5 Hc5. wp.
        apply HQ; [solve_continues|].
        cbn [fst]. rewrite s32_small by lia. lia.
    + apply runs_ret. apply HQ; [solve_continues|cbn [fst]; lia].
Qed.

Lemma csma_body_runs (fuel : nat) (w : World) :
  (period * 100 < fuel)%nat -> (64 < fuel)%nat ->
  runs (csma_body env fuel) w (fun _ w' => continues (period * 110 + 2) w w').
Proof.
  intros Hfuel Hfuel64. unfold csma_body.
  apply runs_bind_wp. unfold runs at 1, rand. eexists. eexists.
  split; [reflexivity|].
  apply runs_bind_wp. unfold runs at 1, delay. eexists. eexists.
  split; [reflexivity|].
  apply runs_bind_wp. apply runs_gets.
  apply runs_bind_wp. apply _receive_runs; [exact Hfuel|exact Hfuel64|].
  intros res w1 Hc1 Hres.
  apply runs_bind_wp. apply runs_modify.
  destruct (fst res >? 0).
  - apply runs_bind_wp. apply runs_modify.
    apply runs_bind_wp. apply restartRx_runs. intros b.
    apply runs_bind_wp. apply waitForRssiSample_runs; [lia|].
    intros w2 Hc2 _ _. apply runs_ret. solve_continues.
  - apply runs_ret. solve_continues.
Qed.

Lemma adds_frames_tick (w : World) : adds_frames w (count_clock_read w).
Proof. exists []. split; [reflexivity|constructor]. Qed.

Lemma csma_loop_runs (fuel n0 : nat) (w : World) :
  (period * 700 <= fuel)%nat ->
  (n0 < clock_reads w <= n0 + period * 10 + 1)%nat ->
  runs (csma_loop env fuel (tick env n0)) w
       (fun _ w' => (clock_reads w <= clock_reads w' <= n0 + period * 610 + 3)%nat /\
                    adds_frames w w').
Proof.
  intros Hfuel Hn0. unfold csma_loop.
  pose proof period_bounds as HP.
  eapply runs_consequence.
  - apply (timed_while_runs env period Hclk adds_frames adds_frames_trans adds_frames_tick
             (bind (channelFree env) (fun free => ret (negb free)))
             (csma_body env fuel) TIMEOUT_CSMA_READY (period * 110 + 2) n0);
      unfold TIMEOUT_CSMA_READY; try lia.
    + intros w0. unfold channelFree. apply runs_bind_wp. apply runs_bind_wp.
      apply readRSSI_runs. intros r.
      destruct (r <? CSMA_RSSI_THRESHOLD); wp;
        (split; [reflexivity|exists [[0x24; 0]]; split; [reflexivity|repeat constructor]]).
    + intros w0. eapply runs_consequence; [apply csma_body_runs; lia|].
      cbv beta. intros _ w' [Hc HF]. split; assumption.
  - cbv beta. intros [] w' [Hc HF].
    change (Z.to_nat TIMEOUT_CSMA_READY) with 500%nat in Hc.
    split; [lia|exact HF].
Qed.

Lemma csma_wait_runs (fuel : nat) (w : World) (Q : unit -> World -> Prop) :
  (period * 700 <= fuel)%nat ->
  (forall w', continues (period * 620 + 3) w w' ->
              _mode (dev w') = RFM69_MODE_STANDBY -> Q tt w') ->
  runs (csma_wait env fuel) w Q.
Proof.
  intros Hfuel HQ. unfold csma_wait.
  pose proof period_bounds as HP.
  apply runs_bind_wp. apply restartRx_runs. intros b.
  apply runs_bind_wp. apply setMode_runs; [unfold RFM69_MODE_RX; lia|].
  intros w1 Hd1 Hc1.
  apply runs_bind_wp. apply waitForRssiSample_runs; [lia|].
  intros w2 Hc2 Hlt2 Hd2.
  apply runs_bind_wp.
  eapply runs_consequence;
    [apply (csma_loop_runs fuel (clock_reads w1) w2 Hfuel);
     destruct Hc2 as [Hc2 _]; lia|].
  cbv beta. intros [] w3 [Hc3 HF3].
  assert (Hc3' : continues (period * 610 + 2) w2 w3) by (split; [lia|exact HF3]).
  apply runs_bind_wp. apply setMode_runs; [unfold RFM69_MODE_STANDBY; lia|].
  intros w4 Hd4 Hc4. apply runs_ret.
  apply HQ; [solve_continues|rewrite Hd4; reflexivity].
Qed.

(** *** Transmission *)

Lemma transmit_runs (fuel : nat) (data : buffer) (n : Z) (w : World) :
  (period * 100 < fuel)%nat -> 0 <= n <= 64 ->
  runs (transmit env fuel data n) w
       (fun r w' =>
          r = n /\ _mode (dev w') = RFM69_MODE_STANDBY /\
          exists post,
            spi_log w' = post ++ fifo_frames data n ++ spi_log w /\
            Forall reg_frame post).
Proof.
  intros Hfuel Hn. unfold transmit, chipSelect, chipUnselect.
  apply runs_bind_wp. apply runs_ret.
  apply runs_bind_wp. eexists. eexists.
  split; [apply (rf12_xferByte_ok env Hok)|].
  apply runs_bind_wp. eexists. eexists.
  split; [apply (rf12_xferByte_ok env Hok)|].
  apply runs_bind_wp. eexists. eexists.
  split; [apply (for_loop_xferByte env Hok data)|].
  apply runs_bind_wp. apply runs_ret.
  apply runs_bind_wp. apply setMode_runs; [unfold RFM69_MODE_TX; lia|].
  intros w1 Hd1 Hc1.
  apply runs_bind_wp. apply waitForPacketSent_runs; [exact Hfuel|].
  intros w2 Hc2 Hd2.
  apply runs_bind_wp. apply setMode_runs; [unfold RFM69_MODE_STANDBY; lia|].
  intros w3 Hd3 Hc3. apply runs_ret.
  split; [apply s32_small; lia|].
  split; [rewrite Hd3; reflexivity|].
  assert (Hc : continues (period * 100 + 1) (log_bytes (map data (seq 0 (Z.to_nat n)))
                 (log_transfer [u8 n] (log_transfer [Z.lor 0 128] w))) w3)
    by solve_continues.
  destruct Hc as [_ [post [E F]]].
  exists post. split; [|exact F].
  rewrite E, spi_log_log_bytes. cbn [log_transfer spi_log].
  unfold fifo_frames, bytes_of. cbn [map rev].
  rewrite u8_small by lia.
  rewrite <- !app_assoc. reflexivity.
Qed.

Lemma clearFIFO_eq (w : World) :
  clearFIFO env w = Ok tt (log_transfer [0xA8; 0x10] w).
Proof. unfold clearFIFO. rewrite (writeRegister_valid env Hok) by lia. reflexivity. Qed.

(** The first statement of [send]. *)
Lemma send_standby_runs (fuel : nat) (w : World) (Q : unit -> World -> Prop) :
  (period * 100 < fuel)%nat ->
  (forall w1, continues (period * 100 + 1) w w1 ->
              dev w1 = (if RFM69_MODE_SLEEP =? _mode (dev w) then dev w
                        else set_mode RFM69_MODE_STANDBY (dev w)) ->
              Q tt w1) ->
  runs (if negb (RFM69_MODE_SLEEP =? _mode (dev w))
        then setMode env RFM69_MODE_STANDBY ;; waitForModeReady env fuel
        else ret tt) w Q.
Proof.
  intros Hfuel HQ.
  destruct (RFM69_MODE_SLEEP =? _mode (dev w)); cbn [negb].
  - apply runs_ret. apply HQ; [solve_continues|reflexivity].
  - apply runs_bind_wp. apply setMode_runs; [unfold RFM69_MODE_STANDBY; lia|].
    intros w1 Hd1 Hc1.
    apply waitForModeReady_runs; [exact Hfuel|]. intros w2 Hc2 Hd2.
    apply HQ; [solve_continues|congruence].
Qed.

Lemma csmaEnabled_after_prologue (w w1 : World) :
  dev w1 = (if RFM69_MODE_SLEEP =? _mode (dev w) then dev w
            else set_mode RFM69_MODE_STANDBY (dev w)) ->
  _csmaEnabled (dev w1) = _csmaEnabled (dev w).
Proof. intros ->. destruct (RFM69_MODE_SLEEP =? _mode (dev w)); reflexivity. Qed.

(** [send] of a packet that is not empty: the run goes through the
    prologue, the carrier sense block when it is enabled, and the
    transmission, and returns the clamped length. *)
Lemma send_returns (fuel : nat) (data : buffer) (len : Z) (w : World) :
  (period * 700 <= fuel)%nat -> 0 < len ->
  exists w_p w_a w',
    adds_frames w w_p /\
    (if _csmaEnabled (dev w)
     then csma_wait env fuel w_p = Ok tt w_a /\ _mode (dev w_a) = RFM69_MODE_STANDBY
     else w_a = w_p) /\
    adds_frames w_p w_a /\
    transmit env fuel data (Z.min len 64) w_a = Ok (Z.min len 64) w' /\
    send env fuel data len w = Ok (Z.min len 64) w' /\
    _mode (dev w') = RFM69_MODE_STANDBY /\
    exists pre post,
      spi_log w' = post ++ fifo_frames data (Z.min len 64) ++ pre ++ spi_log w /\
      Forall reg_frame pre /\ Forall reg_frame post.
Proof.
  intros Hfuel Hlen.
  pose proof period_bounds as HP.
  set (n := Z.min len 64).
  assert (Hn : 0 < n <= 64) by (unfold n; lia).
  assert (Hclamp : (if len >? RFM69_MAX_PAYLOAD then RFM69_MAX_PAYLOAD else len) = n).
  { unfold n, RFM69_MAX_PAYLOAD. destruct (Z.gtb_spec len 64); lia. }
  (* prologue *)
  destruct (send_standby_runs fuel w (fun _ w1 =>
              continues (period * 100 + 1) w w1 /\
              _csmaEnabled (dev w1) = _csmaEnabled (dev w)))
    as [[] [w1 [Ep [Hc1 Hcsma]]]]; [lia| |].
  { intros w1 Hc1 Hd1. split; [exact Hc1|].
    apply (csmaEnabled_after_prologue w w1 Hd1). }
  set (w_p := log_transfer [0xA8; 0x10] w1).
  assert (Hcp : continues (period * 100 + 1) w w_p) by (unfold w_p; solve_continues).
  (* carrier sense *)
  assert (Harb : exists w_a,
            (if _csmaEnabled (dev w) then csma_wait env fuel else ret tt) w_p = Ok tt w_a /\
            (if _csmaEnabled (dev w)
             then csma_wait env fuel w_p = Ok tt w_a /\
                  _mode (dev w_a) = RFM69_MODE_STANDBY
             else w_a = w_p) /\
            adds_frames w_p w_a).
  { destruct (_csmaEnabled (dev w)).
    - destruct (csma_wait_runs fuel w_p (fun _ w_a =>
                  continues (period * 620 + 3) w_p w_a /\
                  _mode (dev w_a) = RFM69_MODE_STANDBY))
        as [[] [w_a [Ea [Hca Hma]]]]; [exact Hfuel|auto|].
      exists w_a. destruct Hca as [_ HF]. auto.
    - exists w_p. repeat split. apply adds_frames_refl. }
  destruct Harb as [w_a [Ea [Harb HFa]]].
  (* transmission *)
  destruct (transmit_runs fuel data n w_a) as [r [w' [Et [Hr [Hm [post [El Fpost]]]]]]];
    [lia|lia|]. subst r.
  exists w_p, w_a, w'.
  destruct Hcp as [_ HFp].
  split; [exact HFp|]. split; [exact Harb|]. split; [exact HFa|].
  split; [exact Et|].
  split; [|split; [exact Hm|]].
  - unfold send. unfold bind at 1. cbn [gets].
    unfold bind at 1. rewrite Ep.
    unfold bind at 1. rewrite clearFIFO_eq. fold w_p.
    rewrite Hclamp.
    destruct (Z.eqb_spec 0 n) as [H0|_]; [lia|].
    unfold bind at 1. cbn [gets]. change (dev w_p) with (dev w1). rewrite Hcsma.
    unfold bind at 1. rewrite Ea. exact Et.
  - destruct HFp as [f1 [E1 F1]]. destruct HFa as [f2 [E2 F2]].
    exists (f2 ++ f1), post. split; [|split; [apply Forall_app; auto|exact Fpost]].
    rewrite El, E2, E1, <- !app_assoc. reflexivity.
Qed.

(** [send] of an empty packet: the prologue runs and nothing else. *)
Lemma send_empty_returns (fuel : nat) (data : buffer) (w : World) :
  (period * 100 < fuel)%nat ->
  exists w_p,
    send env fuel data 0 w = Ok 0 (log_transfer [0xA8; 0x10] w_p) /\
    continues (period * 100 + 1) w w_p /\
    dev w_p = (if RFM69_MODE_SLEEP =? _mode (dev w) then dev w
               else set_mode RFM69_MODE_STANDBY (dev w)).
Proof.
  intros Hfuel.
  destruct (send_standby_runs fuel w (fun _ w1 =>
              continues (period * 100 + 1) w w1 /\
              dev w1 = (if RFM69_MODE_SLEEP =? _mode (dev w) then dev w
                        else set_mode RFM69_MODE_STANDBY (dev w))))
    as [[] [w_p [Ep [Hc Hd]]]]; [exact Hfuel|auto|].
  exists w_p. split; [|auto].
  unfold send. unfold bind at 1. cbn [gets].
  unfold bind at 1. rewrite Ep.
  unfold bind at 1. rewrite clearFIFO_eq. reflexivity.
Qed.

End Termination.

Lemma quiet_env_ticks : clock_ticks 1 quiet_env.
Proof.
  assert (H : forall n, u32 (tick quiet_env (S n) - tick quiet_env n) = 1).
  { intros n. unfold tick, u32. cbn [quiet_env clock_gettime tv_sec tv_nsec].
    change (Z.quot 0 1000000) with 0. rewrite !Z.add_0_r.
    rewrite Zminus_mod_idemp_l, Zminus_mod_idemp_r.
    replace (Z.of_nat (S n) - Z.of_nat n) with 1 by lia.
    reflexivity. }
  split; intros n.
  - rewrite H. lia.
  - replace (n + 1)%nat with (S n) by lia. rewrite H. lia.
Qed.

Lemma slow_clock_env_ok : transport_ok slow_clock_env.
Proof. intros log tx. simpl. lia. Qed.

Lemma slow_clock_env_ticks : clock_ticks 3 slow_clock_env.
Proof.
  assert (H : forall a b : nat,
            u32 (tick slow_clock_env b - tick slow_clock_env a) =
            u32 (Z.of_nat (b / 3) - Z.of_nat (a / 3))).
  { intros a b. unfold tick, u32. cbn [slow_clock_env clock_gettime tv_sec tv_nsec].
    rewrite !Z.add_0_l.
    rewrite !(Z.mul_comm 1000000), !Z.quot_mul by lia.
    rewrite Zminus_mod_idemp_l, Zminus_mod_idemp_r. reflexivity. }
  split; intros n; rewrite H.
  - assert (E : Z.of_nat (S n / 3) - Z.of_nat (n / 3) = 0 \/
                Z.of_nat (S n / 3) - Z.of_nat (n / 3) = 1).
    { rewrite !Nat2Z.inj_div, Nat2Z.inj_succ. change (Z.of_nat 3) with 3.
      Z.to_euclidean_division_equations. lia. }
    destruct E as [-> | ->]; vm_compute; intuition discriminate.
  - replace (Z.of_nat ((n + 3) / 3) - Z.of_nat (n / 3)) with 1.
    + vm_compute. intuition discriminate.
    + rewrite !Nat2Z.inj_div, Nat2Z.inj_add. change (Z.of_nat 3) with 3.
      Z.to_euclidean_division_equations. lia.
Qed.

(** ** The frames of the send pipeline *)

Lemma bind_ok {A B} (m : M A) (k : A -> M B) (w : World) (b : B) (w'' : World) :
  bind m k w = Ok b w'' -> exists a w', m w = Ok a w' /\ k a w' = Ok b w''.
Proof. unfold bind. destruct (m w) as [a w'|s]; [eauto|discriminate]. Qed.

Lemma repeat_snoc {A} (x : A) (k : nat) (l : list A) :
  repeat x k ++ x :: l = repeat x (S k) ++ l.
Proof.
  induction k as [|k IH]; [reflexivity|].
  cbn [repeat app]. rewrite IH. reflexivity.
Qed.

(** A poll that returns has read its register at least once and has done
    nothing else but read the clock. *)
Lemma poll_register_shape (env : Env) (Hok : transport_ok env) (reg : Z)
  (busy : Z -> bool) (timeEntry timeout : Z) (fuel : nat) :
  0 <= reg <= 127 ->
  forall w w', poll_register env fuel reg busy timeEntry timeout w = Ok tt w' ->
  exists (k c : nat),
    (1 <= k)%nat /\ (clock_reads w <= c <= clock_reads w + k)%nat /\
    w' = mkWorld (dev w) (repeat [reg; 0] k ++ spi_log w) c (rand_calls w) (delays w).
Proof.
  intros Hreg. unfold poll_register.
  induction fuel as [|fuel IH]; intros w w' Hrun; [discriminate|].
  rewrite while_step, timed_cond_eq in Hrun.
  unfold bind at 1 in Hrun. rewrite (readRegister_valid env Hok) in Hrun by lia.
  cbn [ret] in Hrun.
  destruct (busy (read_reply env (spi_log w) reg)).
  - cbn [log_transfer clock_reads] in Hrun.
    destruct (u32 (tick env (clock_reads w) - timeEntry) <? timeout).
    + cbn [ret] in Hrun. apply IH in Hrun.
      destruct Hrun as [k [c [Hk [Hc E]]]].
      cbn [count_clock_read log_transfer dev spi_log clock_reads rand_calls delays] in Hc, E.
      exists (S k), c. split; [lia|]. split; [lia|].
      rewrite E, repeat_snoc. reflexivity.
    + injection Hrun as <-. exists 1%nat, (S (clock_reads w)).
      split; [lia|]. split; [lia|]. reflexivity.
  - injection Hrun as <-. exists 1%nat, (clock_reads w).
    split; [lia|]. split; [lia|]. destruct w; reflexivity.
Qed.

Lemma wait_shape (env : Env) (Hok : transport_ok env) (reg : Z) (busy : Z -> bool)
  (timeout : Z) (fuel : nat) (w w' : World) :
  0 <= reg <= 127 ->
  (timeEntry <- HAL_GetTick env ;; poll_register env fuel reg busy timeEntry timeout) w =
    Ok tt w' ->
  exists (k c : nat),
    (1 <= k)%nat /\ (clock_reads w < c <= clock_reads w + k + 1)%nat /\
    w' = mkWorld (dev w) (repeat [reg; 0] k ++ spi_log w) c (rand_calls w) (delays w).
Proof.
  intros Hreg Hrun. unfold bind at 1 in Hrun. rewrite HAL_GetTick_eq in Hrun.
  apply (poll_register_shape env Hok reg busy _ _ fuel Hreg) in Hrun.
  destruct Hrun as [k [c [Hk [Hc E]]]].
  cbn [count_clock_read dev spi_log clock_reads rand_calls delays] in Hc, E.
  exists k, c. split; [exact Hk|]. split; [lia|exact E].
Qed.

Lemma setMode_standby_eq (env : Env) (Hok : transport_ok env) (w : World) :
  setMode env RFM69_MODE_STANDBY w =
    Ok (if RFM69_MODE_STANDBY =? _mode (dev w) then _mode (dev w) else RFM69_MODE_STANDBY)
       (with_dev (set_mode RFM69_MODE_STANDBY)
          (fold_right log_transfer w (standby_frames (_mode (dev w))))).
Proof.
  unfold standby_frames.
  destruct (Z.eqb_spec RFM69_MODE_STANDBY (_mode (dev w))) as [E|Hne].
  - rewrite (setMode_noop env RFM69_MODE_STANDBY w (or_introl E)).
    cbn [fold_right]. f_equal. destruct w as [d log c r dl]. cbn [dev] in E.
    unfold with_dev. cbn [dev spi_log clock_reads rand_calls delays].
    rewrite E, set_mode_same. reflexivity.
  - rewrite (setMode_performed env Hok RFM69_MODE_STANDBY w)
      by (unfold RFM69_MODE_STANDBY in *; lia || assumption).
    change (RFM69_MODE_STANDBY =? RFM69_MODE_RX) with false.
    change (RFM69_MODE_STANDBY =? RFM69_MODE_TX) with false.
    destruct (_highPowerDevice (dev w) && _highPowerSettings (dev w)); reflexivity.
Qed.

Lemma setMode_rx_eq (env : Env) (Hok : transport_ok env) (w : World) :
  _mode (dev w) <> RFM69_MODE_RX ->
  setMode env RFM69_MODE_RX w =
    Ok RFM69_MODE_RX
       (with_dev (set_mode RFM69_MODE_RX) (fold_right log_transfer w (rx_frames (dev w)))).
Proof.
  intros Hne.
  rewrite (setMode_performed env Hok RFM69_MODE_RX w)
    by (unfold RFM69_MODE_RX in *; lia || (intros E; apply Hne; symmetry; exact E)).
  rewrite Z.eqb_refl. reflexivity.
Qed.

Lemma setMode_tx_eq (env : Env) (Hok : transport_ok env) (w : World) :
  _mode (dev w) <> RFM69_MODE_TX ->
  setMode env RFM69_MODE_TX w =
    Ok RFM69_MODE_TX
       (with_dev (set_mode RFM69_MODE_TX) (fold_right log_transfer w (tx_frames (dev w)))).
Proof.
  intros Hne.
  rewrite (setMode_performed env Hok RFM69_MODE_TX w)
    by (unfold RFM69_MODE_TX in *; lia || (intros E; apply Hne; symmetry; exact E)).
  change (RFM69_MODE_TX =? RFM69_MODE_RX) with false. rewrite Z.eqb_refl. reflexivity.
Qed.

(** The first statement of [send], when it returns. *)
Lemma send_entry_shape (env : Env) (Hok : transport_ok env) (fuel : nat) (w w1 : World) :
  (if negb (RFM69_MODE_SLEEP =? _mode (dev w))
   then setMode env RFM69_MODE_STANDBY ;; waitForModeReady env fuel
   else ret tt) w = Ok tt w1 ->
  exists k : nat,
    (RFM69_MODE_SLEEP <> _mode (dev w) -> (1 <= k)%nat) /\
    spi_log w1 = entry_frames (_mode (dev w)) k ++ spi_log w /\
    dev w1 = (if RFM69_MODE_SLEEP =? _mode (dev w) then dev w
              else set_mode RFM69_MODE_STANDBY (dev w)) /\
    (clock_reads w <= clock_reads w1)%nat.
Proof.
  unfold entry_frames.
  destruct (Z.eqb_spec RFM69_MODE_SLEEP (_mode (dev w))) as [E|Hne]; cbn [negb]; intros Hrun.
  - injection Hrun as <-. exists O. split; [contradiction|]. repeat split. lia.
  - unfold bind at 1 in Hrun. rewrite (setMode_standby_eq env Hok) in Hrun.
    unfold waitForModeReady in Hrun.
    apply (wait_shape env Hok 0x27) in Hrun; [|lia].
    destruct Hrun as [k [c [Hk [Hc ->]]]].
    cbn [with_dev dev spi_log clock_reads] in *.
    rewrite spi_log_fold_right, dev_fold_right.
    exists k. split; [auto|]. split; [rewrite app_assoc; reflexivity|].
    split; [reflexivity|].
    assert (Hcr : forall l, clock_reads (fold_right log_transfer w l) = clock_reads w)
      by (induction l; simpl; auto).
    rewrite Hcr in Hc. lia.
Qed.

(** The transmission, when it returns: the push into the FIFO, the switch
    to Transmit, the poll of the packet-sent flag, the switch to Standby. *)
Lemma transmit_shape (env : Env) (Hok : transport_ok env) (fuel : nat) (data : buffer)
  (n : Z) (w r : _) (w' : World) :
  0 <= n <= 64 -> _mode (dev w) <> RFM69_MODE_TX ->
  transmit env fuel data n w = Ok r w' ->
  exists k : nat,
    (1 <= k)%nat /\ r = n /\
    spi_log w' = transmit_frames (dev w) k ++ fifo_frames data n ++ spi_log w /\
    dev w' = set_mode RFM69_MODE_STANDBY (dev w).
Proof.
  intros Hn Hmode Hrun. unfold transmit, chipSelect, chipUnselect in Hrun.
  unfold bind at 1 in Hrun. cbn [ret] in Hrun.
  unfold bind at 1 in Hrun. rewrite (rf12_xferByte_ok env Hok) in Hrun.
  unfold bind at 1 in Hrun. rewrite (rf12_xferByte_ok env Hok) in Hrun.
  unfold bind at 1 in Hrun. rewrite (for_loop_xferByte env Hok data) in Hrun.
  unfold bind at 1 in Hrun. cbn [ret] in Hrun.
  unfold bind at 1 in Hrun.
  rewrite (setMode_tx_eq env Hok) in Hrun by (rewrite dev_log_bytes; exact Hmode).
  apply bind_ok in Hrun. destruct Hrun as [[] [w2 [Hwait Hrest]]].
  unfold waitForPacketSent in Hwait.
  apply (wait_shape env Hok 0x28) in Hwait; [|lia].
  destruct Hwait as [k [c [Hk [_ ->]]]].
  unfold bind at 1 in Hrest. rewrite (setMode_standby_eq env Hok) in Hrest.
  cbn [ret] in Hrest. injection Hrest as <- <-.
  exists k. split; [exact Hk|]. split; [apply (s32_small 0); lia|].
  cbn [with_dev dev spi_log set_mode _mode].
  rewrite dev_fold_right, dev_log_bytes. cbn [log_transfer dev].
  change (standby_frames RFM69_MODE_TX) with [mode_frame RFM69_MODE_STANDBY].
  cbn [fold_right log_transfer spi_log with_dev].
  rewrite spi_log_fold_right, spi_log_log_bytes. cbn [log_transfer spi_log dev].
  split; [|destruct (dev w); reflexivity].
  unfold transmit_frames, fifo_frames, bytes_of. cbn [map rev app].
  rewrite u8_small by lia.
  rewrite <- !app_assoc. reflexivity.
Qed.

(** *** Partial correctness *)

Lemma hoare_ret {A} (P : World -> Prop) (a : A) (Q : A -> World -> Prop) :
  (forall w, P w -> Q a w) -> hoare P (ret a) Q.
Proof. intros H w a' w' HP E. injection E as <- <-. apply H. exact HP. Qed.

Lemma hoare_bind {A B} (P : World -> Prop) (m : M A) (k : A -> M B)
  (Q1 : A -> World -> Prop) (Q : B -> World -> Prop) :
  hoare P m Q1 -> (forall a, hoare (Q1 a) (k a) Q) -> hoare P (bind m k) Q.
Proof.
  intros Hm Hk w b w'' HP E. apply bind_ok in E. destruct E as [a [w' [E1 E2]]].
  exact (Hk a w' b w'' (Hm w a w' HP E1) E2).
Qed.

Lemma hoare_weaken {A} (P P' : World -> Prop) (m : M A) (Q Q' : A -> World -> Prop) :
  hoare P' m Q' -> (forall w, P w -> P' w) -> (forall a w, Q' a w -> Q a w) ->
  hoare P m Q.
Proof. intros H HP HQ w a w' Hw E. apply HQ. exact (H w a w' (HP w Hw) E). Qed.

Lemma hoare_gets {A} (P : World -> Prop) (f : Device -> A) (Q : A -> World -> Prop) :
  (forall w, P w -> Q (f (dev w)) w) -> hoare P (gets f) Q.
Proof. intros H w a w' HP E. injection E as <- <-. apply H. exact HP. Qed.

Lemma hoare_modify (P : World -> Prop) (f : Device -> Device) (Q : unit -> World -> Prop) :
  (forall w, P w -> Q tt (with_dev f w)) -> hoare P (modify f) Q.
Proof. intros H w a w' HP E. injection E as <- <-. apply H. exact HP. Qed.

Lemma hoare_while {S : Type} (I : S -> World -> Prop) (cond : S -> M bool)
  (body : S -> M S) :
  (forall s, hoare (I s) (cond s) (fun _ => I s)) ->
  (forall s, hoare (I s) (body s) I) ->
  forall fuel s, hoare (I s) (while fuel cond body s) I.
Proof.
  intros Hcond Hbody. induction fuel as [|fuel IH]; intros s w s' w' HI E; [discriminate|].
  rewrite while_step in E.
  destruct (cond s w) as [[|] w1|x] eqn:Ec; [| |discriminate].
  - destruct (body s w1) as [s1 w2|x] eqn:Eb; [|discriminate].
    exact (IH s1 w2 s' w' (Hbody s w1 s1 w2 (Hcond s w true w1 HI Ec) Eb) E).
  - injection E as <- <-. exact (Hcond s w false w1 HI Ec).
Qed.

(** *** The frames of the carrier sense block *)

Lemma csma_step_refl (w : World) : csma_step w w.
Proof. split; [exists []; split; reflexivity|]. repeat split. lia. Qed.

Lemma csma_at_log (ws : World) (m : RFM69Mode) (tx : list Z) (w : World) :
  csma_frame tx = true -> csma_at ws m w -> csma_at ws m (log_transfer tx w).
Proof.
  intros Htx [[[frames [E F]] [H1 [H2 H3]]] Hm].
  split; [|exact Hm]. split; [|auto].
  exists (tx :: frames). cbn [log_transfer spi_log forallb]. rewrite E, Htx, F.
  split; reflexivity.
Qed.

Lemma csma_at_logs (ws : World) (m : RFM69Mode) (frames : list (list Z)) (w : World) :
  forallb csma_frame frames = true -> csma_at ws m w ->
  csma_at ws m (fold_right log_transfer w frames).
Proof.
  induction frames as [|tx frames IH]; intros F H; [exact H|].
  cbn [forallb] in F. apply andb_prop in F. destruct F as [F1 F2].
  cbn [fold_right]. apply csma_at_log; [exact F1|]. apply IH; assumption.
Qed.

Lemma csma_at_tick (ws : World) (m : RFM69Mode) (w : World) :
  csma_at ws m w -> csma_at ws m (count_clock_read w).
Proof.
  intros [[F [H1 [H2 H3]]] Hm]. split; [|exact Hm]. split; [exact F|].
  cbn [count_clock_read dev clock_reads]. repeat split; auto.
Qed.

Lemma csma_at_set_mode (ws : World) (m t : RFM69Mode) (w : World) :
  csma_at ws m w -> csma_at ws t (with_dev (set_mode t) w).
Proof.
  intros [[F [H1 [H2 H3]]] Hm]. split; [|reflexivity]. split; [exact F|].
  cbn [with_dev dev clock_reads set_mode _highPowerDevice _highPowerSettings].
  auto.
Qed.

Lemma csma_at_with_dev (ws : World) (m : RFM69Mode) (f : Device -> Device) (w : World) :
  (forall d, _highPowerDevice (f d) = _highPowerDevice d /\
             _highPowerSettings (f d) = _highPowerSettings d /\
             _mode (f d) = _mode d) ->
  csma_at ws m w -> csma_at ws m (with_dev f w).
Proof.
  intros Hf [[F [H1 [H2 H3]]] Hm]. destruct (Hf (dev w)) as [F1 [F2 F3]].
  split; [|cbn [with_dev dev]; congruence]. split; [exact F|].
  cbn [with_dev dev clock_reads]. repeat split; congruence.
Qed.

Lemma csma_at_clock (ws : World) (m : RFM69Mode) (w : World) (c : nat) :
  (clock_reads w <= c)%nat -> csma_at ws m w ->
  csma_at ws m (mkWorld (dev w) (spi_log w) c (rand_calls w) (delays w)).
Proof.
  intros Hc [[F [H1 [H2 H3]]] Hm]. split; [|exact Hm]. split; [exact F|].
  cbn [dev clock_reads]. repeat split; auto. lia.
Qed.

Section Carrier_sense_frames.

Variable env : Env.
Hypothesis Hok : transport_ok env.
Variable ws : World.

Lemma readRegister_csma (m : RFM69Mode) (reg : Z) :
  0 <= reg <= 127 -> csma_frame [reg; 0] = true ->
  hoare (csma_at ws m) (readRegister env reg) (fun _ => csma_at ws m).
Proof.
  intros Hreg Hf w a w' HP E. rewrite (readRegister_valid env Hok) in E by exact Hreg.
  injection E as _ <-. apply csma_at_log; assumption.
Qed.

Lemma writeRegister_csma (m : RFM69Mode) (reg value : Z) :
  0 <= reg <= 127 -> csma_frame [reg + 128; Z.land value 255] = true ->
  hoare (csma_at ws m) (writeRegister env reg value) (fun _ => csma_at ws m).
Proof.
  intros Hreg Hf w a w' HP E. rewrite (writeRegister_valid env Hok) in E by exact Hreg.
  injection E as _ <-. apply csma_at_log; assumption.
Qed.

Lemma poll_register_csma (m : RFM69Mode) (fuel : nat) (reg : Z) (busy : Z -> bool)
  (timeEntry timeout : Z) :
  0 <= reg <= 127 -> csma_frame [reg; 0] = true ->
  hoare (csma_at ws m) (poll_register env fuel reg busy timeEntry timeout)
        (fun _ => csma_at ws m).
Proof.
  intros Hreg Hf w a w' HP E. destruct a.
  destruct (poll_register_shape env Hok reg busy timeEntry timeout fuel Hreg w w' E)
    as [k [c [_ [Hc ->]]]].
  assert (Hall : forallb csma_frame (repeat [reg; 0] k) = true).
  { clear -Hf. induction k as [|k IH]; [reflexivity|].
    cbn [repeat forallb]. rewrite Hf, IH. reflexivity. }
  assert (Hcr : forall l, clock_reads (fold_right log_transfer w l) = clock_reads w)
    by (induction l; simpl; auto).
  assert (Hr : forall l, rand_calls (fold_right log_transfer w l) = rand_calls w)
    by (induction l; simpl; auto).
  assert (Hd : forall l, delays (fold_right log_transfer w l) = delays w)
    by (induction l; simpl; auto).
  pose proof (csma_at_clock ws m (fold_right log_transfer w (repeat [reg; 0] k)) c
                ltac:(rewrite Hcr; lia) (csma_at_logs ws m _ w Hall HP)) as H.
  rewrite dev_fold_right, spi_log_fold_right, Hr, Hd in H. exact H.
Qed.

Lemma setMode_rx_csma (m : RFM69Mode) :
  hoare (csma_at ws m) (setMode env RFM69_MODE_RX) (fun _ => csma_at ws RFM69_MODE_RX).
Proof.
  intros w a w' HP E.
  destruct (Z.eq_dec (_mode (dev w)) RFM69_MODE_RX) as [Heq|Hne].
  - rewrite (setMode_noop env RFM69_MODE_RX w (or_introl (eq_sym Heq))) in E.
    injection E as _ <-. destruct HP as [Hs Hm]. split; [exact Hs|exact Heq].
  - rewrite (setMode_rx_eq env Hok w Hne) in E. injection E as _ <-.
    apply (csma_at_set_mode ws m). apply csma_at_logs; [|exact HP].
    unfold rx_frames.
    destruct (_highPowerDevice (dev w) && _highPowerSettings (dev w)); reflexivity.
Qed.

Lemma setMode_standby_csma (m : RFM69Mode) :
  hoare (csma_at ws m) (setMode env RFM69_MODE_STANDBY)
        (fun _ => csma_at ws RFM69_MODE_STANDBY).
Proof.
  intros w a w' HP E. rewrite (setMode_standby_eq env Hok) in E. injection E as _ <-.
  apply (csma_at_set_mode ws m). apply csma_at_logs; [|exact HP].
  unfold standby_frames. destruct (RFM69_MODE_STANDBY =? _mode (dev w)); reflexivity.
Qed.

Lemma waitForModeReady_csma (m : RFM69Mode) (fuel : nat) :
  hoare (csma_at ws m) (waitForModeReady env fuel) (fun _ => csma_at ws m).
Proof.
  unfold waitForModeReady.
  apply (hoare_bind _ _ _ (fun _ => csma_at ws m)).
  - intros w a w' HP E. rewrite HAL_GetTick_eq in E. injection E as _ <-.
    apply csma_at_tick. exact HP.
  - intros te. apply poll_register_csma; [lia|reflexivity].
Qed.

Lemma waitForRssiSample_csma (m : RFM69Mode) (fuel : nat) :
  hoare (csma_at ws m) (waitForRssiSample env fuel) (fun _ => csma_at ws m).
Proof.
  unfold waitForRssiSample.
  apply (hoare_bind _ _ _ (fun _ => csma_at ws m)).
  - intros w a w' HP E. rewrite HAL_GetTick_eq in E. injection E as _ <-.
    apply csma_at_tick. exact HP.
  - intros te. apply (hoare_bind _ _ _ (fun _ => csma_at ws m)).
    + apply poll_register_csma; [lia|reflexivity].
    + intros _. apply hoare_ret. auto.
Qed.

Lemma restartRx_csma (m : RFM69Mode) :
  hoare (csma_at ws m) (restartRx env) (fun _ => csma_at ws m).
Proof.
  unfold restartRx.
  apply (hoare_bind _ _ _ (fun _ => csma_at ws m)).
  - apply readRegister_csma; [lia|reflexivity].
  - intros v. apply writeRegister_csma; [lia|reflexivity].
Qed.

Lemma readRSSI_csma (m : RFM69Mode) :
  hoare (csma_at ws m) (readRSSI env) (fun _ => csma_at ws m).
Proof.
  unfold readRSSI.
  apply (hoare_bind _ _ _ (fun _ => csma_at ws m)).
  - apply readRegister_csma; [lia|reflexivity].
  - intros v. apply (hoare_bind _ _ _ (fun _ => csma_at ws m)).
    + apply hoare_modify. intros w HP. apply csma_at_with_dev; [|exact HP].
      intros d. repeat split.
    + intros _. apply hoare_gets. auto.
Qed.

Lemma drain_fifo_csma (m : RFM69Mode) (fuel : nat) (data : buffer) (dataLength : Z) :
  hoare (csma_at ws m) (drain_fifo env fuel data dataLength) (fun _ => csma_at ws m).
Proof.
  unfold drain_fifo.
  apply (hoare_while (fun _ : Z * buffer => csma_at ws m)).
  - intros s. apply (hoare_bind _ _ _ (fun _ => csma_at ws m)).
    + apply readRegister_csma; [lia|reflexivity].
    + intros f. apply hoare_ret. auto.
  - intros s. apply (hoare_bind _ _ _ (fun _ => csma_at ws m)).
    + apply readRegister_csma; [lia|reflexivity].
    + intros b. apply hoare_ret. auto.
Qed.

Lemma _receive_csma (m : RFM69Mode) (fuel : nat) (data : buffer) (dataLength : Z) :
  hoare (csma_at ws m) (_receive env fuel data dataLength)
        (fun _ => csma_at ws RFM69_MODE_RX).
Proof.
  unfold _receive.
  apply (hoare_bind _ _ _ (fun mode w => csma_at ws m w /\ mode = m)).
  { apply hoare_gets. intros w HP. split; [exact HP|]. destruct HP as [_ Hm]. exact Hm. }
  intros mode.
  apply (hoare_bind _ _ _ (fun _ => csma_at ws RFM69_MODE_RX)).
  { destruct (Z.eqb_spec RFM69_MODE_RX mode) as [E|_]; cbn [negb].
    - apply hoare_ret. intros w [HP Hm]. rewrite E, Hm. exact HP.
    - apply (hoare_bind _ _ _ (fun _ => csma_at ws RFM69_MODE_RX)).
      + eapply hoare_weaken; [apply (setMode_rx_csma m)|intros w [HP _]; exact HP|auto].
      + intros _. apply waitForModeReady_csma. }
  intros _.
  apply (hoare_bind _ _ _ (fun _ => csma_at ws RFM69_MODE_RX));
    [apply readRegister_csma; [lia|reflexivity]|intros _].
  apply (hoare_bind _ _ _ (fun _ => csma_at ws RFM69_MODE_RX));
    [apply readRegister_csma; [lia|reflexivity]|intros _].
  apply (hoare_bind _ _ _ (fun _ => csma_at ws RFM69_MODE_RX));
    [apply readRegister_csma; [lia|reflexivity]|intros r].
  destruct (negb (Z.land r 4 =? 0)); [|apply hoare_ret; auto].
  apply (hoare_bind _ _ _ (fun _ => csma_at ws RFM69_MODE_STANDBY));
    [apply setMode_standby_csma|intros _].
  apply (hoare_bind _ _ _ (fun _ => csma_at ws RFM69_MODE_STANDBY));
    [apply drain_fifo_csma|intros loc].
  apply (hoare_bind _ _ _ (fun _ => csma_at ws RFM69_MODE_STANDBY));
    [apply hoare_gets; auto|intros autoRead].
  apply (hoare_bind _ _ _ (fun _ => csma_at ws RFM69_MODE_STANDBY)).
  { destruct autoRead; [|apply hoare_ret; auto].
    apply (hoare_bind _ _ _ (fun _ => csma_at ws RFM69_MODE_STANDBY));
      [apply readRSSI_csma|intros _; apply hoare_ret; auto]. }
  intros _.
  apply (hoare_bind _ _ _ (fun _ => csma_at ws RFM69_MODE_RX));
    [apply setMode_rx_csma|intros _].
  apply (hoare_bind _ _ _ (fun _ => csma_at ws RFM69_MODE_RX));
    [apply readRegister_csma; [lia|reflexivity]|intros v].
  apply (hoare_bind _ _ _ (fun _ => csma_at ws RFM69_MODE_RX));
    [apply writeRegister_csma; [lia|reflexivity]|intros _].
  apply hoare_ret. auto.
Qed.

Lemma csma_body_csma (m : RFM69Mode) (fuel : nat) :
  hoare (csma_at ws m) (csma_body env fuel) (fun _ => csma_at ws RFM69_MODE_RX).
Proof.
  unfold csma_body.
  apply (hoare_bind _ _ _ (fun _ => csma_at ws m)).
  { intros w a w' HP E. unfold rand in E. injection E as _ <-.
    destruct HP as [[F H] Hm]. split; [split|]; assumption. }
  intros r.
  apply (hoare_bind _ _ _ (fun _ => csma_at ws m)).
  { intros w a w' HP E. unfold delay in E. injection E as _ <-.
    destruct HP as [[F H] Hm]. split; [split|]; assumption. }
  intros _.
  apply (hoare_bind _ _ _ (fun _ => csma_at ws m)); [apply hoare_gets; auto|intros rxb].
  apply (hoare_bind _ _ _ (fun _ => csma_at ws RFM69_MODE_RX));
    [apply _receive_csma|intros res].
  apply (hoare_bind _ _ _ (fun _ => csma_at ws RFM69_MODE_RX)).
  { apply hoare_modify. intros w HP. apply csma_at_with_dev; [|exact HP].
    intros d. repeat split. }
  intros _.
  destruct (fst res >? 0); [|apply hoare_ret; auto].
  apply (hoare_bind _ _ _ (fun _ => csma_at ws RFM69_MODE_RX)).
  { apply hoare_modify. intros w HP. apply csma_at_with_dev; [|exact HP].
    intros d. repeat split. }
  intros _.
  apply (hoare_bind _ _ _ (fun _ => csma_at ws RFM69_MODE_RX));
    [apply restartRx_csma|intros _].
  apply (hoare_bind _ _ _ (fun _ => csma_at ws RFM69_MODE_RX));
    [apply waitForRssiSample_csma|intros _].
  apply hoare_ret. auto.
Qed.

(** The loop, when it returns, was left at a check that found the channel
    free or the time limit reached; the world at that check comes after
    the world at the start of the loop by frames of the block only. *)
Lemma csma_loop_exit_at (te : Z) (fuel : nat) :
  forall w w', csma_at ws RFM69_MODE_RX w ->
  csma_loop env fuel te w = Ok tt w' ->
  exists w0,
    csma_at ws RFM69_MODE_RX w0 /\
    let rssi := Z.quot (- read_reply env (spi_log w0) 0x24) 2 in
    let w1 := with_dev (set_rssi rssi) (log_transfer [0x24; 0] w0) in
    (rssi < CSMA_RSSI_THRESHOLD /\ w' = w1) \/
    (CSMA_RSSI_THRESHOLD <= rssi /\
     TIMEOUT_CSMA_READY <= u32 (tick env (clock_reads w0) - te) /\
     w' = count_clock_read w1).
Proof.
  unfold csma_loop.
  pose proof (csma_body_csma RFM69_MODE_RX fuel) as Hbody.
  revert Hbody. generalize (csma_body env fuel). intros body Hbody.
  induction fuel as [|fuel IH]; intros w w' HP Hrun; [discriminate|].
  rewrite while_step, timed_cond_eq in Hrun.
  unfold channelFree, readRSSI in Hrun.
  cbv beta iota delta [bind ret gets modify] in Hrun.
  rewrite (readRegister_valid env Hok) in Hrun by lia.
  cbv beta iota in Hrun. cbn [dev with_dev _rssi set_rssi] in Hrun.
  destruct (Z.ltb_spec (Z.quot (- read_reply env (spi_log w) 36) 2) CSMA_RSSI_THRESHOLD)
    as [Hfree|Hbusy].
  - cbn [negb] in Hrun. injection Hrun as <-. exists w. split; [exact HP|]. left. auto.
  - cbn [negb clock_reads with_dev log_transfer] in Hrun.
    destruct (Z.ltb_spec (u32 (tick env (clock_reads w) - te)) TIMEOUT_CSMA_READY)
      as [Hearly|Hlate].
    + match type of Hrun with
      | match body ?w1 with _ => _ end = _ =>
          destruct (body w1) as [[] w2|x] eqn:Eb; [|discriminate];
          assert (HP2 : csma_at ws RFM69_MODE_RX w2)
      end.
      { refine (Hbody _ tt w2 _ Eb).
        apply csma_at_tick. apply csma_at_with_dev; [intros d; repeat split|].
        apply csma_at_log; [reflexivity|exact HP]. }
      exact (IH w2 w' HP2 Hrun).
    + injection Hrun as <-. exists w. split; [exact HP|]. right. auto.
Qed.

End Carrier_sense_frames.

(** *** The run of [send] *)

Lemma clearFIFO_frame (env : Env) (Hok : transport_ok env) (w : World) :
  clearFIFO env w = Ok tt (log_transfer [0xA8; 0x10] w).
Proof. unfold clearFIFO. rewrite (writeRegister_valid env Hok) by lia. reflexivity. Qed.

Lemma restartRx_eq (env : Env) (Hok : transport_ok env) (w : World) :
  restartRx env w =
    Ok tt (log_transfer
             [0xBD; Z.land (u8 (Z.lor (Z.land (read_reply env (spi_log w) 0x3D) 0xFB) 0x20)) 255]
             (log_transfer [0x3D; 0] w)).
Proof. unfold restartRx. run_registers Hok. reflexivity. Qed.

Lemma waitForRssiSample_shape (env : Env) (Hok : transport_ok env) (fuel : nat)
  (w : World) (te : Z) (w' : World) :
  waitForRssiSample env fuel w = Ok te w' ->
  exists (j c : nat),
    (1 <= j)%nat /\ (clock_reads w < c)%nat /\ te = tick env (clock_reads w) /\
    w' = mkWorld (dev w) (repeat [0x23; 0] j ++ spi_log w) c (rand_calls w) (delays w).
Proof.
  intros Hrun. unfold waitForRssiSample in Hrun.
  unfold bind at 1 in Hrun. rewrite HAL_GetTick_eq in Hrun.
  apply bind_ok in Hrun. destruct Hrun as [[] [w1 [Hpoll Hret]]].
  injection Hret as <- <-.
  apply (poll_register_shape env Hok 0x23) in Hpoll; [|lia].
  destruct Hpoll as [j [c [Hj [Hc ->]]]].
  cbn [count_clock_read dev spi_log clock_reads rand_calls delays] in *.
  exists j, c. split; [exact Hj|]. split; [lia|]. split; reflexivity.
Qed.

(** The carrier sense block, when it returns. *)
Lemma csma_wait_shape (env : Env) (Hok : transport_ok env) (fuel : nat) (w w_a : World) :
  _mode (dev w) <> RFM69_MODE_RX ->
  csma_wait env fuel w = Ok tt w_a ->
  exists (b : Z) (j : nat) (loop : list (list Z)) (w0 : World),
    (1 <= j)%nat /\
    spi_log w0 =
      loop ++ repeat [0x23; 0] j ++ rx_frames (dev w) ++ [0xBD; b] :: [0x3D; 0] :: spi_log w /\
    forallb csma_frame loop = true /\
    (clock_reads w < clock_reads w0)%nat /\
    (Z.quot (- read_reply env (spi_log w0) 0x24) 2 < CSMA_RSSI_THRESHOLD \/
     CSMA_RSSI_THRESHOLD <= Z.quot (- read_reply env (spi_log w0) 0x24) 2 /\
     TIMEOUT_CSMA_READY <= u32 (tick env (clock_reads w0) - tick env (clock_reads w))) /\
    spi_log w_a = mode_frame RFM69_MODE_STANDBY :: [0x24; 0] :: spi_log w0 /\
    _mode (dev w_a) = RFM69_MODE_STANDBY /\
    _highPowerDevice (dev w_a) = _highPowerDevice (dev w) /\
    _highPowerSettings (dev w_a) = _highPowerSettings (dev w).
Proof.
  intros Hmode Hrun. unfold csma_wait in Hrun.
  unfold bind at 1 in Hrun. rewrite (restartRx_eq env Hok) in Hrun.
  unfold bind at 1 in Hrun.
  rewrite (setMode_rx_eq env Hok) in Hrun by exact Hmode.
  apply bind_ok in Hrun. destruct Hrun as [te [w2 [Hwait Hrun]]].
  apply (waitForRssiSample_shape env Hok) in Hwait.
  destruct Hwait as [j [c [Hj [Hc [Hte Hw2]]]]].
  cbn [with_dev dev spi_log clock_reads rand_calls delays] in Hc, Hte, Hw2.
  rewrite dev_fold_right, spi_log_fold_right in Hw2.
  cbn [log_transfer dev spi_log] in Hw2.
  assert (Hcr : forall l w5, clock_reads (fold_right log_transfer w5 l) = clock_reads w5)
    by (induction l; simpl; auto).
  rewrite Hcr in Hc, Hte. cbn [log_transfer clock_reads] in Hc, Hte.
  apply bind_ok in Hrun. destruct Hrun as [[] [w3 [Hloop Hrun]]].
  assert (Hstart : csma_at w2 RFM69_MODE_RX w2).
  { split; [apply csma_step_refl|rewrite Hw2; reflexivity]. }
  destruct (csma_loop_exit_at env Hok w2 te fuel w2 w3 Hstart Hloop)
    as [w0 [[[[loop [Elog Floop]] [Hhp [Hhps Hclock]]] Hm0] Hexit]].
  cbv zeta in Hexit.
  unfold bind at 1 in Hrun. rewrite (setMode_standby_eq env Hok) in Hrun.
  cbn [ret] in Hrun. injection Hrun as <-.
  assert (Hw3 : spi_log w3 = [0x24; 0] :: spi_log w0 /\ dev w3 =
                  set_rssi (Z.quot (- read_reply env (spi_log w0) 0x24) 2) (dev w0)).
  { destruct Hexit as [[_ ->]|[_ [_ ->]]]; split; reflexivity. }
  destruct Hw3 as [Elog3 Edev3].
  assert (Hm3 : _mode (dev w3) = RFM69_MODE_RX) by (rewrite Edev3; exact Hm0).
  exists (Z.land (u8 (Z.lor (Z.land (read_reply env (spi_log w) 0x3D) 0xFB) 0x20)) 255),
    j, loop, w0.
  split; [exact Hj|].
  split; [rewrite Elog, Hw2; reflexivity|].
  split; [exact Floop|].
  split; [rewrite Hw2 in Hclock; cbn [clock_reads] in Hclock; lia|].
  split.
  { rewrite Hte in Hexit. destruct Hexit as [[H _]|[H1 [H2 _]]]; [left|right]; auto. }
  rewrite Hm3. change (standby_frames RFM69_MODE_RX) with [mode_frame RFM69_MODE_STANDBY].
  cbn [fold_right with_dev log_transfer spi_log dev set_mode _mode
       _highPowerDevice _highPowerSettings].
  split; [rewrite Elog3; reflexivity|]. split; [reflexivity|].
  rewrite Edev3. cbn [set_rssi _highPowerDevice _highPowerSettings].
  rewrite Hhp, Hhps, Hw2. cbn [dev set_mode _highPowerDevice _highPowerSettings].
  split; reflexivity.
Qed.

Lemma clamp_min (len : Z) :
  (if len >? RFM69_MAX_PAYLOAD then RFM69_MAX_PAYLOAD else len) = Z.min len 64.
Proof. unfold RFM69_MAX_PAYLOAD. destruct (Z.gtb_spec len 64); lia. Qed.

(** [send] of a packet that is not empty, when it returns: the run up to
    the test of [_csmaEnabled]. *)
Lemma send_entry (env : Env) (Hok : transport_ok env) (fuel : nat) (data : buffer)
  (len : Z) (w : World) (r : Z) (w' : World) :
  0 < len -> send env fuel data len w = Ok r w' ->
  exists (k0 : nat) (w1 : World),
    (RFM69_MODE_SLEEP <> _mode (dev w) -> (1 <= k0)%nat) /\
    spi_log w1 = entry_frames (_mode (dev w)) k0 ++ spi_log w /\
    dev w1 = (if RFM69_MODE_SLEEP =? _mode (dev w) then dev w
              else set_mode RFM69_MODE_STANDBY (dev w)) /\
    (clock_reads w <= clock_reads w1)%nat /\
    ((if _csmaEnabled (dev w) then csma_wait env fuel else ret tt) ;;
     transmit env fuel data (Z.min len 64)) (log_transfer [0xA8; 0x10] w1) = Ok r w'.
Proof.
  intros Hlen Hrun. unfold send in Hrun.
  unfold bind at 1 in Hrun. cbn [gets] in Hrun.
  apply bind_ok in Hrun. destruct Hrun as [[] [w1 [Hentry Hrun]]].
  destruct (send_entry_shape env Hok fuel w w1 Hentry) as [k0 [Hk0 [Elog [Edev Hclock]]]].
  unfold bind at 1 in Hrun. rewrite (clearFIFO_frame env Hok) in Hrun.
  cbv zeta in Hrun. rewrite clamp_min in Hrun.
  destruct (Z.eqb_spec 0 (Z.min len 64)) as [E|_]; [lia|].
  unfold bind at 1 in Hrun. cbn [gets log_transfer dev] in Hrun.
  assert (Hcsma : _csmaEnabled (dev w1) = _csmaEnabled (dev w)).
  { rewrite Edev. destruct (RFM69_MODE_SLEEP =? _mode (dev w)); reflexivity. }
  rewrite Hcsma in Hrun.
  exists k0, w1. split; [exact Hk0|]. split; [exact Elog|]. split; [exact Edev|].
  split; [exact Hclock|exact Hrun].
Qed.

Lemma entered_mode (w w1 : World) :
  dev w1 = (if RFM69_MODE_SLEEP =? _mode (dev w) then dev w
            else set_mode RFM69_MODE_STANDBY (dev w)) ->
  _mode (dev w1) <> RFM69_MODE_RX /\ _mode (dev w1) <> RFM69_MODE_TX /\
  _highPowerDevice (dev w1) = _highPowerDevice (dev w) /\
  _highPowerSettings (dev w1) = _highPowerSettings (dev w).
Proof.
  intros ->. destruct (Z.eqb_spec RFM69_MODE_SLEEP (_mode (dev w))) as [E|_].
  - rewrite <- E. unfold RFM69_MODE_SLEEP, RFM69_MODE_RX, RFM69_MODE_TX.
    repeat split; lia.
  - cbn [set_mode _mode _highPowerDevice _highPowerSettings].
    unfold RFM69_MODE_STANDBY, RFM69_MODE_RX, RFM69_MODE_TX. repeat split; lia.
Qed.

Lemma transmit_frames_same (d d' : Device) (k : nat) :
  _highPowerDevice d' = _highPowerDevice d ->
  _highPowerSettings d' = _highPowerSettings d ->
  transmit_frames d' k = transmit_frames d k.
Proof. intros H1 H2. unfold transmit_frames, tx_frames. rewrite H1, H2. reflexivity. Qed.

Lemma rx_frames_same (d d' : Device) :
  _highPowerDevice d' = _highPowerDevice d ->
  _highPowerSettings d' = _highPowerSettings d ->
  rx_frames d' = rx_frames d.
Proof. intros H1 H2. unfold rx_frames. rewrite H1, H2. reflexivity. Qed.

(** [send] with carrier sense, when it returns. *)
Lemma send_csma_shape (env : Env) (Hok : transport_ok env) (fuel : nat) (data : buffer)
  (len : Z) (w : World) (r : Z) (w' : World) :
  0 < len -> _csmaEnabled (dev w) = true ->
  send env fuel data len w = Ok r w' ->
  csma_send_run env data len w r w'.
Proof.
  intros Hlen Hcsma Hrun.
  destruct (send_entry env Hok fuel data len w r w' Hlen Hrun)
    as [k0 [w1 [Hk0 [Elog1 [Edev1 [Hclock1 Hrest]]]]]].
  rewrite Hcsma in Hrest.
  destruct (entered_mode w w1 Edev1) as [Hnrx [_ [Hhp1 Hhps1]]].
  apply bind_ok in Hrest. destruct Hrest as [[] [w_a [Hwait Htx]]].
  destruct (csma_wait_shape env Hok fuel (log_transfer [0xA8; 0x10] w1) w_a Hnrx Hwait)
    as [b [j [loop [w0 [Hj [Elog0 [Floop [Hclock0 [Hexit [Eloga [Hma [Hhpa Hhpsa]]]]]]]]]]]].
  cbn [log_transfer dev spi_log clock_reads] in Elog0, Hclock0, Hexit, Hhpa, Hhpsa.
  destruct (transmit_shape env Hok fuel data (Z.min len 64) w_a r w' ltac:(lia)
              ltac:(rewrite Hma; unfold RFM69_MODE_STANDBY, RFM69_MODE_TX; lia) Htx)
    as [k [Hk [Hr [Elog' Edev']]]].
  exists k0, j, k, b, loop, w0, (clock_reads w1).
  split; [exact Hr|]. split; [exact Hk0|]. split; [exact Hj|]. split; [exact Hk|].
  split; [rewrite Elog0, Elog1, (rx_frames_same (dev w) (dev w1) Hhp1 Hhps1); reflexivity|].
  split; [exact Floop|]. split; [lia|]. split; [exact Hexit|].
  split; [|rewrite Edev'; reflexivity].
  rewrite Elog', Eloga.
  rewrite (transmit_frames_same (dev w) (dev w_a) k) by congruence. reflexivity.
Qed.

(** [send] without carrier sense, when it returns. *)
Lemma send_plain_shape (env : Env) (Hok : transport_ok env) (fuel : nat) (data : buffer)
  (len : Z) (w : World) (r : Z) (w' : World) :
  0 < len -> _csmaEnabled (dev w) = false ->
  send env fuel data len w = Ok r w' ->
  exists (k0 k : nat),
    r = Z.min len 64 /\
    (RFM69_MODE_SLEEP <> _mode (dev w) -> (1 <= k0)%nat) /\ (1 <= k)%nat /\
    spi_log w' =
      transmit_frames (dev w) k ++ fifo_frames data (Z.min len 64) ++
      [0xA8; 0x10] :: entry_frames (_mode (dev w)) k0 ++ spi_log w /\
    _mode (dev w') = RFM69_MODE_STANDBY.
Proof.
  intros Hlen Hcsma Hrun.
  destruct (send_entry env Hok fuel data len w r w' Hlen Hrun)
    as [k0 [w1 [Hk0 [Elog1 [Edev1 [Hclock1 Hrest]]]]]].
  rewrite Hcsma in Hrest.
  destruct (entered_mode w w1 Edev1) as [_ [Hntx [Hhp1 Hhps1]]].
  unfold bind at 1 in Hrest. cbn [ret] in Hrest.
  destruct (transmit_shape env Hok fuel data (Z.min len 64) (log_transfer [0xA8; 0x10] w1)
              r w' ltac:(lia) Hntx Hrest)
    as [k [Hk [Hr [Elog' Edev']]]].
  cbn [log_transfer dev spi_log] in Elog', Edev'.
  exists k0, k. split; [exact Hr|]. split; [exact Hk0|]. split; [exact Hk|].
  split; [|rewrite Edev'; reflexivity].
  rewrite Elog', Elog1, (transmit_frames_same (dev w) (dev w1) k Hhp1 Hhps1). reflexivity.
Qed.

(** [send] of an empty packet, when it returns. *)
Lemma send_empty_shape (env : Env) (Hok : transport_ok env) (fuel : nat) (data : buffer)
  (w : World) (r : Z) (w' : World) :
  send env fuel data 0 w = Ok r w' ->
  exists k0 : nat,
    r = 0 /\
    (RFM69_MODE_SLEEP <> _mode (dev w) -> (1 <= k0)%nat) /\
    spi_log w' = [0xA8; 0x10] :: entry_frames (_mode (dev w)) k0 ++ spi_log w /\
    dev w' = (if RFM69_MODE_SLEEP =? _mode (dev w) then dev w
              else set_mode RFM69_MODE_STANDBY (dev w)).
Proof.
  intros Hrun. unfold send in Hrun.
  unfold bind at 1 in Hrun. cbn [gets] in Hrun.
  apply bind_ok in Hrun. destruct Hrun as [[] [w1 [Hentry Hrun]]].
  destruct (send_entry_shape env Hok fuel w w1 Hentry) as [k0 [Hk0 [Elog [Edev Hclock]]]].
  unfold bind at 1 in Hrun. rewrite (clearFIFO_frame env Hok) in Hrun.
  cbv zeta in Hrun. rewrite clamp_min in Hrun.
  change (0 =? Z.min 0 64) with true in Hrun. cbv iota in Hrun.
  injection Hrun as <- <-.
  exists k0. split; [reflexivity|]. split; [exact Hk0|].
  cbn [log_transfer spi_log dev]. rewrite Elog. split; [reflexivity|exact Edev].
Qed.

Lemma csma_frames_of_block (d : Device) (b : Z) (j : nat) (loop : list (list Z)) :
  forallb csma_frame loop = true ->
  forallb csma_frame
    (mode_frame RFM69_MODE_STANDBY :: [0x24; 0] :: loop ++ repeat [0x23; 0] j ++
     rx_frames d ++ [[0xBD; b]; [0x3D; 0]]) = true.
Proof.
  intros Hloop. cbn [forallb]. rewrite !forallb_app, Hloop.
  assert (Hj : forallb csma_frame (repeat [0x23; 0] j) = true)
    by (induction j as [|j IH]; [reflexivity|cbn [repeat forallb]; rewrite IH; reflexivity]).
  rewrite Hj. unfold rx_frames.
  destruct (_highPowerDevice d && _highPowerSettings d); reflexivity.
Qed.

Lemma tick_second_boundary (env : Env) (n m : nat) (s ns ns' : Z) :
  clock_gettime env n = {| tv_sec := s; tv_nsec := ns |} ->
  clock_gettime env m = {| tv_sec := s + 1; tv_nsec := ns' |} ->
  0 <= ns' -> ns < 1000000000 ->
  2 <= Z.quot ns 1000000 - Z.quot ns' 1000000 ->
  u32 (tick env m - tick env n) =
    4294967296 - (Z.quot ns 1000000 - Z.quot ns' 1000000 - 1) /\
  4294966298 <= u32 (tick env m - tick env n).
Proof.
  intros E E' Hns' Hns Hlate.
  assert (Hms' : 0 <= Z.quot ns' 1000000) by (apply Z.quot_pos; lia).
  assert (Hms : Z.quot ns 1000000 <= 999).
  { pose proof (Z.quot_le_mono ns 999999999 1000000 ltac:(lia) ltac:(lia)) as H.
    change (Z.quot 999999999 1000000) with 999 in H. exact H. }
  assert (Eq : u32 (tick env m - tick env n) =
               4294967296 - (Z.quot ns 1000000 - Z.quot ns' 1000000 - 1)).
  { unfold tick, u32. rewrite E, E'. cbn [tv_sec tv_nsec].
    rewrite Zminus_mod_idemp_l, Zminus_mod_idemp_r.
    replace (s + 1 + Z.quot ns' 1000000 - (s + Z.quot ns 1000000))
      with (- (Z.quot ns 1000000 - Z.quot ns' 1000000 - 1)) by lia.
    set (d := Z.quot ns 1000000 - Z.quot ns' 1000000 - 1) in *.
    assert (Hd : 1 <= d <= 998) by (unfold d; lia).
    symmetry. apply (Z.mod_unique_pos _ _ (-1)); lia. }
  split; [exact Eq|]. rewrite Eq. lia.
Qed.

(** *** A clock that stands still *)

Lemma stuck_clock_env_ok : transport_ok stuck_clock_env.
Proof. intros log tx. simpl. lia. Qed.

Lemma poll_register_ready (env : Env) (Hok : transport_ok env) (fuel : nat) (reg : Z)
  (busy : Z -> bool) (timeEntry timeout : Z) (w : World) :
  0 <= reg <= 127 -> busy (read_reply env (spi_log w) reg) = false ->
  poll_register env (S fuel) reg busy timeEntry timeout w = Ok tt (log_transfer [reg; 0] w).
Proof.
  intros Hreg Hready. unfold poll_register. rewrite while_step, timed_cond_eq.
  unfold bind at 1. rewrite (readRegister_valid env Hok) by lia.
  cbn [ret]. rewrite Hready. reflexivity.
Qed.

Lemma csma_loop_stuck_clock (fuel bodyfuel : nat) (w : World) :
  _mode (dev w) = RFM69_MODE_RX ->
  while fuel
    (fun _ => timed_cond stuck_clock_env
                (free <- channelFree stuck_clock_env ;; ret (negb free)) 0 TIMEOUT_CSMA_READY)
    (fun _ => csma_body stuck_clock_env bodyfuel) tt w = Halt OutOfFuel.
Proof.
  revert w. induction fuel as [|fuel IH]; intros w Hrx; [reflexivity|].
  rewrite while_step.
  destruct w as [d log c r dl].
  destruct d as [i0 m0 hp0 pl0 rs0 ar0 ook0 dm0 hps0 cs0 rb0 rl0]. cbn [dev _mode] in Hrx. subst.
  match goal with
  | |- match ?c with _ => _ end = _ =>
      let v := eval vm_compute in c in change c with v
  end.
  cbv iota.
  match goal with
  | |- match ?c with _ => _ end = _ =>
      let v := eval vm_compute in c in change c with v
  end.
  cbv iota. apply IH. reflexivity.
Qed.

Lemma send_stuck (fuel : nat) :
  send stuck_clock_env fuel caller_buffer 5
    (with_dev (set_csmaEnabled true) (fresh_world (RFM69_new false))) = Halt OutOfFuel.
Proof.
  destruct fuel as [|fuel]; [reflexivity|].
  pose proof stuck_clock_env_ok as Hok.
  unfold send. unfold bind at 1. cbn [gets].
  unfold bind at 1.
  change (negb (RFM69_MODE_SLEEP =?
                _mode (dev (with_dev (set_csmaEnabled true) (fresh_world (RFM69_new false))))))
    with true. cbv iota.
  unfold bind at 1.
  rewrite (setMode_noop stuck_clock_env RFM69_MODE_STANDBY
             (with_dev (set_csmaEnabled true) (fresh_world (RFM69_new false)))
             (or_introl eq_refl)).
  unfold waitForModeReady. unfold bind at 1. rewrite HAL_GetTick_eq.
  rewrite (poll_register_ready stuck_clock_env Hok) by (try lia; reflexivity).
  unfold bind at 1. rewrite (clearFIFO_frame stuck_clock_env Hok).
  cbv zeta. change (5 >? RFM69_MAX_PAYLOAD) with false. cbv iota.
  change (0 =? 5) with false. cbv iota.
  unfold bind at 1. cbn [gets].
  match goal with
  | |- context [_csmaEnabled ?d] => change (_csmaEnabled d) with true
  end.
  cbv iota. unfold bind at 1.
  unfold csma_wait. unfold bind at 1. rewrite (restartRx_eq stuck_clock_env Hok).
  unfold bind at 1.
  rewrite (setMode_rx_eq stuck_clock_env Hok) by (cbn; unfold RFM69_MODE_STANDBY, RFM69_MODE_RX; lia).
  unfold bind at 1. unfold waitForRssiSample. unfold bind at 1. rewrite HAL_GetTick_eq.
  unfold bind at 1.
  rewrite (poll_register_ready stuck_clock_env Hok) by (try lia; reflexivity).
  cbn [ret]. unfold bind at 1. unfold csma_loop.
  match goal with
  | |- context [tick stuck_clock_env ?n] => change (tick stuck_clock_env n) with 0
  end.
  rewrite csma_loop_stuck_clock; reflexivity.
Qed.

(** ** Send pipeline *)

(** C4 as stated fails: a device put to sleep and asked to send an empty
    packet returns 0 and has written the FIFO clearing value to register
    0x28. *)
Lemma send_empty_writes_register :
  send quiet_env 0 caller_buffer 0
    (with_dev (set_mode RFM69_MODE_SLEEP) (fresh_world (RFM69_new false))) =
    Ok 0 (log_transfer [0xA8; 0x10]
            (with_dev (set_mode RFM69_MODE_SLEEP) (fresh_world (RFM69_new false)))) /\
  spi_log (log_transfer [0xA8; 0x10]
             (with_dev (set_mode RFM69_MODE_SLEEP) (fresh_world (RFM69_new false)))) <>
  spi_log (with_dev (set_mode RFM69_MODE_SLEEP) (fresh_world (RFM69_new false))).
Proof. split; [vm_compute; reflexivity|discriminate]. Qed.

(** C4 (send pipeline), amended. On a transport that works and with a
    clock that moves, [send] of a packet of [len > 0] bytes returns
    [min len 64]. Its transfers are, in this order: the frames of the
    first statement (nothing for a device that sleeps, else the switch to
    Standby and the reads of register 0x27), the write of 0x10 to register
    0x28, with carrier sense the frames of the carrier sense block, none of
    which writes the FIFO or switches to Transmit, then the FIFO address,
    the length byte and exactly [min len 64] payload bytes, the switch to
    Transmit, the reads of register 0x28 and the switch to Standby.
    [send] of an empty packet returns 0 after the frames of the first
    statement and the write of 0x10 to register 0x28, and makes no other
    transfer: nothing goes to the FIFO. *)
Theorem send_clamps_length (env : Env) (Hok : transport_ok env)
  (period : nat) (Hperiod : (period <= 4000)%nat) (Hclk : clock_ticks period env)
  (fuel : nat) (data : buffer) (len : Z) (w : World)
  (Hfuel : (period * 700 <= fuel)%nat) (Hlen : 0 <= len) :
  (0 < len ->
     exists (w' : World) (k k0 : nat) (csma : list (list Z)),
       send env fuel data len w = Ok (Z.min len 64) w' /\
       spi_log w' =
         transmit_frames (dev w) k ++ fifo_frames data (Z.min len 64) ++
         csma ++ [0xA8; 0x10] :: entry_frames (_mode (dev w)) k0 ++ spi_log w /\
       (1 <= k)%nat /\
       (RFM69_MODE_SLEEP <> _mode (dev w) -> (1 <= k0)%nat) /\
       forallb csma_frame csma = true /\
       (_csmaEnabled (dev w) = false -> csma = []) /\
       _mode (dev w') = RFM69_MODE_STANDBY) /\
  (len = 0 ->
     exists (w' : World) (k0 : nat),
       send env fuel data len w = Ok 0 w' /\
       spi_log w' = [0xA8; 0x10] :: entry_frames (_mode (dev w)) k0 ++ spi_log w /\
       (RFM69_MODE_SLEEP <> _mode (dev w) -> (1 <= k0)%nat) /\
       dev w' = (if RFM69_MODE_SLEEP =? _mode (dev w) then dev w
                 else set_mode RFM69_MODE_STANDBY (dev w))).
Proof.
  split.
  - intros Hpos.
    destruct (send_returns env Hok period Hperiod Hclk fuel data len w Hfuel Hpos)
      as [_ [_ [w' [_ [_ [_ [_ [Hsend _]]]]]]]].
    destruct (_csmaEnabled (dev w)) eqn:Hcsma.
    + destruct (send_csma_shape env Hok fuel data len w _ w' Hpos Hcsma Hsend)
        as [k0 [j [k [b [loop [w0 [n_e [_ [Hk0 [Hj [Hk [E0 [Floop [_ [_ [E' Hm]]]]]]]]]]]]]]]].
      exists w', k, k0,
        (mode_frame RFM69_MODE_STANDBY :: [0x24; 0] :: loop ++ repeat [0x23; 0] j ++
         rx_frames (dev w) ++ [[0xBD; b]; [0x3D; 0]]).
      split; [exact Hsend|]. split.
      { rewrite E', E0. cbn [app]. rewrite <- !app_assoc. reflexivity. }
      split; [exact Hk|]. split; [exact Hk0|].
      split; [apply csma_frames_of_block; exact Floop|].
      split; [discriminate|exact Hm].
    + destruct (send_plain_shape env Hok fuel data len w _ w' Hpos Hcsma Hsend)
        as [k0 [k [_ [Hk0 [Hk [E' Hm]]]]]].
      exists w', k, k0, []. split; [exact Hsend|]. split; [exact E'|].
      split; [exact Hk|]. split; [exact Hk0|]. split; [reflexivity|]. split; [reflexivity|exact Hm].
  - intros ->.
    pose proof (period_positive env period Hclk) as Hpos.
    destruct (send_empty_returns env Hok period Hperiod Hclk fuel data w ltac:(lia))
      as [w_p [Hsend _]].
    destruct (send_empty_shape env Hok fuel data w _ _ Hsend) as [k0 [_ [Hk0 [E Hd]]]].
    eexists. exists k0. split; [exact Hsend|]. split; [exact E|]. split; [exact Hk0|exact Hd].
Qed.

Lemma send_clamps_length_witness :
  exists (w' : World) (k k0 : nat),
    send quiet_env 700 caller_buffer 65 (fresh_world (RFM69_new false)) = Ok 64 w' /\
    spi_log w' =
      transmit_frames (RFM69_new false) k ++ fifo_frames caller_buffer 64 ++
      [0xA8; 0x10] :: entry_frames RFM69_MODE_STANDBY k0.
Proof.
  destruct (send_clamps_length quiet_env quiet_env_ok 1 ltac:(lia) quiet_env_ticks
              700 caller_buffer 65 (fresh_world (RFM69_new false)) ltac:(lia) ltac:(lia))
    as [Hsend _].
  destruct (Hsend ltac:(lia)) as [w' [k [k0 [csma [Hrun [Hlog [_ [_ [_ [Hplain _]]]]]]]]]].
  rewrite (Hplain eq_refl) in Hlog.
  exists w', k, k0. split; [exact Hrun|].
  rewrite Hlog. cbn [fresh_world spi_log dev app]. rewrite app_nil_r. reflexivity.
Defined.

(** ** Carrier sense *)

(** A run on a free channel, with the SPI log in the order of the
    transfers: mode-ready poll, FIFO clear, RX restart, Receive, RSSI done,
    RSSI, Standby, the FIFO push of two bytes, Transmit, packet-sent poll,
    Standby. *)
Example send_on_free_channel :
  exists w',
    send ready_env 5 (fun i => 0x10 + Z.of_nat i) 2
      (with_dev (set_csmaEnabled true) (fresh_world (RFM69_new false))) = Ok 2 w' /\
    rev (spi_log w') =
      [ [0x27; 0]; [0xA8; 0x10]; [0x3D; 0]; [0xBD; 0xFB]; [0x81; 0x10]; [0x23; 0];
        [0x24; 0]; [0x81; 0x04]; [0x80]; [2]; [0x10]; [0x11]; [0x81; 0x0C];
        [0x28; 0]; [0x81; 0x04] ] /\
    _mode (dev w') = RFM69_MODE_STANDBY.
Proof. eexists. split; [vm_compute; reflexivity|]. split; reflexivity. Qed.

Lemma csma_loop_exit_free (env : Env) (Hok : transport_ok env) (fuel : nat) (te : Z)
  (w : World) :
  Z.quot (- read_reply env (spi_log w) 0x24) 2 < CSMA_RSSI_THRESHOLD ->
  csma_loop env (S fuel) te w =
    Ok tt (with_dev (set_rssi (Z.quot (- read_reply env (spi_log w) 0x24) 2))
             (log_transfer [0x24; 0] w)).
Proof.
  intros Hfree. unfold csma_loop. rewrite while_step, timed_cond_eq.
  unfold channelFree, readRSSI. run_registers Hok.
  apply Z.ltb_lt in Hfree. rewrite Hfree. reflexivity.
Qed.

Lemma csma_loop_exit_timeout (env : Env) (Hok : transport_ok env) (fuel : nat) (te : Z)
  (w : World) :
  CSMA_RSSI_THRESHOLD <= Z.quot (- read_reply env (spi_log w) 0x24) 2 ->
  TIMEOUT_CSMA_READY <= u32 (tick env (clock_reads w) - te) ->
  csma_loop env (S fuel) te w =
    Ok tt (count_clock_read
             (with_dev (set_rssi (Z.quot (- read_reply env (spi_log w) 0x24) 2))
                (log_transfer [0x24; 0] w))).
Proof.
  intros Hbusy Hlate. unfold csma_loop. rewrite while_step, timed_cond_eq.
  unfold channelFree, readRSSI. run_registers Hok.
  apply Z.ltb_ge in Hbusy. rewrite Hbusy. driver_cbn.
  apply Z.ltb_ge in Hlate. rewrite Hlate. reflexivity.
Qed.

(** With a busy channel and a clock that stands still the loop uses up
    whatever fuel it is given: the time limit needs a clock that moves. *)
Lemma csma_loop_frozen_clock (fuel bodyfuel : nat) (w : World) :
  _mode (dev w) = RFM69_MODE_RX ->
  while fuel
    (fun _ => timed_cond frozen_env
                (free <- channelFree frozen_env ;; ret (negb free)) 0 TIMEOUT_CSMA_READY)
    (fun _ => csma_body frozen_env bodyfuel) tt w = Halt OutOfFuel.
Proof.
  revert w. induction fuel as [|fuel IH]; intros w Hrx; [reflexivity|].
  rewrite while_step.
  destruct w as [d log c r dl]. destruct d. cbn [dev _mode] in Hrx. subst.
  match goal with
  | |- match ?c with _ => _ end = _ =>
      let v := eval vm_compute in c in change c with v
  end.
  cbv iota.
  match goal with
  | |- match ?c with _ => _ end = _ =>
      let v := eval vm_compute in c in change c with v
  end.
  cbv iota. apply IH. reflexivity.
Qed.

(** The loop returns for these two reasons only. *)
Lemma csma_loop_exit_reason (env : Env) (Hok : transport_ok env) (te : Z) (fuel : nat) :
  forall w w', csma_loop env fuel te w = Ok tt w' ->
  exists w0,
    let rssi := Z.quot (- read_reply env (spi_log w0) 0x24) 2 in
    let w1 := with_dev (set_rssi rssi) (log_transfer [0x24; 0] w0) in
    (rssi < CSMA_RSSI_THRESHOLD /\ w' = w1) \/
    (CSMA_RSSI_THRESHOLD <= rssi /\
     TIMEOUT_CSMA_READY <= u32 (tick env (clock_reads w0) - te) /\
     w' = count_clock_read w1).
Proof.
  unfold csma_loop. generalize (csma_body env fuel). intros body.
  induction fuel as [|fuel IH]; intros w w' Hrun; [discriminate|].
  rewrite while_step, timed_cond_eq in Hrun.
  unfold channelFree, readRSSI in Hrun.
  cbv beta iota delta [bind ret gets modify] in Hrun.
  rewrite (readRegister_valid env Hok) in Hrun by lia.
  cbv beta iota in Hrun. cbn [dev with_dev _rssi set_rssi] in Hrun.
  destruct (Z.ltb_spec (Z.quot (- read_reply env (spi_log w) 36) 2) CSMA_RSSI_THRESHOLD)
    as [Hfree|Hbusy].
  - cbn [negb] in Hrun. injection Hrun as <-. exists w. left. auto.
  - cbn [negb clock_reads with_dev log_transfer] in Hrun.
    destruct (Z.ltb_spec (u32 (tick env (clock_reads w) - te)) TIMEOUT_CSMA_READY)
      as [Hearly|Hlate].
    + destruct (body _) as [[] w2|x]; [|discriminate].
      exact (IH w2 w' Hrun).
    + injection Hrun as <-. exists w. right. auto.
Qed.

Lemma csma_loop_never_returns (fuel : nat) (w : World) :
  _mode (dev w) = RFM69_MODE_RX ->
  csma_loop frozen_env fuel (tick frozen_env (clock_reads w)) w = Halt OutOfFuel.
Proof. intros Hrx. exact (csma_loop_frozen_clock fuel fuel w Hrx). Qed.




(** * Further properties of the driver *)

(** ** Configuration loader *)

Lemma writeRegister_byte (env : Env) (Hok : transport_ok env) (entry : Z * Z) (w : World) :
  0 <= fst entry <= 255 ->
  writeRegister env (fst entry) (snd entry) w =
    Ok tt (if valid_register entry then log_transfer (write_frame entry) w else w).
Proof.
  intros Hreg. unfold valid_register.
  destruct (Z.leb_spec (fst entry) 127) as [Hv|Hv].
  - rewrite (writeRegister_valid env Hok) by lia. reflexivity.
  - unfold writeRegister. destruct (Z.gtb_spec (fst entry) 127); [reflexivity|lia].
Qed.

Lemma setCustomConfig_from (env : Env) (Hok : transport_ok env) (config : nat -> Z * Z)
  (n : nat) :
  forall (i : nat) (w : World),
    (forall j, (i <= j < i + n)%nat -> 0 <= fst (config j) <= 255) ->
    for_loop n i (fun j => writeRegister env (fst (config j)) (snd (config j))) w =
      Ok tt (fold_right log_transfer w (config_frames (map config (seq i n)))).
Proof.
  induction n as [|n IH]; intros i w Hbytes; [reflexivity|].
  cbn [for_loop seq map]. unfold bind at 1.
  rewrite (writeRegister_byte env Hok) by (apply Hbytes; lia).
  rewrite IH by (intros j Hj; apply Hbytes; lia).
  f_equal. unfold config_frames. cbn [filter].
  destruct (valid_register (config i)).
  - cbn [map rev]. rewrite fold_right_app. reflexivity.
  - reflexivity.
Qed.

(** X1 (configuration loader). [setCustomConfig] sends one write frame for
    every pair whose register is at most 0x7F, in the order of the array,
    passes over the other pairs without a transfer and without an error,
    and leaves the driver's fields as they are. *)
Theorem setCustomConfig_writes_valid_entries (env : Env) (Hok : transport_ok env)
  (config : nat -> Z * Z) (length : Z) (w : World)
  (Hbytes : forall i, (i < Z.to_nat length)%nat -> 0 <= fst (config i) <= 255) :
  exists w',
    setCustomConfig env config length w = Ok tt w' /\
    spi_log w' = config_frames (config_entries config (Z.to_nat length)) ++ spi_log w /\
    dev w' = dev w /\ clock_reads w' = clock_reads w.
Proof.
  unfold setCustomConfig, config_entries.
  rewrite (setCustomConfig_from env Hok config (Z.to_nat length) 0 w)
    by (intros j Hj; apply Hbytes; lia).
  eexists. split; [reflexivity|].
  rewrite spi_log_fold_right, dev_fold_right.
  split; [reflexivity|]. split; [reflexivity|].
  generalize (config_frames (map config (seq 0 (Z.to_nat length)))).
  intros l. induction l; simpl; auto.
Qed.

Lemma setCustomConfig_writes_valid_entries_witness :
  exists w',
    setCustomConfig quiet_env
      (fun i => nth i [(0x02, 0x00); (0x80, 0xFF); (0x37, 0xD0)] (0, 0)) 3
      (fresh_world (RFM69_new false)) = Ok tt w' /\
    spi_log w' = [ [0xB7; 0xD0]; [0x82; 0x00] ].
Proof.
  destruct (setCustomConfig_writes_valid_entries quiet_env quiet_env_ok
              (fun i => nth i [(0x02, 0x00); (0x80, 0xFF); (0x37, 0xD0)] (0, 0)) 3
              (fresh_world (RFM69_new false))) as [w' [Hrun [Hlog _]]].
  - intros i Hi. change (Z.to_nat 3) with 3%nat in Hi.
    destruct i as [|[|[|i]]]; cbn; lia.
  - exists w'. split; [exact Hrun|]. rewrite Hlog. reflexivity.
Defined.

(** ** Power amplifier settings *)

Lemma pa_byte_fields (v k : Z) :
  0 <= v < 256 -> 0 <= k < 8 ->
  let b := Z.land (u8 (Z.lor (Z.land v 0x1F) (32 * k))) 255 in
  power_level_field b = power_level_field v /\ pa_field b = 32 * k.
Proof.
  intros Hv Hk.
  assert (Hall : all_below 256 (fun a => all_below 8 (fun j =>
            (power_level_field (Z.land (u8 (Z.lor (Z.land a 0x1F) (32 * j))) 255) =?
             power_level_field a) &&
            (pa_field (Z.land (u8 (Z.lor (Z.land a 0x1F) (32 * j))) 255) =? 32 * j))) = true)
    by (vm_compute; reflexivity).
  pose proof (all_below_spec _ _ Hall v ltac:(simpl; lia)) as H. cbv beta in H.
  pose proof (all_below_spec _ _ H k ltac:(simpl; lia)) as H'. cbv beta in H'.
  apply andb_prop in H'. destruct H' as [H1 H2].
  split; apply Z.eqb_eq; assumption.
Qed.

Lemma forced_pa_cases (forcePA : Z) :
  0 <= forcePA <= 255 ->
  (let pa := 0 in
   let pa := if Z.land forcePA 0x01 =? 0 then pa else u8 (Z.lor pa 0x80) in
   let pa := if Z.land forcePA 0x02 =? 0 then pa else u8 (Z.lor pa 0x40) in
   let pa := if Z.land forcePA 0x04 =? 0 then pa else u8 (Z.lor pa 0x20) in
   pa) = forced_pa_bits forcePA /\
  negb (Z.land forcePA 0x08 =? 0) = Z.testbit forcePA 3 /\
  exists k, 0 <= k < 8 /\ forced_pa_bits forcePA = 32 * k.
Proof.
  intros Hf.
  assert (Hall : all_below 256 (fun f =>
            ((let pa := 0 in
              let pa := if Z.land f 0x01 =? 0 then pa else u8 (Z.lor pa 0x80) in
              let pa := if Z.land f 0x02 =? 0 then pa else u8 (Z.lor pa 0x40) in
              let pa := if Z.land f 0x04 =? 0 then pa else u8 (Z.lor pa 0x20) in
              pa) =? forced_pa_bits f) &&
            Bool.eqb (negb (Z.land f 0x08 =? 0)) (Z.testbit f 3) &&
            (forced_pa_bits f =? 32 * (forced_pa_bits f / 32)) &&
            (0 <=? forced_pa_bits f / 32) && (forced_pa_bits f / 32 <? 8)) = true)
    by (vm_compute; reflexivity).
  pose proof (all_below_spec _ _ Hall forcePA ltac:(simpl; lia)) as H. cbv beta in H.
  repeat (apply andb_prop in H; destruct H as [H ?]).
  split; [apply Z.eqb_eq; assumption|].
  split; [apply Bool.eqb_prop; assumption|].
  exists (forced_pa_bits forcePA / 32).
  split; [split; [apply Z.leb_le|apply Z.ltb_lt]; assumption|].
  apply Z.eqb_eq. assumption.
Qed.

(** X2 (power amplifier). [setPASettings] first writes the over-current
    protection register: 0x0A on a high power device, 0x1A otherwise. With
    [forcePA = 0] it then rewrites register 0x11 with the level bits the
    chip reports and only PA1 (high power) or only PA0; [_highPowerSettings]
    is not touched. With another [forcePA] it sets [_highPowerSettings] to
    bit 3, writes the boost registers (enabling values only on a high power
    device), and rewrites register 0x11 with the level bits the chip reports
    and the amplifier bits taken from bits 0, 1 and 2. *)
Theorem setPASettings_selects_amplifier (env : Env) (Hok : transport_ok env)
  (forcePA : Z) (w : World) (Hbyte : 0 <= forcePA <= 255) :
  let hp := _highPowerDevice (dev w) in
  let ocp := [0x93; if hp then 0x0A else 0x1A] in
  let before_read :=
    (if forcePA =? 0 then [] else boost_frames (hp && Z.testbit forcePA 3)) ++
    ocp :: spi_log w in
  exists w' b,
    setPASettings env forcePA w = Ok tt w' /\
    spi_log w' = [0x91; b] :: [0x11; 0] :: before_read /\
    power_level_field b = power_level_field (read_reply env before_read 0x11) /\
    pa_field b = (if forcePA =? 0 then (if hp then 0x40 else 0x80)
                  else forced_pa_bits forcePA) /\
    dev w' = (if forcePA =? 0 then dev w
              else set_highPowerSettings (Z.testbit forcePA 3) (dev w)).
Proof.
  destruct w as [d log c r dl]. destruct d. cbn [dev _highPowerDevice spi_log].
  destruct (forced_pa_cases forcePA Hbyte) as [Epa [Ebit [k [Hk Ek]]]].
  unfold setPASettings. cbv zeta in Epa. rewrite Epa, Ebit.
  destruct (Z.eqb_spec forcePA 0) as [H0|H0].
  - destruct _highPowerDevice0; run_registers Hok;
      eexists; eexists; (split; [reflexivity|]);
      cbn [spi_log dev app]; (split; [reflexivity|]).
    + destruct (pa_byte_fields (read_reply env ([147; Z.land (u8 (Z.lor 10 0)) 255] :: log) 17) 2)
        as [F1 F2]; [apply u8_range|lia|].
      cbv zeta in F1, F2. change (32 * 2) with 64 in F1, F2.
      split; [exact F1|]. split; [exact F2|reflexivity].
    + destruct (pa_byte_fields (read_reply env ([147; Z.land (u8 (Z.lor 10 16)) 255] :: log) 17) 4)
        as [F1 F2]; [apply u8_range|lia|].
      cbv zeta in F1, F2. change (32 * 4) with 128 in F1, F2.
      split; [exact F1|]. split; [exact F2|reflexivity].
  - unfold setHighPowerSettings.
    destruct _highPowerDevice0, (Z.testbit forcePA 3); run_registers Hok;
      eexists; eexists; (split; [reflexivity|]);
      cbn [spi_log dev app boost_frames andb]; (split; [reflexivity|]);
      rewrite Ek;
      match goal with
      | |- power_level_field (Z.land (u8 (Z.lor (Z.land ?v 31) _)) 255) = _ /\ _ =>
          destruct (pa_byte_fields v k) as [F1 F2]; [apply u8_range|lia|]
      end;
      cbv zeta in F1, F2; (split; [exact F1|]); (split; [exact F2|reflexivity]).
Qed.

Lemma setPASettings_selects_amplifier_witness :
  exists w' b,
    setPASettings quiet_env 0x0E (fresh_world (RFM69_new false)) = Ok tt w' /\
    spi_log w' = [ [0x91; b]; [0x11; 0]; [0xDC; 0x70]; [0xDA; 0x55]; [0x93; 0x1A] ] /\
    pa_field b = 0x60 /\
    _highPowerSettings (dev w') = true.
Proof.
  destruct (setPASettings_selects_amplifier quiet_env quiet_env_ok 0x0E
              (fresh_world (RFM69_new false)) ltac:(lia))
    as [w' [b [Hrun [Hlog [_ [Hpa Hdev]]]]]].
  exists w', b. split; [exact Hrun|]. split; [exact Hlog|].
  split; [exact Hpa|]. rewrite Hdev. reflexivity.
Defined.

Lemma setPASettings_default_eq (env : Env) (Hok : transport_ok env) (w : World) :
  let pa := if _highPowerDevice (dev w) then 0x40 else 0x80 in
  let ocp := [0x93; if _highPowerDevice (dev w) then 0x0A else 0x1A] in
  setPASettings env 0 w =
    Ok tt (log_transfer
             [0x91; Z.land (u8 (Z.lor (Z.land (read_reply env (ocp :: spi_log w) 0x11) 0x1F) pa)) 255]
             (log_transfer [0x11; 0] (log_transfer ocp w))).
Proof.
  destruct w as [d log c r dl]. destruct d. cbn [dev _highPowerDevice spi_log].
  unfold setPASettings.
  destruct _highPowerDevice0; run_registers Hok;
    change (0 =? 0) with true; cbv iota; run_registers Hok; reflexivity.
Qed.

(** X3 (initialisation). [init] returns true on every device and for every
    value of the header's macros. It sends the 23 rows of the base table in
    order (none is passed over), among them the Standby value for the mode
    register, then the over-current protection value, then reads register
    0x11 and writes it back with the reported level and the amplifier of
    the device class, and last clears the FIFO. Of the driver's fields only
    [_init] changes: [_mode] stays what it was. *)
Theorem init_sends_base_configuration (env : Env) (Hok : transport_ok env)
  (h : RegisterMacros) (w : World) :
  let hp := _highPowerDevice (dev w) in
  let table := config_frames (rfm69_base_config h) in
  let ocp := [0x93; if hp then 0x0A else 0x1A] in
  exists w' b,
    init env h w = Ok true w' /\
    dev w' = set_init true (dev w) /\
    spi_log w' = [0xA8; 0x10] :: [0x91; b] :: [0x11; 0] :: ocp :: table ++ spi_log w /\
    length table = 23%nat /\
    last table [] = mode_frame RFM69_MODE_STANDBY /\
    power_level_field b =
      power_level_field (read_reply env (ocp :: table ++ spi_log w) 0x11) /\
    pa_field b = (if hp then 0x40 else 0x80).
Proof.
  intros hp table ocp.
  assert (Hcfg : setCustomConfig env (fun i => nth i (rfm69_base_config h) (0, 0))
                   (Z.of_nat (List.length (rfm69_base_config h))) w =
                 Ok tt (fold_right log_transfer w table)).
  { unfold setCustomConfig. rewrite Nat2Z.id.
    rewrite (setCustomConfig_from env Hok).
    - reflexivity.
    - intros j Hj. cbn [length rfm69_base_config] in Hj.
      do 23 (destruct j as [|j]; [cbn; lia|]). lia. }
  unfold init. unfold bind at 1. rewrite Hcfg.
  unfold bind at 1. rewrite (setPASettings_default_eq env Hok).
  unfold bind at 1. rewrite (clearFIFO_frame env Hok).
  cbv beta iota delta [bind modify gets].
  rewrite !dev_fold_right, !spi_log_fold_right.
  fold hp. fold ocp.
  eexists. eexists. split; [destruct w as [d ? ? ? ?]; destruct d; reflexivity|].
  cbn [with_dev dev spi_log log_transfer]. rewrite dev_fold_right, spi_log_fold_right.
  split; [reflexivity|]. split; [reflexivity|].
  split; [reflexivity|]. split; [reflexivity|].
  destruct (pa_byte_fields (read_reply env (ocp :: table ++ spi_log w) 17)
              (if hp then 2 else 4)) as [F1 F2];
    [apply u8_range|destruct hp; lia|].
  cbv zeta in F1, F2.
  replace (32 * (if hp then 2 else 4)) with (if hp then 64 else 128) in F1, F2
    by (destruct hp; reflexivity).
  split; [exact F1|]. rewrite F2. destruct hp; reflexivity.
Qed.

Lemma init_sends_base_configuration_witness :
  exists w',
    init quiet_env (mkRegisterMacros 0x0D 0x05 0x01 0x48 0x00 0x40 0x08 0x03 0x80 0x18)
      (fresh_world (RFM69_new false)) = Ok true w' /\
    _init (dev w') = true /\ _mode (dev w') = RFM69_MODE_STANDBY /\
    length (spi_log w') = 27%nat.
Proof.
  destruct (init_sends_base_configuration quiet_env quiet_env_ok
              (mkRegisterMacros 0x0D 0x05 0x01 0x48 0x00 0x40 0x08 0x03 0x80 0x18)
              (fresh_world (RFM69_new false)))
    as [w' [b [Hrun [Hdev [Hlog [Hlen _]]]]]].
  exists w'. split; [exact Hrun|]. rewrite Hdev, Hlog.
  split; [reflexivity|]. split; [reflexivity|].
  cbn [length]. rewrite length_app, Hlen. reflexivity.
Defined.

Lemma level_byte_fields (v p : Z) :
  0 <= v < 256 -> 0 <= p < 32 ->
  let b := Z.land (u8 (Z.lor (Z.land v 0xE0) p)) 255 in
  power_level_field b = p /\ pa_field b = pa_field v.
Proof.
  intros Hv Hp.
  assert (Hall : all_below 256 (fun a => all_below 32 (fun j =>
            (power_level_field (Z.land (u8 (Z.lor (Z.land a 0xE0) j)) 255) =? j) &&
            (pa_field (Z.land (u8 (Z.lor (Z.land a 0xE0) j)) 255) =? pa_field a))) = true)
    by (vm_compute; reflexivity).
  pose proof (all_below_spec _ _ Hall v ltac:(simpl; lia)) as H. cbv beta in H.
  pose proof (all_below_spec _ _ H p ltac:(simpl; lia)) as H'. cbv beta in H'.
  apply andb_prop in H'. destruct H' as [H1 H2].
  split; apply Z.eqb_eq; assumption.
Qed.

(** X4 (power level). [setPowerLevel] takes a level above 31 as 31, reads
    register 0x11 and writes it back with that level and with the
    amplifier bits the chip reported, and stores the level in
    [_powerLevel]. *)
Theorem setPowerLevel_clamps_and_keeps_amplifier (env : Env) (Hok : transport_ok env)
  (power : Z) (w : World) (Hbyte : 0 <= power <= 255) :
  exists w' b,
    setPowerLevel env power w = Ok tt w' /\
    spi_log w' = [0x91; b] :: [0x11; 0] :: spi_log w /\
    power_level_field b = Z.min power 31 /\
    pa_field b = pa_field (read_reply env (spi_log w) 0x11) /\
    dev w' = set_powerLevel (Z.min power 31) (dev w).
Proof.
  assert (Hp : (if power >? 31 then 31 else power) = Z.min power 31)
    by (destruct (Z.gtb_spec power 31); lia).
  unfold setPowerLevel. rewrite Hp.
  run_registers Hok.
  eexists. eexists. split; [reflexivity|].
  cbn [spi_log dev with_dev log_transfer].
  split; [reflexivity|].
  destruct (level_byte_fields (read_reply env (spi_log w) 17) (Z.min power 31))
    as [F1 F2]; [apply u8_range|lia|].
  cbv zeta in F1, F2. split; [exact F1|]. split; [exact F2|reflexivity].
Qed.

Lemma setPowerLevel_clamps_and_keeps_amplifier_witness :
  exists w' b,
    setPowerLevel quiet_env 200 (fresh_world (RFM69_new false)) = Ok tt w' /\
    power_level_field b = 31 /\ spi_log w' = [ [0x91; b]; [0x11; 0] ] /\
    _powerLevel (dev w') = 31.
Proof.
  destruct (setPowerLevel_clamps_and_keeps_amplifier quiet_env quiet_env_ok 200
              (fresh_world (RFM69_new false)) ltac:(lia))
    as [w' [b [Hrun [Hlog [Hlevel [_ Hdev]]]]]].
  exists w', b. split; [exact Hrun|]. split; [exact Hlevel|].
  split; [exact Hlog|]. rewrite Hdev. reflexivity.
Defined.

(** ** What a device that is not high power never does *)

Lemma power_call_keeps_boost_off (env : Env) (Hok : transport_ok env)
  (c : PowerCall) (w : World) :
  _highPowerDevice (dev w) = false ->
  exists w' frames,
    power_call env c w = Ok tt w' /\
    _highPowerDevice (dev w') = false /\
    spi_log w' = frames ++ spi_log w /\
    existsb boost_enabling frames = false.
Proof.
  destruct w as [d log k r dl]. destruct d. cbn [dev _highPowerDevice].
  intros ->.
  destruct c as [mode|enable|forcePA|power|dBm]; cbn [power_call].
  - unfold setMode. run_registers Hok.
    destruct ((mode =? _mode0) || (mode >? RFM69_MODE_RX)); run_registers Hok.
    + eexists. exists []. repeat split.
    + eexists. exists [[1 + 128; Z.land (u8 (Z.shiftl mode 2)) 255]].
      repeat split.
  - unfold setHighPowerSettings. run_registers Hok.
    destruct enable; run_registers Hok;
      (eexists; exists [[92 + 128; Z.land 112 255]; [90 + 128; Z.land 85 255]];
       repeat split).
  - unfold setPASettings, setHighPowerSettings. run_registers Hok.
    destruct (forcePA =? 0); run_registers Hok.
    + eexists. eexists [_; _; _]. repeat split.
    + destruct (negb (Z.land forcePA 8 =? 0)); run_registers Hok;
        (eexists; eexists [_; _; _; _; _]; repeat split).
  - unfold setPowerLevel. run_registers Hok.
    eexists. eexists [_; _]. repeat split.
  - unfold setPowerDBm. run_registers Hok.
    destruct ((dBm <? -18) || (dBm >? 20)); run_registers Hok;
      [eexists; exists []; repeat split|].
    destruct (dBm >? 13); run_registers Hok;
      [eexists; exists []; repeat split|].
    eexists. eexists [_]. repeat split.
Qed.

(** X5 (boost registers). On a device that is not high power, no run of
    calls of [setMode], [setHighPowerSettings], [setPASettings],
    [setPowerLevel] and [setPowerDBm], with whatever arguments, writes an
    enabling value to a boost register (0x5D to 0x5A, 0x7C to 0x5C); every
    such run returns, and the device class stays what it was. *)
Theorem boost_never_enabled_without_high_power (env : Env) (Hok : transport_ok env)
  (cs : list PowerCall) (w : World)
  (Hclass : _highPowerDevice (dev w) = false) :
  exists w' frames,
    power_calls env cs w = Ok tt w' /\
    _highPowerDevice (dev w') = false /\
    spi_log w' = frames ++ spi_log w /\
    existsb boost_enabling frames = false.
Proof.
  revert w Hclass. induction cs as [|c cs IH]; intros w Hclass.
  - exists w, []. repeat split. exact Hclass.
  - destruct (power_call_keeps_boost_off env Hok c w Hclass)
      as [w1 [f1 [Hrun1 [Hclass1 [Hlog1 Hoff1]]]]].
    destruct (IH w1 Hclass1) as [w2 [f2 [Hrun2 [Hclass2 [Hlog2 Hoff2]]]]].
    exists w2, (f2 ++ f1).
    split; [cbn [power_calls]; unfold bind; rewrite Hrun1; exact Hrun2|].
    split; [exact Hclass2|].
    split; [rewrite Hlog2, Hlog1, app_assoc; reflexivity|].
    rewrite existsb_app, Hoff1, Hoff2. reflexivity.
Qed.

Lemma boost_never_enabled_without_high_power_witness :
  exists w' frames,
    power_calls quiet_env
      [CallSetPASettings 0x0E; CallSetMode RFM69_MODE_TX; CallSetHighPowerSettings true;
       CallSetPowerDBm 13]
      (fresh_world (RFM69_new false)) = Ok tt w' /\
    spi_log w' = frames ++ [] /\
    existsb boost_enabling frames = false.
Proof.
  destruct (boost_never_enabled_without_high_power quiet_env quiet_env_ok
              [CallSetPASettings 0x0E; CallSetMode RFM69_MODE_TX;
               CallSetHighPowerSettings true; CallSetPowerDBm 13]
              (fresh_world (RFM69_new false)) eq_refl)
    as [w' [frames [Hrun [_ [Hlog Hoff]]]]].
  exists w', frames. auto.
Defined.

(** ** Frequency, deviation and bitrate *)

Lemma leaveActiveMode_eq (env : Env) (Hok : transport_ok env) (w : World) :
  leaveActiveMode env w = Ok tt (left_active_mode w).
Proof.
  unfold leaveActiveMode, left_active_mode. cbv beta iota delta [bind gets].
  destruct ((RFM69_MODE_RX =? _mode (dev w)) || (RFM69_MODE_TX =? _mode (dev w))) eqn:Hactive;
    [|reflexivity].
  assert (Hneq : RFM69_MODE_STANDBY <> _mode (dev w)).
  { apply orb_prop in Hactive.
    destruct Hactive as [H|H]; apply Z.eqb_eq in H; rewrite <- H; discriminate. }
  cbv beta iota delta [bind ret].
  rewrite (setMode_performed env Hok RFM69_MODE_STANDBY w)
    by (unfold RFM69_MODE_STANDBY; lia || exact Hneq).
  destruct (_highPowerDevice (dev w) && _highPowerSettings (dev w)); reflexivity.
Qed.

Lemma mode_after_leaving (w : World) :
  _mode (dev (left_active_mode w)) =
    (if (RFM69_MODE_RX =? _mode (dev w)) || (RFM69_MODE_TX =? _mode (dev w))
     then RFM69_MODE_STANDBY else _mode (dev w)).
Proof.
  unfold left_active_mode.
  destruct ((RFM69_MODE_RX =? _mode (dev w)) || (RFM69_MODE_TX =? _mode (dev w)));
    reflexivity.
Qed.

Lemma written_byte (x : Z) : Z.land (u8 x) 255 = x mod 256.
Proof.
  unfold u8. change 255 with (Z.ones 8). rewrite Z.land_ones by lia.
  change (2 ^ 8) with 256. apply Z.mod_mod. lia.
Qed.

Lemma shifted_byte (x n : Z) : 0 <= n -> Z.land (u8 (Z.shiftr x n)) 255 = (x / 2 ^ n) mod 256.
Proof. intros Hn. rewrite written_byte, Z.shiftr_div_pow2 by exact Hn. reflexivity. Qed.

(** X6 (carrier frequency). [setFrequency] first leaves Receive or Transmit
    for Standby and keeps any other mode, Sleep included; then it writes
    registers 0x07, 0x08 and 0x09 with the three low bytes, high byte
    first, of the frequency divided by the integer 61. For a frequency
    below 61 * 2^24 these bytes are the whole quotient [frequency / 61],
    rounded down. *)
Theorem setFrequency_writes_quotient (env : Env) (Hok : transport_ok env)
  (frequency : Z) (w : World) (Hrange : 0 <= frequency < 4294967296) :
  exists b2 b1 b0,
    setFrequency env frequency w =
      Ok tt (log_transfer [0x89; b0] (log_transfer [0x88; b1]
               (log_transfer [0x87; b2] (left_active_mode w)))) /\
    _mode (dev (left_active_mode w)) =
      (if (RFM69_MODE_RX =? _mode (dev w)) || (RFM69_MODE_TX =? _mode (dev w))
       then RFM69_MODE_STANDBY else _mode (dev w)) /\
    0 <= b2 < 256 /\ 0 <= b1 < 256 /\ 0 <= b0 < 256 /\
    b2 * 65536 + b1 * 256 + b0 = (frequency / RFM69_FSTEP) mod 16777216 /\
    (frequency < RFM69_FSTEP * 16777216 ->
       RFM69_FSTEP * (b2 * 65536 + b1 * 256 + b0) <= frequency <
       RFM69_FSTEP * (b2 * 65536 + b1 * 256 + b0 + 1)).
Proof.
  unfold setFrequency. unfold bind at 1. rewrite (leaveActiveMode_eq env Hok).
  run_registers Hok.
  rewrite !shifted_byte, written_byte by lia.
  eexists. eexists. eexists. split; [reflexivity|].
  split; [apply mode_after_leaving|].
  unfold RFM69_FSTEP.
  change (2 ^ 16) with 65536. change (2 ^ 8) with 256.
  set (q := frequency / 61).
  assert (Hq : 0 <= q) by (apply Z.div_pos; lia).
  assert (Hdiv : 61 * q <= frequency < 61 * (q + 1)).
  { unfold q. pose proof (Z.mul_div_le frequency 61 ltac:(lia)).
    pose proof (Z.mul_succ_div_gt frequency 61 ltac:(lia)). lia. }
  split; [apply Z.mod_pos_bound; lia|].
  split; [apply Z.mod_pos_bound; lia|].
  split; [apply Z.mod_pos_bound; lia|].
  assert (Hsum : (q / 65536) mod 256 * 65536 + (q / 256) mod 256 * 256 + q mod 256 =
                 q mod 16777216).
  { clear Hdiv. Z.to_euclidean_division_equations. lia. }
  split; [exact Hsum|].
  intros Hsmall. rewrite Hsum.
  rewrite Z.mod_small by lia. exact Hdiv.
Qed.

Lemma setFrequency_writes_quotient_witness :
  exists b2 b1 b0,
    setFrequency quiet_env 868300000
      (with_dev (set_mode RFM69_MODE_RX) (fresh_world (RFM69_new false))) =
      Ok tt (log_transfer [0x89; b0] (log_transfer [0x88; b1] (log_transfer [0x87; b2]
               (left_active_mode
                  (with_dev (set_mode RFM69_MODE_RX) (fresh_world (RFM69_new false))))))) /\
    b2 * 65536 + b1 * 256 + b0 = 14234426.
Proof.
  destruct (setFrequency_writes_quotient quiet_env quiet_env_ok 868300000
              (with_dev (set_mode RFM69_MODE_RX) (fresh_world (RFM69_new false)))
              ltac:(lia))
    as [b2 [b1 [b0 [Hrun [_ [_ [_ [_ [Hsum _]]]]]]]]].
  exists b2, b1, b0. split; [exact Hrun|]. rewrite Hsum. reflexivity.
Defined.

(** X7 (frequency deviation). [setFrequencyDeviation] leaves Receive or
    Transmit for Standby, then writes registers 0x05 and 0x06 with the two
    low bytes, high byte first, of the deviation divided by 61; below
    61 * 2^16 Hz these are the whole quotient. *)
Theorem setFrequencyDeviation_writes_quotient (env : Env) (Hok : transport_ok env)
  (frequency : Z) (w : World) (Hrange : 0 <= frequency < 4294967296) :
  exists b1 b0,
    setFrequencyDeviation env frequency w =
      Ok tt (log_transfer [0x86; b0] (log_transfer [0x85; b1] (left_active_mode w))) /\
    0 <= b1 < 256 /\ 0 <= b0 < 256 /\
    b1 * 256 + b0 = (frequency / RFM69_FSTEP) mod 65536 /\
    (frequency < RFM69_FSTEP * 65536 ->
       RFM69_FSTEP * (b1 * 256 + b0) <= frequency < RFM69_FSTEP * (b1 * 256 + b0 + 1)).
Proof.
  unfold setFrequencyDeviation. unfold bind at 1. rewrite (leaveActiveMode_eq env Hok).
  run_registers Hok.
  rewrite !shifted_byte, written_byte by lia.
  eexists. eexists. split; [reflexivity|].
  unfold RFM69_FSTEP. change (2 ^ 8) with 256.
  set (q := frequency / 61).
  assert (Hq : 0 <= q) by (apply Z.div_pos; lia).
  assert (Hdiv : 61 * q <= frequency < 61 * (q + 1)).
  { unfold q. pose proof (Z.mul_div_le frequency 61 ltac:(lia)).
    pose proof (Z.mul_succ_div_gt frequency 61 ltac:(lia)). lia. }
  split; [apply Z.mod_pos_bound; lia|].
  split; [apply Z.mod_pos_bound; lia|].
  assert (Hsum : (q / 256) mod 256 * 256 + q mod 256 = q mod 65536).
  { clear Hdiv. Z.to_euclidean_division_equations. lia. }
  split; [exact Hsum|].
  intros Hsmall. rewrite Hsum.
  rewrite Z.mod_small by lia. exact Hdiv.
Qed.

Lemma setFrequencyDeviation_writes_quotient_witness :
  exists b1 b0,
    setFrequencyDeviation quiet_env 20000 (fresh_world (RFM69_new false)) =
      Ok tt (log_transfer [0x86; b0] (log_transfer [0x85; b1]
               (left_active_mode (fresh_world (RFM69_new false))))) /\
    b1 * 256 + b0 = 327.
Proof.
  destruct (setFrequencyDeviation_writes_quotient quiet_env quiet_env_ok 20000
              (fresh_world (RFM69_new false)) ltac:(lia))
    as [b1 [b0 [Hrun [_ [_ [Hsum _]]]]]].
  exists b1, b0. split; [exact Hrun|]. rewrite Hsum. reflexivity.
Defined.

(** The statement at the head of the setters on any transport: the only
    transfer is the write of Standby to the mode register, from Receive or
    Transmit, and the process is aborted when it fails. *)
Lemma leaveActiveMode_any (env : Env) (w : World) :
  leaveActiveMode env w =
    if (RFM69_MODE_RX =? _mode (dev w)) || (RFM69_MODE_TX =? _mode (dev w)) then
      if spi_ioc_status env (spi_log w) (mode_frame RFM69_MODE_STANDBY) <? 0
      then Halt Aborted else Ok tt (left_active_mode w)
    else Ok tt w.
Proof.
  unfold leaveActiveMode, left_active_mode. cbv beta iota delta [bind gets].
  destruct ((RFM69_MODE_RX =? _mode (dev w)) || (RFM69_MODE_TX =? _mode (dev w))) eqn:Hactive;
    [|reflexivity].
  assert (Hneq : (RFM69_MODE_STANDBY =? _mode (dev w)) = false).
  { apply orb_prop in Hactive.
    destruct Hactive as [H|H]; apply Z.eqb_eq in H; rewrite <- H; reflexivity. }
  unfold setMode. cbv beta iota delta [bind gets]. rewrite Hneq.
  change (RFM69_MODE_STANDBY >? RFM69_MODE_RX) with false. cbn [orb].
  change (u8 (Z.shiftl RFM69_MODE_STANDBY 2)) with 4.
  change (mode_frame RFM69_MODE_STANDBY) with [1 + 128; Z.land 4 255].
  destruct (Z.ltb_spec (spi_ioc_status env (spi_log w) [1 + 128; Z.land 4 255]) 0)
    as [Hfail|Hdone].
  - rewrite (writeRegister_fails env 1 4 w) by (lia || exact Hfail). reflexivity.
  - rewrite (writeRegister_done env 1 4 w) by (lia || exact Hdone).
    cbn [log_transfer dev].
    change (RFM69_MODE_STANDBY =? RFM69_MODE_RX) with false.
    change (RFM69_MODE_STANDBY =? RFM69_MODE_TX) with false.
    destruct (_highPowerDevice (dev w)); reflexivity.
Qed.

(** X8 (bitrate). A bitrate of 0 makes [setBitrate] divide by zero. The
    switch from Receive or Transmit to Standby is tried before: when its
    transfer fails the process is aborted there; in every other case, and
    whatever the transport would do with another transfer, the run stops
    at the division, so no bitrate register is written before it. For
    another bitrate, on a transport that works, [setBitrate] leaves Receive
    or Transmit for Standby and writes registers 0x03 and 0x04 with the
    two low bytes, high byte first, of 32000000 divided by the bitrate;
    from 489 bit/s on these are the whole quotient. *)
Theorem setBitrate_writes_divider (env : Env) (bitrate : Z) (w : World)
  (Hrange : 0 <= bitrate < 4294967296) :
  (bitrate = 0 ->
     setBitrate env bitrate w =
       if ((RFM69_MODE_RX =? _mode (dev w)) || (RFM69_MODE_TX =? _mode (dev w))) &&
          (spi_ioc_status env (spi_log w) (mode_frame RFM69_MODE_STANDBY) <? 0)
       then Halt Aborted else Halt UndefinedBehaviour) /\
  (0 < bitrate -> transport_ok env ->
   exists b1 b0,
     setBitrate env bitrate w =
       Ok tt (log_transfer [0x84; b0] (log_transfer [0x83; b1] (left_active_mode w))) /\
     0 <= b1 < 256 /\ 0 <= b0 < 256 /\
     b1 * 256 + b0 = (RFM69_XO / bitrate) mod 65536 /\
     (489 <= bitrate ->
        (b1 * 256 + b0) * bitrate <= RFM69_XO < (b1 * 256 + b0 + 1) * bitrate)).
Proof.
  split.
  - intros ->. unfold setBitrate. unfold bind at 1. rewrite leaveActiveMode_any.
    destruct ((RFM69_MODE_RX =? _mode (dev w)) || (RFM69_MODE_TX =? _mode (dev w)));
      [|reflexivity].
    destruct (spi_ioc_status env (spi_log w) (mode_frame RFM69_MODE_STANDBY) <? 0);
      reflexivity.
  - intros Hpos Hok. unfold setBitrate. unfold bind at 1.
    rewrite (leaveActiveMode_eq env Hok).
    destruct (Z.eqb_spec bitrate 0) as [H0|_]; [lia|].
    run_registers Hok.
    rewrite !shifted_byte, written_byte by lia.
    eexists. eexists. split; [reflexivity|].
    unfold RFM69_XO. change (2 ^ 8) with 256.
    set (q := 32000000 / bitrate).
    assert (Hq : 0 <= q) by (apply Z.div_pos; lia).
    assert (Hdiv : q * bitrate <= 32000000 < (q + 1) * bitrate).
    { unfold q. pose proof (Z.mul_div_le 32000000 bitrate ltac:(lia)).
      pose proof (Z.mul_succ_div_gt 32000000 bitrate ltac:(lia)). nia. }
    split; [apply Z.mod_pos_bound; lia|].
    split; [apply Z.mod_pos_bound; lia|].
    assert (Hsum : (q / 256) mod 256 * 256 + q mod 256 = q mod 65536).
    { clear Hdiv. Z.to_euclidean_division_equations. lia. }
    split; [exact Hsum|].
    intros Hfast. rewrite Hsum.
    assert (Hsmall : q < 65536) by nia.
    rewrite Z.mod_small by lia. exact Hdiv.
Qed.

Lemma setBitrate_writes_divider_witness :
  setBitrate quiet_env 0 (fresh_world (RFM69_new false)) = Halt UndefinedBehaviour /\
  setBitrate broken_env 0 (with_dev (set_mode RFM69_MODE_RX) (fresh_world (RFM69_new false))) =
    Halt Aborted /\
  setBitrate broken_env 0 (fresh_world (RFM69_new false)) = Halt UndefinedBehaviour /\
  exists b1 b0,
    setBitrate quiet_env 9600 (fresh_world (RFM69_new false)) =
      Ok tt (log_transfer [0x84; b0] (log_transfer [0x83; b1]
               (left_active_mode (fresh_world (RFM69_new false))))) /\
    b1 * 256 + b0 = 3333.
Proof.
  split; [|split; [|split]].
  - apply (setBitrate_writes_divider quiet_env 0 (fresh_world (RFM69_new false)));
      [lia|reflexivity].
  - apply (setBitrate_writes_divider broken_env 0
             (with_dev (set_mode RFM69_MODE_RX) (fresh_world (RFM69_new false))));
      [lia|reflexivity].
  - apply (setBitrate_writes_divider broken_env 0 (fresh_world (RFM69_new false)));
      [lia|reflexivity].
  - destruct (setBitrate_writes_divider quiet_env 9600
                (fresh_world (RFM69_new false)) ltac:(lia)) as [_ H].
    destruct (H ltac:(lia) quiet_env_ok) as [b1 [b0 [Hrun [_ [_ [Hsum _]]]]]].
    exists b1, b0. split; [exact Hrun|]. rewrite Hsum. reflexivity.
Defined.

(** ** Modulation and data mode *)

Lemma modulation_byte (v : Z) (enable : bool) :
  0 <= v < 256 ->
  let b := Z.land (u8 (if enable then Z.lor (Z.land v 0xE7) 0x08 else Z.land v 0xE7)) 255 in
  Z.land b 0xE7 = Z.land v 0xE7 /\ Z.land b 0x18 = (if enable then 0x08 else 0).
Proof.
  intros Hv.
  assert (Hall : forall e : bool, all_below 256 (fun a =>
            (Z.land (Z.land (u8 (if e then Z.lor (Z.land a 0xE7) 0x08 else Z.land a 0xE7)) 255)
               0xE7 =? Z.land a 0xE7) &&
            (Z.land (Z.land (u8 (if e then Z.lor (Z.land a 0xE7) 0x08 else Z.land a 0xE7)) 255)
               0x18 =? (if e then 0x08 else 0))) = true)
    by (intros []; vm_compute; reflexivity).
  pose proof (all_below_spec _ _ (Hall enable) v ltac:(simpl; lia)) as H. cbv beta in H.
  apply andb_prop in H. destruct H as [H1 H2].
  split; apply Z.eqb_eq; assumption.
Qed.

(** X9 (modulation). [setOOKMode] leaves Receive or Transmit for Standby,
    reads register 0x02 and writes it back with bits 3 and 4 set to 01 for
    OOK and to 00 for FSK and with every other bit as the chip reported it,
    and stores the choice in [_ookEnabled]. *)
Theorem setOOKMode_changes_modulation_bits_only (env : Env) (Hok : transport_ok env)
  (enable : bool) (w : World) :
  let w0 := left_active_mode w in
  let v := read_reply env (spi_log w0) 0x02 in
  exists b,
    setOOKMode env enable w =
      Ok tt (with_dev (set_ookEnabled enable)
               (log_transfer [0x82; b] (log_transfer [0x02; 0] w0))) /\
    Z.land b 0xE7 = Z.land v 0xE7 /\
    Z.land b 0x18 = (if enable then 0x08 else 0).
Proof.
  intros w0 v.
  destruct (modulation_byte v enable (u8_range _)) as [F1 F2]. cbv zeta in F1, F2.
  unfold setOOKMode. unfold bind at 1. rewrite (leaveActiveMode_eq env Hok).
  fold w0. destruct enable; run_registers Hok; fold v;
    (eexists; split; [reflexivity|]); split; assumption.
Qed.

Lemma setOOKMode_changes_modulation_bits_only_witness :
  exists b,
    setOOKMode ready_env true (fresh_world (RFM69_new false)) =
      Ok tt (with_dev (set_ookEnabled true)
               (log_transfer [0x82; b]
                  (log_transfer [0x02; 0] (left_active_mode (fresh_world (RFM69_new false)))))) /\
    b = 0xEF.
Proof.
  assert (Hready : transport_ok ready_env) by (intros log tx; simpl; lia).
  destruct (setOOKMode_changes_modulation_bits_only ready_env Hready true
              (fresh_world (RFM69_new false))) as [b [Hrun [H1 H2]]].
  exists b. split; [exact Hrun|].
  injection Hrun as Hb. symmetry. exact Hb.
Defined.

Lemma data_mode_byte (v : Z) :
  0 <= v < 256 -> Z.land (u8 (Z.land v 0x1F)) 255 = Z.land v 0x1F.
Proof.
  intros Hv.
  assert (Hall : all_below 256 (fun a =>
            Z.land (u8 (Z.land a 0x1F)) 255 =? Z.land a 0x1F) = true)
    by (vm_compute; reflexivity).
  apply Z.eqb_eq. exact (all_below_spec _ _ Hall v ltac:(simpl; lia)).
Qed.

(** X10 (data mode). [setDataMode] leaves Receive or Transmit for Standby
    whatever it is asked for. For the packet mode it then writes register
    0x02 back with bits 5 to 7 cleared and the other bits as read, and
    stores the mode; for any other value it touches neither register 0x02
    nor [_dataMode]. *)
Theorem setDataMode_packet_only (env : Env) (Hok : transport_ok env)
  (dataMode : Z) (w : World) :
  let w0 := left_active_mode w in
  let v := read_reply env (spi_log w0) 0x02 in
  (dataMode = RFM69_DATA_MODE_PACKET ->
     setDataMode env dataMode w =
       Ok tt (with_dev (set_dataMode RFM69_DATA_MODE_PACKET)
                (log_transfer [0x82; Z.land v 0x1F] (log_transfer [0x02; 0] w0)))) /\
  (dataMode <> RFM69_DATA_MODE_PACKET ->
     setDataMode env dataMode w = Ok tt w0 /\
     _dataMode (dev w0) = _dataMode (dev w)).
Proof.
  intros w0 v. split.
  - intros ->. unfold setDataMode. unfold bind at 1. rewrite (leaveActiveMode_eq env Hok).
    fold w0. rewrite Z.eqb_refl. run_registers Hok. fold v.
    rewrite (data_mode_byte v (u8_range _)). reflexivity.
  - intros Hother. unfold setDataMode. unfold bind at 1.
    rewrite (leaveActiveMode_eq env Hok). fold w0.
    destruct (Z.eqb_spec dataMode RFM69_DATA_MODE_PACKET) as [E|_]; [contradiction|].
    split; [reflexivity|].
    unfold w0, left_active_mode.
    destruct ((RFM69_MODE_RX =? _mode (dev w)) || (RFM69_MODE_TX =? _mode (dev w)));
      reflexivity.
Qed.

Lemma setDataMode_packet_only_witness :
  setDataMode ready_env 1 (with_dev (set_mode RFM69_MODE_RX) (fresh_world (RFM69_new false))) =
    Ok tt (left_active_mode
             (with_dev (set_mode RFM69_MODE_RX) (fresh_world (RFM69_new false)))) /\
  _mode (dev (left_active_mode
                (with_dev (set_mode RFM69_MODE_RX) (fresh_world (RFM69_new false))))) =
    RFM69_MODE_STANDBY.
Proof.
  assert (Hready : transport_ok ready_env) by (intros log tx; simpl; lia).
  split; [|reflexivity].
  apply (setDataMode_packet_only ready_env Hready 1
           (with_dev (set_mode RFM69_MODE_RX) (fresh_world (RFM69_new false)))).
  unfold RFM69_DATA_MODE_PACKET. lia.
Defined.

(** ** Signal strength *)

Lemma rssi_threshold (v : Z) :
  0 <= v < 256 ->
  (Z.quot (- v) 2 <? CSMA_RSSI_THRESHOLD) = (172 <=? v) /\ -127 <= Z.quot (- v) 2 <= 0.
Proof.
  intros Hv.
  assert (Hall : all_below 256 (fun a =>
            Bool.eqb (Z.quot (- a) 2 <? CSMA_RSSI_THRESHOLD) (172 <=? a) &&
            (-127 <=? Z.quot (- a) 2) && (Z.quot (- a) 2 <=? 0)) = true)
    by (vm_compute; reflexivity).
  pose proof (all_below_spec _ _ Hall v ltac:(simpl; lia)) as H. cbv beta in H.
  apply andb_prop in H. destruct H as [H H3].
  apply andb_prop in H. destruct H as [H1 H2].
  apply Bool.eqb_prop in H1. apply Z.leb_le in H2, H3. split; [exact H1|lia].
Qed.

(** X11 (carrier sense). [channelFree] reads register 0x24 once, stores
    minus half its value, rounded towards zero, in [_rssi], which therefore
    lies between -127 and 0, and reports a free channel exactly when the
    register holds 172 or more, that is a level below -85 dBm. *)
Theorem channelFree_threshold (env : Env) (Hok : transport_ok env) (w : World) :
  let v := read_reply env (spi_log w) 0x24 in
  channelFree env w =
    Ok (172 <=? v) (with_dev (set_rssi (Z.quot (- v) 2)) (log_transfer [0x24; 0] w)) /\
  -127 <= Z.quot (- v) 2 <= 0.
Proof.
  intros v. destruct (rssi_threshold v (u8_range _)) as [Hfree Hrange].
  split; [|exact Hrange].
  unfold channelFree, readRSSI. run_registers Hok. fold v.
  rewrite Hfree. destruct (172 <=? v); reflexivity.
Qed.

Lemma channelFree_threshold_witness :
  channelFree quiet_env (fresh_world (RFM69_new false)) =
    Ok (172 <=? read_reply quiet_env (spi_log (fresh_world (RFM69_new false))) 0x24)
       (with_dev (set_rssi (Z.quot (- read_reply quiet_env
                                        (spi_log (fresh_world (RFM69_new false))) 0x24) 2))
          (log_transfer [0x24; 0] (fresh_world (RFM69_new false)))).
Proof.
  exact (proj1 (channelFree_threshold quiet_env quiet_env_ok (fresh_world (RFM69_new false)))).
Defined.

(** ** Register dump *)

Lemma dumpRegisters_from (env : Env) (Hok : transport_ok env) (n : nat) :
  forall (i : nat) (w : World),
    (i + n <= 128)%nat ->
    for_loop n i (fun j => readRegister env (u8 (Z.of_nat j)) ;; ret tt) w =
      Ok tt (fold_right log_transfer w (rev (map read_frame (seq i n)))).
Proof.
  induction n as [|n IH]; intros i w Hi; [reflexivity|].
  cbn [for_loop seq map rev]. unfold bind at 1. unfold bind at 1.
  rewrite u8_small by lia.
  rewrite (readRegister_valid env Hok) by lia. cbn [ret].
  rewrite IH by lia. rewrite fold_right_app. reflexivity.
Qed.

Lemma dumpRegisters_reads (env : Env) (Hok : transport_ok env) (DEBUG : bool) (w : World) :
  exists w', dumpRegisters env DEBUG w = Ok tt w' /\ dev w' = dev w.
Proof.
  unfold dumpRegisters. destruct DEBUG.
  - rewrite (dumpRegisters_from env Hok 0x71 1 w) by (simpl; lia).
    eexists. split; [reflexivity|]. apply dev_fold_right.
  - exists w. split; reflexivity.
Qed.

(** X12 (register dump). Compiled with DEBUG, [dumpRegisters] reads the
    registers 0x01 to 0x71 once each, in rising order; it never reads the
    FIFO register 0x00, never writes, and leaves the driver's fields as they
    are. Compiled without DEBUG it makes no transfer at all. *)
Theorem dumpRegisters_reads_only (env : Env) (Hok : transport_ok env) (DEBUG : bool)
  (w : World) :
  exists w',
    dumpRegisters env DEBUG w = Ok tt w' /\
    spi_log w' = (if DEBUG then rev (map read_frame (seq 1 0x71)) else []) ++ spi_log w /\
    dev w' = dev w /\ clock_reads w' = clock_reads w /\
    (forall tx, In tx (if DEBUG then rev (map read_frame (seq 1 0x71)) else []) ->
                write_bit tx = false /\ 1 <= nth 0 tx 0 <= 0x71).
Proof.
  unfold dumpRegisters. destruct DEBUG.
  - rewrite (dumpRegisters_from env Hok 0x71 1 w) by (simpl; lia).
    eexists. split; [reflexivity|].
    rewrite spi_log_fold_right, dev_fold_right.
    split; [reflexivity|]. split; [reflexivity|]. split.
    + generalize (rev (map read_frame (seq 1 113))).
      intros l. induction l; simpl; auto.
    + intros tx Hin. apply in_rev in Hin. apply in_map_iff in Hin.
      destruct Hin as [j [<- Hj]]. apply in_seq in Hj.
      unfold read_frame, write_bit. cbn [nth]. split; [|lia].
      apply Z.bits_above_log2; [lia|].
      apply Z.log2_lt_pow2; [lia|]. change (2 ^ 7) with 128. lia.
  - exists w. repeat split; try reflexivity; contradiction.
Qed.

Lemma dumpRegisters_reads_only_witness :
  exists w',
    dumpRegisters quiet_env true (fresh_world (RFM69_new false)) = Ok tt w' /\
    length (spi_log w') = 113%nat.
Proof.
  destruct (dumpRegisters_reads_only quiet_env quiet_env_ok true
              (fresh_world (RFM69_new false))) as [w' [Hrun [Hlog _]]].
  exists w'. split; [exact Hrun|]. rewrite Hlog. reflexivity.
Defined.

(** ** Reception *)

Lemma packet_env_ok : transport_ok packet_env.
Proof. intros log tx. simpl. lia. Qed.

Lemma packet_env_ticks : clock_ticks 1 packet_env.
Proof.
  assert (H : forall n, u32 (tick packet_env (S n) - tick packet_env n) = 1).
  { intros n. unfold tick, u32. cbn [packet_env clock_gettime tv_sec tv_nsec].
    change (Z.quot 0 1000000) with 0. rewrite !Z.add_0_r.
    rewrite Zminus_mod_idemp_l, Zminus_mod_idemp_r.
    replace (Z.of_nat (S n) - Z.of_nat n) with 1 by lia.
    reflexivity. }
  split; intros n.
  - rewrite H. lia.
  - replace (n + 1)%nat with (S n) by lia. rewrite H. lia.
Qed.

Lemma read_reply_range (env : Env) (log : list (list Z)) (reg : Z) :
  0 <= read_reply env log reg < 256.
Proof. unfold read_reply. apply u8_range. Qed.

Lemma runs_result {A} (m : M A) (w : World) (Q : A -> World -> Prop) (a : A) (w' : World) :
  runs m w Q -> m w = Ok a w' -> Q a w'.
Proof.
  intros [a0 [w0 [E HQ]]] Erun. rewrite E in Erun.
  injection Erun as <- <-. exact HQ.
Qed.

Section Reception.

Variable env : Env.
Hypothesis Hok : transport_ok env.

(** The loop of [_receive] fills the buffer from [bytesRead] on and stops
    at [dataLength] at the latest. *)
Lemma drain_loop_buffer (dataLength : Z) (fuel : nat) (loc : Z * buffer) (w : World) :
  0 <= fst loc <= dataLength ->
  (Z.to_nat (dataLength - fst loc) < fuel)%nat ->
  runs (while fuel
          (fun loc : Z * buffer =>
             f <- readRegister env 0x28 ;;
             ret (negb (Z.land f 0x40 =? 0) && (fst loc <? dataLength)))
          (fun loc : Z * buffer =>
             b <- readRegister env 0x00 ;;
             ret (fst loc + 1, poke (snd loc) (Z.to_nat (fst loc)) b))
          loc) w
       (fun loc' w' =>
          continues 0 w w' /\ dev w' = dev w /\
          fst loc <= fst loc' <= dataLength /\
          (forall i, Z.of_nat i < fst loc \/ fst loc' <= Z.of_nat i ->
                     snd loc' i = snd loc i) /\
          (forall i, fst loc <= Z.of_nat i < fst loc' -> 0 <= snd loc' i < 256)).
Proof.
  revert loc w. induction fuel as [|fuel IH]; intros loc w Hloc Hfuel; [lia|].
  unfold runs. rewrite while_step.
  unfold bind at 1. rewrite (readRegister_valid env Hok) by lia. cbn [ret].
  destruct (negb (Z.land (read_reply env (spi_log w) 40) 64 =? 0) &&
            (fst loc <? dataLength)) eqn:Hcond.
  - apply andb_prop in Hcond. destruct Hcond as [_ Hlt]. apply Z.ltb_lt in Hlt.
    unfold bind at 1. rewrite (readRegister_valid env Hok) by lia. cbn [ret].
    match goal with
    | |- exists a w', while fuel ?c ?b ?l ?w0 = _ /\ _ =>
        destruct (IH l w0) as [loc' [w' [Ew [Hc [Hd [Hl [Hout Hin]]]]]]]
    end.
    + cbn [fst]. lia.
    + cbn [fst]. lia.
    + exists loc', w'. split; [exact Ew|].
      cbn [fst snd] in Hl, Hout, Hin.
      split; [solve_continues|]. split; [rewrite Hd; reflexivity|].
      split; [lia|]. split.
      * intros i Hi. rewrite Hout by lia. unfold poke.
        destruct (Nat.eqb_spec i (Z.to_nat (fst loc))) as [E|_]; [lia|reflexivity].
      * intros i Hi.
        destruct (Z.eq_dec (Z.of_nat i) (fst loc)) as [E|Hne].
        -- rewrite Hout by lia. unfold poke.
           destruct (Nat.eqb_spec i (Z.to_nat (fst loc))) as [_|Hn]; [|lia].
           apply read_reply_range.
        -- apply Hin. lia.
  - eexists. eexists. split; [reflexivity|].
    split; [solve_continues|]. split; [reflexivity|].
    split; [lia|]. split; [reflexivity|]. intros i Hi. lia.
Qed.

Variable period : nat.
Hypothesis Hperiod : (period <= 4000)%nat.
Hypothesis Hclk : clock_ticks period env.

Lemma _receive_post (fuel : nat) (data : buffer) (dataLength : Z) (w : World) :
  (period * 100 < fuel)%nat -> (Z.to_nat dataLength < fuel)%nat ->
  0 <= dataLength < 2147483648 ->
  runs (_receive env fuel data dataLength) w
       (fun res w' =>
          0 <= fst res <= dataLength /\
          (forall i, fst res <= Z.of_nat i -> snd res i = data i) /\
          (forall i, Z.of_nat i < fst res -> 0 <= snd res i < 256) /\
          _mode (dev w') = RFM69_MODE_RX /\
          same_stash w w' /\
          continues (period * 100 + 1) w w').
Proof.
  intros Hfuel HfuelN Hlen. unfold _receive.
  apply runs_bind_wp. apply runs_gets.
  apply (runs_bind _ _ _ (fun _ w1 => continues (period * 100 + 1) w w1 /\
                                      _mode (dev w1) = RFM69_MODE_RX /\ same_stash w w1)).
  - destruct (Z.eqb_spec RFM69_MODE_RX (_mode (dev w))) as [E|_]; cbn [negb].
    + apply runs_ret. split; [solve_continues|]. split; [auto|split; reflexivity].
    + apply runs_bind_wp. apply (setMode_runs env Hok); [unfold RFM69_MODE_RX; lia|].
      intros w1 Hd1 Hc1.
      apply (waitForModeReady_runs env Hok period Hperiod Hclk); [exact Hfuel|].
      intros w2 Hc2 Hd2.
      split; [solve_continues|]. unfold same_stash. rewrite Hd2, Hd1.
      split; [reflexivity|split; reflexivity].
  - intros _ w1 [Hc1 [Hm1 [Hs1 Hb1]]].
    apply runs_bind_wp. apply (readRegister_runs env Hok); [lia|].
    apply runs_bind_wp. apply (readRegister_runs env Hok); [lia|].
    apply runs_bind_wp. apply (readRegister_runs env Hok); [lia|].
    match goal with |- runs (if ?c then _ else _) _ _ => destruct c end.
    + apply runs_bind_wp. apply (setMode_runs env Hok); [unfold RFM69_MODE_STANDBY; lia|].
      intros w2 Hd2 Hc2.
      apply runs_bind_wp. unfold drain_fifo.
      eapply runs_consequence;
        [apply (drain_loop_buffer dataLength fuel (0, data) w2); cbn [fst];
         [lia|rewrite Z.sub_0_r; exact HfuelN]|].
      cbv beta. intros loc w3 [Hc3 [Hd3 [Hl3 [Hout Hin]]]]. cbn [fst snd] in Hl3, Hout, Hin.
      apply runs_bind_wp. apply runs_gets.
      apply (runs_bind _ _ _ (fun _ w4 => continues 0 w3 w4 /\ same_stash w3 w4)).
      * destruct (_autoReadRSSI (dev w3)).
        -- apply runs_bind_wp. apply (readRSSI_runs env Hok). intros r. apply runs_ret.
           split; [solve_continues|split; reflexivity].
        -- apply runs_ret. split; [solve_continues|split; reflexivity].
      * intros _ w4 [Hc4 [Hs4 Hb4]].
        apply runs_bind_wp. apply (setMode_runs env Hok); [unfold RFM69_MODE_RX; lia|].
        intros w5 Hd5 Hc5.
        apply runs_bind_wp. apply (readRegister_runs env Hok); [lia|].
        apply runs_bind_wp. apply (writeRegister_runs env Hok); [lia|].
        apply runs_ret. cbn [fst snd].
        rewrite (s32_small period Hperiod) by lia.
        split; [lia|]. split; [intros i Hi; apply Hout; lia|].
        split; [intros i Hi; apply Hin; lia|].
        split; [cbn [log_transfer dev]; rewrite Hd5; reflexivity|].
        split; [|solve_continues].
        unfold same_stash. cbn [log_transfer dev]. rewrite Hd5.
        cbn [set_mode _rxBufferLength _rxBuffer].
        rewrite Hs4, Hb4, Hd3, Hd2. cbn [log_transfer dev set_mode _rxBufferLength _rxBuffer].
        split; assumption.
    + apply runs_ret. cbn [fst snd].
      split; [lia|]. split; [reflexivity|]. split; [intros i Hi; lia|].
      split; [exact Hm1|]. split; [split; assumption|solve_continues].
Qed.

End Reception.

(** X13 (reception). On a working transport and a moving clock [_receive]
    returns a count between 0 and [dataLength]; the buffer it is given,
    which may be the stash [_rxBuffer] itself as in the call of [send],
    holds bytes in its first count places and is untouched from there on;
    the radio is in Receive mode afterwards, and the stash length
    [_rxBufferLength] is as before. *)
Theorem _receive_fills_prefix (env : Env) (Hok : transport_ok env) (period : nat)
  (Hperiod : (period <= 4000)%nat) (Hclk : clock_ticks period env)
  (fuel : nat) (data : buffer) (dataLength : Z) (w : World)
  (Hfuel : (period * 100 < fuel)%nat) (Hroom : (Z.to_nat dataLength < fuel)%nat)
  (Hlen : 0 <= dataLength < 2147483648) :
  exists n data' w',
    _receive env fuel data dataLength w = Ok (n, data') w' /\
    0 <= n <= dataLength /\
    (forall i, n <= Z.of_nat i -> data' i = data i) /\
    (forall i, Z.of_nat i < n -> 0 <= data' i < 256) /\
    _mode (dev w') = RFM69_MODE_RX /\
    _rxBufferLength (dev w') = _rxBufferLength (dev w).
Proof.
  destruct (_receive_post env Hok period Hperiod Hclk fuel data dataLength w Hfuel Hroom Hlen)
    as [[n data'] [w' [Hrun [Hn [Hout [Hin [Hmode [[Hstash _] _]]]]]]]].
  exists n, data', w'. cbn [fst snd] in Hn, Hout, Hin.
  split; [exact Hrun|]. split; [exact Hn|]. split; [exact Hout|].
  split; [exact Hin|]. split; [exact Hmode|exact Hstash].
Qed.

Lemma _receive_fills_prefix_witness :
  exists data' w',
    _receive packet_env 700 caller_buffer 64 (fresh_world (RFM69_new false)) =
      Ok (3, data') w' /\
    bytes_of data' 4 = [0x41; 0x42; 0x43; 0xEE] /\
    _mode (dev w') = RFM69_MODE_RX.
Proof.
  destruct (_receive_fills_prefix packet_env packet_env_ok 1 ltac:(lia) packet_env_ticks
              700 caller_buffer 64 (fresh_world (RFM69_new false))
              ltac:(lia) ltac:(lia) ltac:(lia))
    as [n [data' [w' [Hrun [_ [_ [_ [Hmode _]]]]]]]].
  assert (Hcomp : forall r w0,
            _receive packet_env 700 caller_buffer 64 (fresh_world (RFM69_new false)) =
              Ok r w0 ->
            fst r = 3 /\ bytes_of (snd r) 4 = [0x41; 0x42; 0x43; 0xEE]).
  { intros r w0 E. vm_compute in E. injection E as <- _. split; reflexivity. }
  destruct (Hcomp _ _ Hrun) as [E1 E2]. cbn [fst snd] in E1, E2. subst n.
  exists data', w'. split; [exact Hrun|]. split; [exact E2|exact Hmode].
Defined.

(** ** The stash of the carrier sense loop *)

Lemma same_stash_bounded (w w' : World) :
  same_stash w w' -> stash_bounded w -> stash_bounded w'.
Proof. intros [E _] H. unfold stash_bounded in *. rewrite E. exact H. Qed.

Lemma same_stash_dev (w w' : World) : dev w' = dev w -> same_stash w w'.
Proof. intros E. unfold same_stash. rewrite E. split; reflexivity. Qed.

Lemma same_stash_trans (w1 w2 w3 : World) :
  same_stash w1 w2 -> same_stash w2 w3 -> same_stash w1 w3.
Proof. intros [A1 B1] [A2 B2]. split; congruence. Qed.

Lemma stash_step_trans (w1 w2 w3 : World) :
  stash_step w1 w2 -> stash_step w2 w3 -> stash_step w1 w3.
Proof.
  intros [F1 S1] [F2 S2]. split; [eapply adds_frames_trans; eassumption|auto].
Qed.

Lemma stash_step_tick (w : World) : stash_step w (count_clock_read w).
Proof. split; [exists []; split; [reflexivity|constructor]|auto]. Qed.

Section Stash.

Variable env : Env.
Hypothesis Hok : transport_ok env.
Variable period : nat.
Hypothesis Hperiod : (period <= 4000)%nat.
Hypothesis Hclk : clock_ticks period env.

Lemma csma_body_stash (fuel : nat) (w : World) :
  (period * 100 < fuel)%nat -> (64 < fuel)%nat ->
  runs (csma_body env fuel) w
       (fun _ w' => continues (period * 110 + 2) w w' /\
                    (stash_bounded w -> stash_bounded w')).
Proof.
  intros Hfuel Hfuel64. unfold csma_body.
  apply runs_bind_wp. unfold runs at 1, rand. eexists. eexists.
  split; [reflexivity|].
  apply runs_bind_wp. unfold runs at 1, delay. eexists. eexists.
  split; [reflexivity|].
  apply runs_bind_wp. apply runs_gets.
  apply runs_bind_wp.
  eapply runs_consequence;
    [apply (_receive_post env Hok period Hperiod Hclk fuel _ RFM69_MAX_PAYLOAD);
     [exact Hfuel|change (Z.to_nat RFM69_MAX_PAYLOAD) with 64%nat; exact Hfuel64|
      unfold RFM69_MAX_PAYLOAD; lia]|].
  cbv beta. intros res w1 [Hn [_ [_ [_ [[Hs Hb] Hc1]]]]].
  unfold RFM69_MAX_PAYLOAD in Hn.
  cbn [log_delay count_rand_call dev] in Hs.
  apply runs_bind_wp. apply runs_modify.
  destruct (Z.gtb_spec (fst res) 0) as [Hpos|Hzero].
  - apply runs_bind_wp. apply runs_modify.
    apply runs_bind_wp. apply (restartRx_runs env Hok). intros b.
    apply runs_bind_wp. apply (waitForRssiSample_runs env Hok period Hperiod Hclk); [lia|].
    intros w2 Hc2 _ Hd2. apply runs_ret.
    split; [solve_continues|]. intros _.
    unfold stash_bounded, RFM69_MAX_PAYLOAD. rewrite Hd2.
    cbn [log_transfer with_dev dev set_rxBufferLength _rxBufferLength].
    rewrite u32_small by lia. lia.
  - apply runs_ret. split; [solve_continues|].
    unfold stash_bounded.
    cbn [with_dev dev set_rxBuffer _rxBufferLength]. rewrite Hs. auto.
Qed.

Lemma csma_loop_stash (fuel n0 : nat) (w : World) :
  (period * 700 <= fuel)%nat ->
  (n0 < clock_reads w <= n0 + period * 10 + 1)%nat ->
  runs (csma_loop env fuel (tick env n0)) w (fun _ w' => stash_step w w').
Proof.
  intros Hfuel Hn0. unfold csma_loop.
  pose proof (period_positive env period Hclk) as HP.
  eapply runs_consequence.
  - apply (timed_while_runs env period Hclk stash_step stash_step_trans stash_step_tick
             (bind (channelFree env) (fun free => ret (negb free)))
             (csma_body env fuel) TIMEOUT_CSMA_READY (period * 110 + 2) n0);
      unfold TIMEOUT_CSMA_READY; try lia.
    + intros w0. unfold channelFree. apply runs_bind_wp. apply runs_bind_wp.
      apply (readRSSI_runs env Hok). intros r.
      destruct (r <? CSMA_RSSI_THRESHOLD);
        apply runs_ret; apply runs_ret;
        (split; [reflexivity|];
         split; [exists [[0x24; 0]]; split; [reflexivity|repeat constructor]|auto]).
    + intros w0. eapply runs_consequence; [apply csma_body_stash; lia|].
      cbv beta. intros _ w' [[Hc HF] HS]. split; [exact Hc|split; assumption].
  - cbv beta. intros [] w' [_ HR]. exact HR.
Qed.

Lemma csma_wait_stash (fuel : nat) (w : World) :
  (period * 700 <= fuel)%nat ->
  runs (csma_wait env fuel) w (fun _ w' => stash_bounded w -> stash_bounded w').
Proof.
  intros Hfuel. unfold csma_wait.
  pose proof (period_positive env period Hclk) as HP.
  apply runs_bind_wp. apply (restartRx_runs env Hok). intros b.
  apply runs_bind_wp. apply (setMode_runs env Hok); [unfold RFM69_MODE_RX; lia|].
  intros w1 Hd1 Hc1.
  apply runs_bind_wp. apply (waitForRssiSample_runs env Hok period Hperiod Hclk); [lia|].
  intros w2 Hc2 Hlt2 Hd2.
  apply runs_bind_wp.
  eapply runs_consequence;
    [apply (csma_loop_stash fuel (clock_reads w1) w2 Hfuel);
     destruct Hc2 as [Hc2 _]; lia|].
  cbv beta. intros [] w3 [_ HS3].
  apply runs_bind_wp. apply (setMode_runs env Hok); [unfold RFM69_MODE_STANDBY; lia|].
  intros w4 Hd4 Hc4. apply runs_ret.
  intros Hw. unfold stash_bounded. rewrite Hd4. cbn [set_mode _rxBufferLength].
  apply HS3. unfold stash_bounded. rewrite Hd2, Hd1. exact Hw.
Qed.

Lemma transmit_stash (fuel : nat) (data : buffer) (n : Z) (w : World) :
  (period * 100 < fuel)%nat ->
  runs (transmit env fuel data n) w (fun _ w' => same_stash w w').
Proof.
  intros Hfuel. unfold transmit, chipSelect, chipUnselect.
  apply runs_bind_wp. apply runs_ret.
  apply runs_bind_wp. eexists. eexists.
  split; [apply (rf12_xferByte_ok env Hok)|].
  apply runs_bind_wp. eexists. eexists.
  split; [apply (rf12_xferByte_ok env Hok)|].
  apply runs_bind_wp. eexists. eexists.
  split; [apply (for_loop_xferByte env Hok data)|].
  apply runs_bind_wp. apply runs_ret.
  apply runs_bind_wp. apply (setMode_runs env Hok); [unfold RFM69_MODE_TX; lia|].
  intros w1 Hd1 Hc1.
  apply runs_bind_wp. apply (waitForPacketSent_runs env Hok period Hperiod Hclk);
    [exact Hfuel|].
  intros w2 Hc2 Hd2.
  apply runs_bind_wp. apply (setMode_runs env Hok); [unfold RFM69_MODE_STANDBY; lia|].
  intros w3 Hd3 Hc3. apply runs_ret.
  unfold same_stash. rewrite Hd3, Hd2, Hd1, dev_log_bytes. split; reflexivity.
Qed.

Lemma send_stash (fuel : nat) (data : buffer) (len : Z) (w : World) :
  (period * 700 <= fuel)%nat ->
  runs (send env fuel data len) w
       (fun _ w' => (stash_bounded w -> stash_bounded w') /\
                    (_csmaEnabled (dev w) = false -> same_stash w w')).
Proof.
  intros Hfuel. unfold send.
  pose proof (period_positive env period Hclk) as HP.
  apply runs_bind_wp. apply runs_gets.
  apply runs_bind_wp.
  apply (send_standby_runs env Hok period Hperiod Hclk); [lia|].
  intros w1 Hc1 Hd1.
  assert (Hs1 : same_stash w w1).
  { unfold same_stash. rewrite Hd1.
    destruct (RFM69_MODE_SLEEP =? _mode (dev w)); split; reflexivity. }
  assert (Hcsma : _csmaEnabled (dev w1) = _csmaEnabled (dev w))
    by (rewrite Hd1; destruct (RFM69_MODE_SLEEP =? _mode (dev w)); reflexivity).
  apply runs_bind_wp. apply (clearFIFO_runs env Hok).
  cbv zeta.
  match goal with |- runs (if ?c then _ else _) _ _ => destruct c end.
  - apply runs_ret. split.
    + apply same_stash_bounded. exact Hs1.
    + intros _. exact Hs1.
  - apply runs_bind_wp. apply runs_gets. cbn [log_transfer dev]. rewrite Hcsma.
    apply (runs_bind _ _ _ (fun _ w_a =>
             (stash_bounded w -> stash_bounded w_a) /\
             (_csmaEnabled (dev w) = false -> same_stash w w_a))).
    + destruct (_csmaEnabled (dev w)).
      * eapply runs_consequence; [apply (csma_wait_stash fuel _ Hfuel)|].
        cbv beta. intros _ w_a HS. split; [|discriminate].
        intros Hw. apply HS. apply (same_stash_bounded w); [|exact Hw]. exact Hs1.
      * apply runs_ret. split; [apply same_stash_bounded; exact Hs1|intros _; exact Hs1].
    + intros _ w_a [HSa HEa].
      eapply runs_consequence; [apply (transmit_stash fuel data _ w_a); lia|].
      cbv beta. intros r w' Hs'. split.
      * intros Hw. apply (same_stash_bounded w_a); auto.
      * intros Hoff. apply (same_stash_trans w w_a w'); auto.
Qed.

End Stash.

(** X14 (reception). With a stash of at most 64 bytes, [receive] into a
    buffer of 64 bytes returns a count between 0 and 64 and leaves the
    stash empty. A stashed packet is handed out first, whole and without
    any transfer on the bus. *)
Theorem receive_whole_buffer (env : Env) (Hok : transport_ok env) (period : nat)
  (Hperiod : (period <= 4000)%nat) (Hclk : clock_ticks period env)
  (fuel : nat) (data : buffer) (w : World)
  (Hfuel : (period * 100 < fuel)%nat) (Hroom : (64 < fuel)%nat)
  (Hstash : stash_bounded w) :
  exists n data' w',
    receive env fuel data RFM69_MAX_PAYLOAD w = Ok (n, data') w' /\
    0 <= n <= RFM69_MAX_PAYLOAD /\
    _rxBufferLength (dev w') = 0 /\
    (0 < _rxBufferLength (dev w) ->
       n = _rxBufferLength (dev w) /\ spi_log w' = spi_log w /\
       forall i, Z.of_nat i < n -> data' i = _rxBuffer (dev w) i).
Proof.
  unfold stash_bounded, RFM69_MAX_PAYLOAD in Hstash.
  destruct (Z.ltb_spec 0 (_rxBufferLength (dev w))) as [Hpos|Hzero].
  - eexists. eexists. eexists.
    split; [apply (receive_stashed env fuel data RFM69_MAX_PAYLOAD w Hpos); lia|].
    rewrite (s32_small period Hperiod) by lia.
    split; [unfold RFM69_MAX_PAYLOAD; lia|]. split; [reflexivity|]. intros _.
    split; [reflexivity|]. split; [reflexivity|].
    intros i Hi. cbv beta.
    destruct (Z.ltb_spec (Z.of_nat i) RFM69_MAX_PAYLOAD) as [_|Hge];
      [reflexivity|unfold RFM69_MAX_PAYLOAD in Hge; lia].
  - destruct (_receive_post env Hok period Hperiod Hclk fuel data RFM69_MAX_PAYLOAD w
                Hfuel Hroom ltac:(unfold RFM69_MAX_PAYLOAD; lia))
      as [[n data'] [w' [Hrun [Hn [_ [_ [_ [[Hlen _] _]]]]]]]].
    exists n, data', w'. cbn [fst] in Hn.
    split; [|split; [exact Hn|split; [lia|intros Hpos; lia]]].
    unfold receive. unfold bind at 1. cbn [gets].
    destruct (Z.gtb_spec (_rxBufferLength (dev w)) 0) as [Hpos|_]; [lia|exact Hrun].
Qed.

Lemma receive_whole_buffer_witness :
  exists data' w',
    receive quiet_env 700 caller_buffer RFM69_MAX_PAYLOAD (stash_world 5) = Ok (5, data') w' /\
    _rxBufferLength (dev w') = 0 /\ spi_log w' = [] /\
    bytes_of data' 5 = [0x41; 0x42; 0x43; 0x44; 0x45].
Proof.
  destruct (receive_whole_buffer quiet_env quiet_env_ok 1 ltac:(lia) quiet_env_ticks
              700 caller_buffer (stash_world 5) ltac:(lia) ltac:(lia)
              ltac:(unfold stash_bounded; simpl; unfold RFM69_MAX_PAYLOAD; lia))
    as [n [data' [w' [Hrun [_ [Hempty Hstashed]]]]]].
  destruct (Hstashed ltac:(simpl; lia)) as [Hn [Hlog Hbytes]].
  change (_rxBufferLength (dev (stash_world 5))) with 5 in Hn. subst n.
  exists data', w'. split; [exact Hrun|]. split; [exact Hempty|]. split; [exact Hlog|].
  unfold bytes_of. cbn [seq map].
  rewrite !Hbytes by (simpl; lia). reflexivity.
Defined.

(** X15 (carrier sense). [send] keeps the stash within the 64 bytes of
    [_rxBuffer]: whatever the carrier sense loop receives while it waits,
    the stash length never leaves 0..64, for every length of the packet to
    send. With carrier sense switched off [send] does not touch the stash
    at all. *)
Theorem send_keeps_stash_bounded (env : Env) (Hok : transport_ok env) (period : nat)
  (Hperiod : (period <= 4000)%nat) (Hclk : clock_ticks period env)
  (fuel : nat) (data : buffer) (len : Z) (w : World)
  (Hfuel : (period * 700 <= fuel)%nat) (Hstash : stash_bounded w) :
  exists n w',
    send env fuel data len w = Ok n w' /\
    stash_bounded w' /\
    (_csmaEnabled (dev w) = false -> same_stash w w').
Proof.
  destruct (send_stash env Hok period Hperiod Hclk fuel data len w Hfuel)
    as [n [w' [Hrun [Hbounded Hsame]]]].
  exists n, w'. split; [exact Hrun|]. split; [exact (Hbounded Hstash)|exact Hsame].
Qed.

Lemma send_keeps_stash_bounded_witness :
  exists n w',
    send packet_env 700 caller_buffer 5
         (with_dev (set_csmaEnabled true) (fresh_world (RFM69_new false))) = Ok n w' /\
    stash_bounded w'.
Proof.
  destruct (send_keeps_stash_bounded packet_env packet_env_ok 1 ltac:(lia) packet_env_ticks
              700 caller_buffer 5
              (with_dev (set_csmaEnabled true) (fresh_world (RFM69_new false)))
              ltac:(lia)
              ltac:(unfold stash_bounded; simpl; unfold RFM69_MAX_PAYLOAD; lia))
    as [n [w' [Hrun [Hbounded _]]]].
  exists n, w'. split; assumption.
Defined.

(** ** The bridge programs *)

Lemma rounds_runs (round : buffer -> M (buffer * option (list Z)))
  (Inv : World -> Prop) (P : list Z -> Prop) :
  (forall rx w, Inv w ->
     runs (round rx) w
          (fun r w' => Inv w' /\ match snd r with Some p => P p | None => True end)) ->
  forall n rx w, Inv w ->
    runs (rounds round n rx) w
         (fun sent w' => Inv w' /\ Forall P sent /\ (length sent <= n)%nat).
Proof.
  intros Hround. induction n as [|n IH]; intros rx w Hw.
  - apply runs_ret. split; [exact Hw|]. split; [constructor|reflexivity].
  - cbn [rounds]. apply runs_bind_wp.
    eapply runs_consequence; [apply (Hround rx w Hw)|].
    cbv beta. intros r w1 [Hw1 Hp].
    apply runs_bind_wp.
    eapply runs_consequence; [apply (IH (fst r) w1 Hw1)|].
    cbv beta. intros later w2 [Hw2 [Hall Hlen]].
    apply runs_ret. split; [exact Hw2|].
    destruct (snd r) as [p|].
    + split; [constructor; assumption|cbn [length]; lia].
    + split; [exact Hall|lia].
Qed.

Section Setup.

Variable env : Env.
Hypothesis Hok : transport_ok env.

Lemma init_runs (h : RegisterMacros) (w : World) (Q : bool -> World -> Prop) :
  (forall w', dev w' = set_init true (dev w) -> Q true w') ->
  runs (init env h) w Q.
Proof.
  intros HQ.
  assert (Hcfg : setCustomConfig env (fun i => nth i (rfm69_base_config h) (0, 0))
                   (Z.of_nat (List.length (rfm69_base_config h))) w =
                 Ok tt (fold_right log_transfer w (config_frames (rfm69_base_config h)))).
  { unfold setCustomConfig. rewrite Nat2Z.id.
    rewrite (setCustomConfig_from env Hok).
    - reflexivity.
    - intros j Hj. cbn [length rfm69_base_config] in Hj.
      do 23 (destruct j as [|j]; [cbn; lia|]). lia. }
  unfold runs, init. unfold bind at 1. rewrite Hcfg.
  unfold bind at 1. rewrite (setPASettings_default_eq env Hok).
  unfold bind at 1. rewrite (clearFIFO_frame env Hok).
  eexists. eexists. split; [reflexivity|].
  apply HQ. cbn [with_dev log_transfer dev]. rewrite dev_fold_right. reflexivity.
Qed.

Lemma setup_tail_runs (w : World) :
  _highPowerDevice (dev w) = false ->
  runs (setPowerDBm env 13 ;; ret tt) w (fun _ w' => dev w' = dev w).
Proof.
  intros Hhp. unfold runs, setPowerDBm. unfold bind at 1. unfold bind at 1.
  cbn [gets]. rewrite Hhp.
  change ((13 <? -18) || (13 >? 20)) with false.
  change (negb false && (13 >? 13)) with false.
  change (false && (13 <? -2)) with false. cbv iota. cbn [negb].
  run_registers Hok. eexists. eexists. split; [reflexivity|reflexivity].
Qed.

Lemma bridge_setup_runs (h : RegisterMacros) (DEBUG : bool) (w : World) :
  _highPowerDevice (dev w) = false ->
  runs (bridge_setup env h DEBUG) w
       (fun _ w' => dev w' = set_mode RFM69_MODE_SLEEP (set_init true (dev w))).
Proof.
  intros Hhp. unfold bridge_setup, sleep.
  apply runs_bind_wp. apply init_runs. intros w1 Hd1.
  apply runs_bind_wp. apply runs_bind_wp.
  apply (setMode_runs env Hok); [unfold RFM69_MODE_SLEEP; lia|].
  intros w2 Hd2 _. apply runs_ret.
  apply runs_bind_wp.
  destruct (dumpRegisters_reads env Hok DEBUG w2) as [w3 [Hrun Hd3]].
  exists tt, w3. split; [exact Hrun|].
  eapply runs_consequence; [apply setup_tail_runs|].
  - rewrite Hd3, Hd2, Hd1. exact Hhp.
  - cbv beta. intros _ w4 Hd4. rewrite Hd4, Hd3, Hd2, Hd1. reflexivity.
Qed.

Lemma main_setup_runs (h : RegisterMacros) (w : World) :
  _highPowerDevice (dev w) = false ->
  runs (main_setup env h) w
       (fun _ w' => dev w' = set_mode RFM69_MODE_SLEEP (set_init true (dev w))).
Proof.
  intros Hhp. unfold main_setup, sleep.
  apply runs_bind_wp. apply init_runs. intros w1 Hd1.
  apply runs_bind_wp. apply runs_bind_wp.
  apply (setMode_runs env Hok); [unfold RFM69_MODE_SLEEP; lia|].
  intros w2 Hd2 _. apply runs_ret.
  eapply runs_consequence; [apply setup_tail_runs|].
  - rewrite Hd2, Hd1. exact Hhp.
  - cbv beta. intros _ w4 Hd4. rewrite Hd4, Hd2, Hd1. reflexivity.
Qed.

End Setup.

Section Bridge.

Variable env : Env.
Hypothesis Hok : transport_ok env.
Variable period : nat.
Hypothesis Hperiod : (period <= 4000)%nat.
Hypothesis Hclk : clock_ticks period env.

Lemma receive_unstashed (fuel : nat) (rx : buffer) (w : World) :
  (period * 100 < fuel)%nat -> (64 < fuel)%nat ->
  _rxBufferLength (dev w) = 0 ->
  runs (receive env fuel rx 64) w
       (fun res w' => 0 <= fst res <= 64 /\ _rxBufferLength (dev w') = 0).
Proof.
  intros Hfuel Hroom Hempty. unfold receive.
  apply runs_bind_wp. apply runs_gets. rewrite Hempty.
  change (0 >? 0) with false. cbv iota.
  eapply runs_consequence;
    [apply (_receive_post env Hok period Hperiod Hclk fuel rx 64 w Hfuel Hroom); lia|].
  cbv beta. intros res w' [Hn [_ [_ [_ [[Hlen _] _]]]]].
  split; [exact Hn|]. rewrite Hlen. exact Hempty.
Qed.

Lemma bridge_round_runs (fuel : nat) (rx : buffer) (w : World) :
  (period * 100 < fuel)%nat -> (64 < fuel)%nat ->
  _rxBufferLength (dev w) = 0 ->
  runs (bridge_round env fuel rx) w
       (fun r w' => _rxBufferLength (dev w') = 0 /\
                    match snd r with
                    | Some p => (1 <= length p <= 64)%nat
                    | None => True
                    end).
Proof.
  intros Hfuel Hroom Hempty. unfold bridge_round, usleep, sendudp.
  apply runs_bind_wp. apply runs_ret.
  apply runs_bind_wp.
  eapply runs_consequence; [apply (receive_unstashed fuel rx w Hfuel Hroom Hempty)|].
  cbv beta. intros res w1 [Hn He].
  destruct (Z.gtb_spec (fst res) 0) as [Hpos|_].
  - destruct (Z.gtb_spec (fst res) 64) as [Hbig|_]; [lia|].
    apply runs_bind_wp. apply runs_ret. apply runs_ret.
    split; [exact He|]. cbn [snd]. unfold bytes_of.
    rewrite length_map, length_seq. lia.
  - apply runs_ret. split; [exact He|exact I].
Qed.

Lemma main_round_runs (fuel : nat) (rx : buffer) (w : World) :
  (period * 100 < fuel)%nat -> (64 < fuel)%nat ->
  _rxBufferLength (dev w) = 0 ->
  runs (main_round env fuel rx) w
       (fun r w' => _rxBufferLength (dev w') = 0 /\
                    match snd r with
                    | Some p => (length p <= 63)%nat
                    | None => True
                    end).
Proof.
  intros Hfuel Hroom Hempty. unfold main_round, sendudp.
  apply runs_bind_wp. unfold runs at 1, delay. eexists. eexists.
  split; [reflexivity|].
  apply runs_bind_wp.
  eapply runs_consequence;
    [apply (receive_unstashed fuel rx (log_delay 10 w) Hfuel Hroom Hempty)|].
  cbv beta. intros res w1 [Hn He].
  destruct (Z.gtb_spec (fst res) 0) as [Hpos|_].
  - destruct (Z.gtb_spec (fst res) 64) as [Hbig|_]; [lia|].
    apply runs_bind_wp. apply runs_ret. apply runs_ret.
    split; [exact He|]. cbn [snd].
    rewrite length_map, length_seq. lia.
  - apply runs_ret. split; [exact He|exact I].
Qed.

End Bridge.

(** X16 (bridge program). The program of rfm12bridge.cxx, started on a
    driver for the RFM69W with an empty stash, gets through its set-up and
    through any number of rounds of its loop on a working transport and a
    moving clock: it never reads outside its array of 64 bytes, every
    datagram it hands to [sendudp] has between 1 and 64 bytes, and the
    stash stays empty. *)
Theorem bridge_datagrams_fit (env : Env) (Hok : transport_ok env) (period : nat)
  (Hperiod : (period <= 4000)%nat) (Hclk : clock_ticks period env)
  (h : RegisterMacros) (DEBUG : bool) (fuel n : nat) (rx : buffer) (w : World)
  (Hfuel : (period * 100 < fuel)%nat) (Hroom : (64 < fuel)%nat)
  (Hdevice : _highPowerDevice (dev w) = false)
  (Hempty : _rxBufferLength (dev w) = 0) :
  exists sent w',
    (bridge_setup env h DEBUG ;; rounds (bridge_round env fuel) n rx) w = Ok sent w' /\
    Forall (fun p => (1 <= length p <= 64)%nat) sent /\
    (length sent <= n)%nat /\
    _rxBufferLength (dev w') = 0.
Proof.
  assert (Hruns : runs (bridge_setup env h DEBUG ;; rounds (bridge_round env fuel) n rx) w
                    (fun sent w' => _rxBufferLength (dev w') = 0 /\
                                    Forall (fun p => (1 <= length p <= 64)%nat) sent /\
                                    (length sent <= n)%nat)).
  { apply runs_bind_wp.
    eapply runs_consequence; [apply (bridge_setup_runs env Hok h DEBUG w Hdevice)|].
    cbv beta. intros _ w1 Hd1.
    apply (rounds_runs (bridge_round env fuel)
             (fun w0 => _rxBufferLength (dev w0) = 0)
             (fun p => (1 <= length p <= 64)%nat)).
    - intros rx0 w0 Hw0.
      apply (bridge_round_runs env Hok period Hperiod Hclk fuel rx0 w0 Hfuel Hroom Hw0).
    - rewrite Hd1. exact Hempty. }
  destruct Hruns as [sent [w' [Hrun [He [Hall Hlen]]]]].
  exists sent, w'. auto.
Qed.

Lemma bridge_datagrams_fit_witness :
  exists w',
    (bridge_setup packet_env (mkRegisterMacros 0 0 0 0 0 0 0 0 0 0) false ;;
     rounds (bridge_round packet_env 700) 3 caller_buffer) (fresh_world (RFM69_new false)) =
      Ok [[0x41; 0x42; 0x43]] w'.
Proof.
  destruct (bridge_datagrams_fit packet_env packet_env_ok 1 ltac:(lia) packet_env_ticks
              (mkRegisterMacros 0 0 0 0 0 0 0 0 0 0) false 700 3 caller_buffer
              (fresh_world (RFM69_new false)) ltac:(lia) ltac:(lia)
              ltac:(reflexivity) ltac:(reflexivity))
    as [sent [w' [Hrun _]]].
  assert (Hsent : forall s w0,
            (bridge_setup packet_env (mkRegisterMacros 0 0 0 0 0 0 0 0 0 0) false ;;
             rounds (bridge_round packet_env 700) 3 caller_buffer)
              (fresh_world (RFM69_new false)) = Ok s w0 ->
            s = [[0x41; 0x42; 0x43]]).
  { intros s w0 E. vm_compute in E. injection E as <- _. reflexivity. }
  rewrite (Hsent _ _ Hrun) in Hrun. exists w'. exact Hrun.
Defined.

(** X17 (first main program). The program of the first main.cxx gets
    through its set-up and any number of rounds in the same way. It hands
    each packet on from its second byte, [sendudp(rx + 1, bytesReceived - 1)],
    so every datagram has at most 63 bytes, and the stash stays empty. *)
Theorem main_datagrams_fit (env : Env) (Hok : transport_ok env) (period : nat)
  (Hperiod : (period <= 4000)%nat) (Hclk : clock_ticks period env)
  (h : RegisterMacros) (fuel n : nat) (rx : buffer) (w : World)
  (Hfuel : (period * 100 < fuel)%nat) (Hroom : (64 < fuel)%nat)
  (Hdevice : _highPowerDevice (dev w) = false)
  (Hempty : _rxBufferLength (dev w) = 0) :
  exists sent w',
    (main_setup env h ;; rounds (main_round env fuel) n rx) w = Ok sent w' /\
    Forall (fun p => (length p <= 63)%nat) sent /\
    (length sent <= n)%nat /\
    _rxBufferLength (dev w') = 0.
Proof.
  assert (Hruns : runs (main_setup env h ;; rounds (main_round env fuel) n rx) w
                    (fun sent w' => _rxBufferLength (dev w') = 0 /\
                                    Forall (fun p => (length p <= 63)%nat) sent /\
                                    (length sent <= n)%nat)).
  { apply runs_bind_wp.
    eapply runs_consequence; [apply (main_setup_runs env Hok h w Hdevice)|].
    cbv beta. intros _ w1 Hd1.
    apply (rounds_runs (main_round env fuel)
             (fun w0 => _rxBufferLength (dev w0) = 0)
             (fun p => (length p <= 63)%nat)).
    - intros rx0 w0 Hw0.
      apply (main_round_runs env Hok period Hperiod Hclk fuel rx0 w0 Hfuel Hroom Hw0).
    - rewrite Hd1. exact Hempty. }
  destruct Hruns as [sent [w' [Hrun [He [Hall Hlen]]]]].
  exists sent, w'. auto.
Qed.

Lemma main_datagrams_fit_witness :
  exists w',
    (main_setup packet_env (mkRegisterMacros 0 0 0 0 0 0 0 0 0 0) ;;
     rounds (main_round packet_env 700) 3 caller_buffer) (fresh_world (RFM69_new false)) =
      Ok [[0x42; 0x43]] w'.
Proof.
  destruct (main_datagrams_fit packet_env packet_env_ok 1 ltac:(lia)
              packet_env_ticks (mkRegisterMacros 0 0 0 0 0 0 0 0 0 0) 700 3 caller_buffer
              (fresh_world (RFM69_new false)) ltac:(lia) ltac:(lia)
              ltac:(reflexivity) ltac:(reflexivity))
    as [sent [w' [Hrun _]]].
  assert (Hsent : forall s w0,
            (main_setup packet_env (mkRegisterMacros 0 0 0 0 0 0 0 0 0 0) ;;
             rounds (main_round packet_env 700) 3 caller_buffer)
              (fresh_world (RFM69_new false)) = Ok s w0 ->
            s = [[0x42; 0x43]]).
  { intros s w0 E. vm_compute in E. injection E as <- _. reflexivity. }
  rewrite (Hsent _ _ Hrun) in Hrun. exists w'. exact Hrun.
Defined.

(** ** A transport that fails *)

Lemma returns_or_aborts_ret {A} (a : A) (Q : A -> World -> Prop) :
  (forall w, Q a w) -> returns_or_aborts (ret a) Q.
Proof. intros HQ w. apply HQ. Qed.

Lemma returns_or_aborts_bind {A B} (m : M A) (k : A -> M B)
  (P : A -> World -> Prop) (Q : B -> World -> Prop) :
  returns_or_aborts m P -> (forall a, returns_or_aborts (k a) Q) ->
  returns_or_aborts (bind m k) Q.
Proof.
  intros Hm Hk w. unfold bind. specialize (Hm w).
  destruct (m w) as [a w1|s]; [apply Hk|exact Hm].
Qed.

Lemma returns_or_aborts_weaken {A} (m : M A) (P : A -> World -> Prop) :
  returns_or_aborts m P -> returns_or_aborts m (fun _ _ => True).
Proof. intros Hm w. specialize (Hm w). destruct (m w); [exact I|exact Hm]. Qed.

Lemma spi_transfer_or_aborts (env : Env) (tx : list Z) :
  returns_or_aborts (spi_transfer env tx) (fun _ _ => True).
Proof.
  intros w. unfold spi_transfer.
  destruct (spi_ioc_status env (spi_log w) tx <? 0); [reflexivity|exact I].
Qed.

Lemma writeRegister_or_aborts (env : Env) (reg value : Z) :
  returns_or_aborts (writeRegister env reg value) (fun _ _ => True).
Proof.
  unfold writeRegister. destruct (reg >? 127); [apply returns_or_aborts_ret; auto|].
  intros w. unfold chipSelect, chipUnselect, rf12_xferCmd, bind, ret, spi_transfer.
  destruct (spi_ioc_status env (spi_log w) _ <? 0); [reflexivity|exact I].
Qed.

Lemma readRegister_or_aborts (env : Env) (reg : Z) :
  returns_or_aborts (readRegister env reg) (fun _ _ => True).
Proof.
  unfold readRegister. destruct (reg >? 127); [apply returns_or_aborts_ret; auto|].
  intros w. unfold chipSelect, chipUnselect, rf12_xferCmd, bind, ret, spi_transfer.
  destruct (spi_ioc_status env (spi_log w) _ <? 0); [reflexivity|exact I].
Qed.

Lemma setCustomConfig_or_aborts (env : Env) (config : nat -> Z * Z) (length : Z) :
  returns_or_aborts (setCustomConfig env config length) (fun _ _ => True).
Proof.
  unfold setCustomConfig. generalize 0%nat.
  induction (Z.to_nat length) as [|n IH]; intros i.
  - apply returns_or_aborts_ret; auto.
  - cbn [for_loop]. eapply returns_or_aborts_bind;
      [apply writeRegister_or_aborts|intros _; apply IH].
Qed.

Lemma setPASettings_default_or_aborts (env : Env) :
  returns_or_aborts (setPASettings env 0) (fun _ _ => True).
Proof.
  unfold setPASettings. change (0 =? 0) with true. cbv iota.
  apply (returns_or_aborts_bind _ _ (fun _ _ => True)); [intros w; exact I|intros hp].
  eapply returns_or_aborts_bind; [apply writeRegister_or_aborts|intros _].
  destruct hp;
    (eapply returns_or_aborts_bind; [apply readRegister_or_aborts|intros v]);
    apply writeRegister_or_aborts.
Qed.

(** X18 (failing transport). [init] never returns false, whatever the
    transport does: it returns true with [_init] set, or the process is
    aborted by a transfer that failed. When already the first transfer,
    the write of the mode register, fails, the process is aborted. *)
Theorem init_true_or_aborted (env : Env) (h : RegisterMacros) (w : World) :
  match init env h w with
  | Ok b w' => b = true /\ _init (dev w') = true
  | Halt s => s = Aborted
  end /\
  (spi_ioc_status env (spi_log w) [0x81; 0x04] < 0 -> init env h w = Halt Aborted).
Proof.
  split.
  - revert w. change (returns_or_aborts (init env h)
                        (fun b w' => b = true /\ _init (dev w') = true)).
    unfold init.
    eapply returns_or_aborts_bind; [apply setCustomConfig_or_aborts|intros _].
    eapply returns_or_aborts_bind; [apply setPASettings_default_or_aborts|intros _].
    eapply returns_or_aborts_bind;
      [unfold clearFIFO; apply writeRegister_or_aborts|intros _].
    intros w. split; reflexivity.
  - intros Hfail. unfold init, setCustomConfig. rewrite Nat2Z.id.
    cbn [length rfm69_base_config for_loop nth fst snd].
    unfold bind at 1. unfold bind at 1.
    rewrite (writeRegister_fails env 0x01 0x04 w) by (try lia; exact Hfail).
    reflexivity.
Qed.

Lemma init_true_or_aborted_witness :
  init broken_env (mkRegisterMacros 0 0 0 0 0 0 0 0 0 0) (fresh_world (RFM69_new false)) =
    Halt Aborted.
Proof.
  apply (init_true_or_aborted broken_env (mkRegisterMacros 0 0 0 0 0 0 0 0 0 0)
           (fresh_world (RFM69_new false))).
  simpl. lia.
Defined.

(** ** The time limits of the waits *)

Lemma poll_register_expired (env : Env) (Hok : transport_ok env) (fuel : nat)
  (reg : Z) (busy : Z -> bool) (timeEntry timeout : Z) (w : World) :
  0 <= reg <= 127 ->
  busy (read_reply env (spi_log w) reg) = true ->
  timeout <= u32 (tick env (clock_reads w) - timeEntry) ->
  poll_register env (S fuel) reg busy timeEntry timeout w =
    Ok tt (count_clock_read (log_transfer [reg; 0] w)).
Proof.
  intros Hreg Hbusy Hlate. unfold poll_register.
  rewrite while_step, timed_cond_eq.
  unfold bind at 1. rewrite (readRegister_valid env Hok) by lia.
  cbn [ret]. rewrite Hbusy. cbn [log_transfer clock_reads].
  apply Z.ltb_ge in Hlate. rewrite Hlate. reflexivity.
Qed.

(** X19 (waits). On a transport that works and with a clock that moves (the
    tick counter advances at least once in every [period] readings, with
    [period] at most 4000, and by at most 1000 from one reading to the
    next), [waitForModeReady] and [waitForPacketSent] return whatever the
    chip answers. All they do is read their register, 0x27 or 0x28, once
    or more, and read the clock, more than once and at most
    [100 * period + 1] times; the driver's fields stay as they are. *)
Theorem waits_return_without_the_chip (env : Env) (Hok : transport_ok env) (period : nat)
  (Hperiod : (period <= 4000)%nat) (Hclk : clock_ticks period env)
  (fuel : nat) (w : World) (Hfuel : (period * 100 < fuel)%nat) :
  (exists k c : nat,
     waitForModeReady env fuel w =
       Ok tt (mkWorld (dev w) (repeat [0x27; 0] k ++ spi_log w) c (rand_calls w) (delays w)) /\
     (1 <= k)%nat /\ (clock_reads w < c <= clock_reads w + (period * 100 + 1))%nat) /\
  (exists k c : nat,
     waitForPacketSent env fuel w =
       Ok tt (mkWorld (dev w) (repeat [0x28; 0] k ++ spi_log w) c (rand_calls w) (delays w)) /\
     (1 <= k)%nat /\ (clock_reads w < c <= clock_reads w + (period * 100 + 1))%nat).
Proof.
  split.
  - destruct (waitForModeReady_runs env Hok period Hperiod Hclk fuel w
                (fun _ w' => continues (period * 100 + 1) w w') Hfuel)
      as [[] [w' [Hrun [Hbound _]]]]; [auto|].
    pose proof Hrun as Hshape. unfold waitForModeReady in Hshape.
    apply (wait_shape env Hok 0x27) in Hshape; [|lia].
    destruct Hshape as [k [c [Hk [Hc E]]]]. subst w'. cbn [clock_reads] in Hbound.
    exists k, c. split; [exact Hrun|]. split; [exact Hk|lia].
  - destruct (waitForPacketSent_runs env Hok period Hperiod Hclk fuel w
                (fun _ w' => continues (period * 100 + 1) w w') Hfuel)
      as [[] [w' [Hrun [Hbound _]]]]; [auto|].
    pose proof Hrun as Hshape. unfold waitForPacketSent in Hshape.
    apply (wait_shape env Hok 0x28) in Hshape; [|lia].
    destruct Hshape as [k [c [Hk [Hc E]]]]. subst w'. cbn [clock_reads] in Hbound.
    exists k, c. split; [exact Hrun|]. split; [exact Hk|lia].
Qed.

Lemma waits_return_without_the_chip_witness :
  (exists k c : nat,
     waitForModeReady quiet_env 700 (fresh_world (RFM69_new false)) =
       Ok tt (mkWorld (RFM69_new false) (repeat [0x27; 0] k) c 0 []) /\ (c <= 101)%nat) /\
  (exists k c : nat,
     waitForPacketSent quiet_env 700 (fresh_world (RFM69_new false)) =
       Ok tt (mkWorld (RFM69_new false) (repeat [0x28; 0] k) c 0 []) /\ (c <= 101)%nat).
Proof.
  destruct (waits_return_without_the_chip quiet_env quiet_env_ok 1 ltac:(lia) quiet_env_ticks
              700 (fresh_world (RFM69_new false)) ltac:(lia))
    as [[k1 [c1 [E1 [_ C1]]]] [k2 [c2 [E2 [_ C2]]]]].
  cbn [fresh_world dev spi_log clock_reads rand_calls delays] in E1, C1, E2, C2.
  rewrite app_nil_r in E1, E2.
  split; [exists k1, c1|exists k2, c2]; (split; [assumption|lia]).
Defined.

(** X20 (tick counter). [HAL_GetTick] adds the milliseconds within the
    second to the seconds, so the counter falls back when a second begins.
    A wait whose entry time was taken in one second, with the next
    reading of the clock in the following second at a millisecond part at
    least 2 lower, sees more than 4294966297 ticks elapsed and gives up at
    that first check, though less than a second has passed and the chip
    is not ready. *)
Theorem waits_end_at_second_boundary (env : Env) (Hok : transport_ok env)
  (fuel : nat) (w : World) (s ns ns' : Z)
  (Hentry : clock_gettime env (clock_reads w) = {| tv_sec := s; tv_nsec := ns |})
  (Hcheck : clock_gettime env (S (clock_reads w)) = {| tv_sec := s + 1; tv_nsec := ns' |})
  (Hns' : 0 <= ns') (Hns : ns < 1000000000)
  (Hlate : 2 <= Z.quot ns 1000000 - Z.quot ns' 1000000) :
  4294966298 <= u32 (tick env (S (clock_reads w)) - tick env (clock_reads w)) /\
  (Z.land (read_reply env (spi_log w) 0x27) 0x80 = 0 ->
     waitForModeReady env (S fuel) w =
       Ok tt (count_clock_read (log_transfer [0x27; 0] (count_clock_read w)))) /\
  (Z.land (read_reply env (spi_log w) 0x28) 0x08 = 0 ->
     waitForPacketSent env (S fuel) w =
       Ok tt (count_clock_read (log_transfer [0x28; 0] (count_clock_read w)))).
Proof.
  destruct (tick_second_boundary env (clock_reads w) (S (clock_reads w)) s ns ns'
              Hentry Hcheck Hns' Hns Hlate)
    as [_ Hfall].
  split; [exact Hfall|]. split; intros Hbusy.
  - unfold waitForModeReady. unfold bind at 1. rewrite HAL_GetTick_eq.
    apply (poll_register_expired env Hok); [lia| |].
    + cbn [count_clock_read spi_log]. rewrite Hbusy. reflexivity.
    + cbn [count_clock_read clock_reads]. unfold TIMEOUT_MODE_READY. lia.
  - unfold waitForPacketSent. unfold bind at 1. rewrite HAL_GetTick_eq.
    apply (poll_register_expired env Hok); [lia| |].
    + cbn [count_clock_read spi_log]. rewrite Hbusy. reflexivity.
    + cbn [count_clock_read clock_reads]. unfold TIMEOUT_PACKET_SENT. lia.
Qed.

Lemma waits_end_at_second_boundary_witness :
  waitForModeReady rollover_env 1 (fresh_world (RFM69_new false)) =
    Ok tt (count_clock_read
             (log_transfer [0x27; 0] (count_clock_read (fresh_world (RFM69_new false))))).
Proof.
  assert (Hready : transport_ok rollover_env) by (intros log tx; simpl; lia).
  apply (waits_end_at_second_boundary rollover_env Hready 0 (fresh_world (RFM69_new false))
           5 999000000 0);
    try reflexivity; try lia.
  - vm_compute. intros H. discriminate H.
Defined.

(** ** The framing loop of the RFM12 program *)

Lemma frame_size_range (tag : Z) : 6 <= RF12.frame_size tag <= 29.
Proof.
  unfold RF12.frame_size.
  repeat match goal with |- context [if ?c then _ else _] => destruct c end; lia.
Qed.

Lemma rf12_xferCmd_frame (env : Env) (Hok : transport_ok env) (hi lo : Z) (w : World) :
  0 <= hi < 256 -> 0 <= lo < 256 ->
  rf12_xferCmd env (hi * 256 + lo) w =
    Ok (Z.lor (Z.shiftl (u8 (nth 0 (spi_ioc_rx env (spi_log w) [hi; lo]) 0)) 8)
              (u8 (nth 1 (spi_ioc_rx env (spi_log w) [hi; lo]) 0)))
       (log_transfer [hi; lo] w).
Proof.
  intros Hhi Hlo. unfold rf12_xferCmd, bind, ret.
  assert (E1 : Z.land (Z.shiftr (hi * 256 + lo) 8) 255 = hi).
  { rewrite Z.shiftr_div_pow2 by lia. change (2 ^ 8) with 256.
    change 255 with (Z.ones 8). rewrite Z.land_ones by lia. change (2 ^ 8) with 256.
    Z.to_euclidean_division_equations. lia. }
  assert (E2 : Z.land (hi * 256 + lo) 255 = lo).
  { change 255 with (Z.ones 8). rewrite Z.land_ones by lia. change (2 ^ 8) with 256.
    Z.to_euclidean_division_equations. lia. }
  rewrite E1, E2, (spi_transfer_ok env Hok). reflexivity.
Qed.

Lemma store_byte_framing (loc : RF12.Locals) (b : Z) :
  RF12.framing loc ->
  let loc2 := RF12.choose_size (RF12.store_byte loc b) in
  RF12.len loc2 = RF12.len loc + 1 /\
  ((RF12.len loc2 >=? RF12.size loc2) = false /\ RF12.framing loc2 \/
   (RF12.len loc2 >=? RF12.size loc2) = true /\
   RF12.size loc2 = RF12.frame_size (RF12.buf loc2 4%nat) /\
   RF12.len loc2 = RF12.size loc2).
Proof.
  destruct loc as [buf len size]. unfold RF12.framing, RF12.store_byte, RF12.choose_size.
  cbn [RF12.buf RF12.len RF12.size].
  intros [[Hsize Hlen]|[Hsize Hlen]].
  - subst size. rewrite Z.eqb_refl, andb_true_r.
    destruct (Z.eqb_spec (len + 1) 5) as [E|Hne]; cbn [RF12.buf RF12.len RF12.size].
    + split; [reflexivity|]. left.
      pose proof (frame_size_range (poke buf (Z.to_nat len) (Z.land b 255) 4%nat)) as Hfs.
      split; [destruct (Z.geb_spec (len + 1)
                          (RF12.frame_size (poke buf (Z.to_nat len) (Z.land b 255) 4%nat)));
              [lia|reflexivity]|].
      right. split; [reflexivity|lia].
    + split; [reflexivity|]. left.
      split; [destruct (Z.geb_spec (len + 1) 5); [lia|reflexivity]|].
      left. split; [reflexivity|lia].
  - pose proof (frame_size_range (buf 4%nat)) as Hfs.
    destruct (Z.eqb_spec (len + 1) 5) as [E|_]; [lia|]. cbn [andb RF12.buf RF12.len RF12.size].
    assert (Hbuf : poke buf (Z.to_nat len) (Z.land b 255) 4%nat = buf 4%nat).
    { unfold poke. destruct (Nat.eqb_spec 4 (Z.to_nat len)); [lia|reflexivity]. }
    split; [reflexivity|].
    destruct (Z.geb_spec (len + 1) size) as [Hfull|Hmore].
    + right. split; [reflexivity|]. rewrite Hbuf. split; [exact Hsize|lia].
    + left. split; [reflexivity|]. right. rewrite Hbuf. split; [exact Hsize|lia].
Qed.

Section RF12_framing.

Variable env : Env.
Hypothesis Hok : transport_ok env.
Hypothesis Hchip : RF12.fifo_answers env.

Lemma status_read (w : World) :
  rf12_xferCmd env 0x0000 w = Ok (RF12.status_word env (spi_log w)) (log_transfer [0; 0] w).
Proof. apply (rf12_xferCmd_frame env Hok 0 0); lia. Qed.

Lemma read_frame_runs (fuel : nat) :
  forall (loc : RF12.Locals) (status : Z) (w : World),
    RF12.framing loc ->
    Z.land status 0x8000 = 0x8000 \/ Z.land status 0x0200 = 0x0200 ->
    (Z.to_nat (29 - RF12.len loc) < fuel)%nat ->
    runs (RF12.read_frame env fuel loc status) w
         (fun s w' =>
            dev w' = dev w /\
            (RF12.framing (fst (fst s)) /\
             (RF12.len (fst (fst s)) >=? RF12.size (fst (fst s))) = false \/
             RF12.size (fst (fst s)) = RF12.frame_size (RF12.buf (fst (fst s)) 4%nat) /\
             RF12.len (fst (fst s)) = RF12.size (fst (fst s)))).
Proof.
  unfold RF12.read_frame.
  induction fuel as [|fuel IH]; intros loc status w Hloc Hstatus Hfuel; [lia|].
  assert (Hlen : 0 <= RF12.len loc < 29).
  { destruct Hloc as [[H1 H2]|[H1 H2]]; [lia|].
    pose proof (frame_size_range (RF12.buf loc 4%nat)). lia. }
  assert (Hopen : (RF12.len loc >=? RF12.size loc) = false).
  { destruct (Z.geb_spec (RF12.len loc) (RF12.size loc)) as [H|_]; [|reflexivity].
    destruct Hloc as [[H1 H2]|[H1 H2]]; lia. }
  unfold runs. rewrite while_step. cbn [ret fst snd negb].
  destruct (Z.eqb_spec (Z.land status 512) 512) as [Hempty|Hdata]; cbn [negb andb].
  - eexists. eexists. split; [reflexivity|]. cbn [fst].
    split; [reflexivity|]. left. split; assumption.
  - destruct Hstatus as [Hbyte|Hempty]; [|contradiction].
    unfold RF12.read_step, usleep. unfold bind at 1. cbn [ret].
    rewrite Hbyte. change (32768 =? 32768) with true. cbv iota.
    unfold bind at 1. unfold bind at 1.
    rewrite (rf12_xferCmd_frame env Hok 0xB0 0) by lia.
    destruct (Z.leb_spec (RF12.len loc) 1023) as [_|Hbig]; [|lia].
    cbn [ret]. unfold bind at 1. rewrite status_read.
    cbn [log_transfer spi_log].
    match goal with
    | |- context [RF12.store_byte loc ?b] =>
        destruct (store_byte_framing loc b Hloc) as [Hnext Hcases]
    end.
    cbv zeta in Hnext, Hcases.
    destruct Hcases as [[Hmore Hframing]|[Hfull [Hsize Hdone]]].
    + rewrite Hmore. cbn [ret].
      match goal with
      | |- exists a w', while fuel ?c ?b (?l, ?st, false) ?w0 = _ /\ _ =>
          destruct (IH l st w0 Hframing (Hchip _) ltac:(lia)) as [s [w' [Ew [Hd Hpost]]]]
      end.
      exists s, w'. split; [exact Ew|]. split; [rewrite Hd; reflexivity|exact Hpost].
    + rewrite Hfull. cbn [ret].
      destruct fuel as [|fuel']; [lia|].
      rewrite while_step. cbn [ret fst snd negb andb]. rewrite andb_false_r.
      eexists. eexists. split; [reflexivity|]. cbn [fst].
      split; [reflexivity|]. right. split; assumption.
Qed.

Lemma rf12_main_round_runs (fuel : nat) (loc : RF12.Locals) (w : World) :
  RF12.framing loc -> (29 < fuel)%nat ->
  runs (RF12.main_round env fuel loc) w
       (fun r w' =>
          dev w' = dev w /\ RF12.framing (fst r) /\
          match snd r with
          | Some p =>
              length p = Z.to_nat (RF12.frame_size (nth 4 p 0)) /\
              RF12.len (fst r) = 0 /\ RF12.size (fst r) = 5 /\
              exists log, spi_log w' = [0xCA; 0x83] :: [0xCA; 0x81] :: [0x82; 0xC8] :: log
          | None => True
          end).
Proof.
  intros Hloc Hfuel. unfold RF12.main_round, usleep, sendudp.
  apply runs_bind_wp. apply runs_ret.
  apply runs_bind_wp. unfold runs at 1. eexists. eexists. split; [apply status_read|].
  apply runs_bind_wp.
  assert (Hlen : 0 <= RF12.len loc).
  { destruct Hloc as [[H1 H2]|[H1 H2]]; lia. }
  eapply runs_consequence;
    [apply (read_frame_runs fuel loc _ _ Hloc (Hchip _)); lia|].
  cbv beta. intros [[loc' st] stop] w1 [Hd1 Hpost]. cbn [fst snd] in Hpost. cbv zeta. cbn [fst].
  destruct Hpost as [[Hframing Hopen]|[Hsize Hdone]].
  - assert (Hsmall : (RF12.len loc' >=? 1024) = false).
    { destruct (Z.geb_spec (RF12.len loc') 1024) as [H|_]; [|reflexivity].
      pose proof (frame_size_range (RF12.buf loc' 4%nat)).
      destruct Hframing as [[H1 H2]|[H1 H2]]; lia. }
    rewrite Hsmall, Hopen. cbn [orb].
    apply runs_ret. cbn [fst snd]. split; [exact Hd1|]. split; [exact Hframing|exact I].
  - pose proof (frame_size_range (RF12.buf loc' 4%nat)) as Hfs.
    assert (Hfull : (RF12.len loc' >=? RF12.size loc') = true).
    { destruct (Z.geb_spec (RF12.len loc') (RF12.size loc')); [reflexivity|lia]. }
    rewrite Hfull, orb_true_r.
    apply runs_bind_wp. unfold runs at 1. eexists. eexists.
    split; [apply (rf12_xferCmd_frame env Hok 0x82 0x08); lia|].
    destruct (Z.gtb_spec (RF12.len loc') 1024) as [H|_]; [lia|].
    destruct (Z.gtb_spec (RF12.size loc') 1024) as [H|_]; [lia|]. cbn [orb].
    apply runs_bind_wp. apply runs_ret.
    apply runs_bind_wp. unfold runs at 1. eexists. eexists.
    split; [apply (rf12_xferCmd_frame env Hok 0x82 0xC8); lia|].
    apply runs_bind_wp. unfold runs at 1. eexists. eexists.
    split; [apply (rf12_xferCmd_frame env Hok 0xCA 0x81); lia|].
    apply runs_bind_wp. unfold runs at 1. eexists. eexists.
    split; [apply (rf12_xferCmd_frame env Hok 0xCA 0x83); lia|].
    apply runs_ret. cbn [fst snd RF12.len RF12.size RF12.buf log_transfer dev spi_log].
    split; [exact Hd1|].
    split; [unfold RF12.framing; cbn [RF12.len RF12.size]; left; split; [reflexivity|lia]|].
    split.
    + unfold bytes_of. rewrite length_map, length_seq.
      assert (Hnth : nth 4 (map (RF12.buf loc') (seq 0 (Z.to_nat (RF12.size loc')))) 0 =
                     RF12.buf loc' 4%nat).
      { rewrite (nth_indep _ 0 (RF12.buf loc' 0%nat))
          by (rewrite length_map, length_seq; lia).
        rewrite map_nth, seq_nth by lia. reflexivity. }
      rewrite Hnth, <- Hsize. reflexivity.
    + split; [reflexivity|]. split; [reflexivity|]. eexists. reflexivity.
Qed.

End RF12_framing.

(** X21 (RFM12 framing). With a working transport and a chip whose status
    always shows a byte to read or an empty FIFO, every round of the loop
    of the RFM12 program returns. Between rounds the frame is incomplete:
    fewer than 5 bytes at size 5, or fewer bytes than the size that the
    fifth byte selects, so [len] stays below 29. A datagram that is sent
    has the size selected by its own fifth byte, between 6 and 29 bytes;
    the locals are then reset to length 0 and size 5, and the receiver is
    restarted with the commands 0x82C8, 0xCA81 and 0xCA83. *)
Theorem rf12_frames_have_their_size (env : Env) (Hok : transport_ok env)
  (Hchip : RF12.fifo_answers env) (fuel : nat) (loc : RF12.Locals) (w : World)
  (Hloc : RF12.framing loc) (Hfuel : (29 < fuel)%nat) :
  exists loc' sent w',
    RF12.main_round env fuel loc w = Ok (loc', sent) w' /\
    RF12.framing loc' /\ 0 <= RF12.len loc' < 29 /\
    match sent with
    | Some p =>
        length p = Z.to_nat (RF12.frame_size (nth 4 p 0)) /\
        (6 <= length p <= 29)%nat /\
        RF12.len loc' = 0 /\ RF12.size loc' = 5 /\
        exists log, spi_log w' = [0xCA; 0x83] :: [0xCA; 0x81] :: [0x82; 0xC8] :: log
    | None => True
    end.
Proof.
  destruct (rf12_main_round_runs env Hok Hchip fuel loc w Hloc Hfuel)
    as [[loc' sent] [w' [Hrun [_ [Hframing Hsent]]]]].
  cbn [fst snd] in Hframing, Hsent.
  exists loc', sent, w'. split; [exact Hrun|]. split; [exact Hframing|].
  split.
  - destruct Hframing as [[H1 H2]|[H1 H2]]; [lia|].
    pose proof (frame_size_range (RF12.buf loc' 4%nat)). lia.
  - destruct sent as [p|]; [|exact I].
    destruct Hsent as [Hp [Hl [Hs Hlog]]].
    split; [exact Hp|]. split; [|auto].
    rewrite Hp. pose proof (frame_size_range (nth 4 p 0)). lia.
Qed.

Lemma rf12_frames_have_their_size_witness :
  exists loc' w',
    RF12.main_round RF12.stream_env 30 (RF12.mkLocals (fun _ => 0) 0 5)
      (fresh_world (RFM69_new false)) =
      Ok (loc', Some (repeat 77 11)) w'.
Proof.
  assert (Hready : transport_ok RF12.stream_env) by (intros log tx; simpl; lia).
  assert (Hchip : RF12.fifo_answers RF12.stream_env) by (intros log; left; reflexivity).
  destruct (rf12_frames_have_their_size RF12.stream_env Hready Hchip 30
              (RF12.mkLocals (fun _ => 0) 0 5) (fresh_world (RFM69_new false))
              ltac:(left; split; [reflexivity|simpl; lia]) ltac:(lia))
    as [loc' [sent [w' [Hrun _]]]].
  assert (Hsent : forall r w0,
            RF12.main_round RF12.stream_env 30 (RF12.mkLocals (fun _ => 0) 0 5)
              (fresh_world (RFM69_new false)) = Ok r w0 ->
            snd r = Some (repeat 77 11)).
  { intros r w0 E. vm_compute in E. injection E as <- _. reflexivity. }
  pose proof (Hsent _ _ Hrun) as E. cbn [snd] in E. subst sent.
  exists loc', w'. exact Hrun.
Defined.
